(** * JsonAnalysis: the structural analyzer and its report, verified

    A shallow embedding of [jsonanalyzer/analyzer.py], [jsonanalyzer/models.py]
    and [jsonanalyzer/report.py], with the part of the Python runtime the
    code relies on: values and their classes, insertion-ordered dictionaries
    with unique keys, what [json.load] builds from a JSON document, shared
    accumulators mutated through the recursion, and exceptions caught by
    [try/except]. *)

From stdpp Require Import base strings list gmap sorting pretty.
From Stdlib Require Import OrdersEx.

Local Open Scope string_scope.
Local Open Scope list_scope.
Set Warnings "-register-all".

(** ** Python values *)

Module Py.

(** The classes the analyzer tests with [isinstance]. [Cother] stands for any
    class outside the JSON value space (tuple, set, bytes, ...). *)
Inductive pyclass : Type :=
  | Cstr | Cbool | Cint | Cfloat | Cdict | Clist | CNoneType | Cother.

#[export] Instance pyclass_eq_dec : EqDecision pyclass.
Proof. solve_decision. Defined.

(** A Python value. A float is identified by its [repr]; a dictionary by its
    items in insertion order; [POther] is an object of a class outside the
    JSON value space, identified by its [repr]. *)
Inductive pyval : Type :=
  | PStr (s : string)
  | PBool (b : bool)
  | PInt (z : Z)
  | PFloat (repr : string)
  | PNone
  | PDict (items : list (string * pyval))
  | PList (elems : list pyval)
  | POther (repr : string).

Definition type_of (v : pyval) : pyclass :=
  match v with
  | PStr _ => Cstr
  | PBool _ => Cbool
  | PInt _ => Cint
  | PFloat _ => Cfloat
  | PNone => CNoneType
  | PDict _ => Cdict
  | PList _ => Clist
  | POther _ => Cother
  end.

(** [issubclass]: every class is its own subclass, and [bool] is a subclass
    of [int]. *)
Definition issubclass (c d : pyclass) : bool :=
  bool_decide (c = d) ||
  match c, d with
  | Cbool, Cint => true
  | _, _ => false
  end.

Definition isinstance (v : pyval) (c : pyclass) : bool :=
  issubclass (type_of v) c.

(** [isinstance(v, (c1, c2, ...))] *)
Definition isinstance_any (v : pyval) (cs : list pyclass) : bool :=
  existsb (isinstance v) cs.

Definition is_none (v : pyval) : bool :=
  match v with PNone => true | _ => false end.

(** *** Dictionaries

    A [dict] keeps one entry per key, in the order of first insertion.
    [d[k] = v] replaces the value of an existing key in place and appends a
    new key at the end. *)
Section Dict.
Context {V : Type}.

Fixpoint dict_get (d : list (string * V)) (k : string) : option V :=
  match d with
  | [] => None
  | (k', v) :: d' => if String.eqb k' k then Some v else dict_get d' k
  end.

Definition dict_contains (d : list (string * V)) (k : string) : bool :=
  match dict_get d k with Some _ => true | None => false end.

Fixpoint dict_set (d : list (string * V)) (k : string) (v : V)
  : list (string * V) :=
  match d with
  | [] => [(k, v)]
  | (k', v') :: d' =>
      if String.eqb k' k then (k', v) :: d' else (k', v') :: dict_set d' k v
  end.

(** [dict(pairs)]: the pairs are inserted from left to right. *)
Definition dict_of_pairs (pairs : list (string * V)) : list (string * V) :=
  fold_left (fun d kv => dict_set d kv.1 kv.2) pairs [].
End Dict.

(** [d.items()] and the elements of a list; empty for a value of another
    class (the analyzer only calls them after the class test). *)
Definition items (v : pyval) : list (string * pyval) :=
  match v with PDict its => its | _ => [] end.

Definition list_elems (v : pyval) : list pyval :=
  match v with PList l => l | _ => [] end.

(** A value the interpreter can hold: the keys of every dictionary in it are
    pairwise distinct. *)
Fixpoint well_formed (v : pyval) : Prop :=
  match v with
  | PDict its =>
      NoDup its.*1 /\
      (fix all (l : list (string * pyval)) : Prop :=
         match l with
         | [] => True
         | kv :: l' => well_formed kv.2 /\ all l'
         end) its
  | PList l =>
      (fix all (l : list pyval) : Prop :=
         match l with
         | [] => True
         | x :: l' => well_formed x /\ all l'
         end) l
  | _ => True
  end.

End Py.
Export Py.

(** ** What [json.load] hands to the analyzer

    [file_handler.read_and_parse_json] calls [json.load(f)] with no
    [object_pairs_hook]. A JSON document is the tree the JSON grammar gives:
    an object is the sequence of its members as written, a key may occur
    several times. The decoder turns each object into a [dict] by inserting
    the members from left to right. *)

Module Json.

Inductive jdoc : Type :=
  | JString (s : string)
  | JInt (z : Z)
  | JFloat (repr : string)
  | JTrue
  | JFalse
  | JNull
  | JObject (members : list (string * jdoc))
  | JArray (elems : list jdoc).

Fixpoint json_load (d : jdoc) : pyval :=
  match d with
  | JString s => PStr s
  | JInt z => PInt z
  | JFloat r => PFloat r
  | JTrue => PBool true
  | JFalse => PBool false
  | JNull => PNone
  | JObject members =>
      PDict (dict_of_pairs (map (fun '(k, v) => (k, json_load v)) members))
  | JArray elems => PList (map json_load elems)
  end.

End Json.
Export Json.

(** ** models.py *)

Module Models.

Inductive JsonValueType : Type :=
  | TString | TNumber | TBoolean | TNull | TObject | TArray | TUnknown.

#[export] Instance JsonValueType_eq_dec : EqDecision JsonValueType.
Proof. solve_decision. Defined.

(** The string literal each tag is in the source. *)
Definition type_name (t : JsonValueType) : string :=
  match t with
  | TString => "string"
  | TNumber => "number"
  | TBoolean => "boolean"
  | TNull => "null"
  | TObject => "object"
  | TArray => "array"
  | TUnknown => "unknown"
  end.

Record TypeStatistics : Type := mkStats {
  strings : nat;
  numbers : nat;
  booleans : nat;
  nulls : nat;
  objects : nat;
  arrays : nat;
  total_values : nat
}.

Inductive StructureSummary : Type := mkSummary {
  type : JsonValueType;
  keys : option (list (string * StructureSummary));
  element_summary : option StructureSummary;
  element_types : option (list JsonValueType);
  is_empty : bool
}.

Record DuplicateKeyInfo : Type := mkDup {
  path : string;
  key : string
}.

#[export] Instance DuplicateKeyInfo_eq_dec : EqDecision DuplicateKeyInfo.
Proof. solve_decision. Defined.

Record JsonAnalysisResult : Type := mkResult {
  filepath : option string;
  analysis_error : option string;
  file_size_bytes : option nat;
  root_type : option JsonValueType;
  max_depth : option nat;
  statistics : option TypeStatistics;
  structure : option StructureSummary;
  duplicate_keys : list DuplicateKeyInfo
}.

End Models.
Export Models.

(** ** Ordering and [sorted]

    Python compares strings lexicographically by code point and tuples
    lexicographically by component. *)

Module PyOrder.

Definition str_leb (a b : string) : bool :=
  match String_as_OT.compare a b with
  | Gt => false
  | _ => true
  end.

Definition str_le (a b : string) : Prop := str_leb a b.

(** [(a1, a2) <= (b1, b2)] *)
Definition pair_leb (x y : string * string) : bool :=
  match String_as_OT.compare x.1 y.1 with
  | Lt => true
  | Eq => str_leb x.2 y.2
  | Gt => false
  end.

Definition pair_le (x y : string * string) : Prop := pair_leb x y.

#[export] Instance str_le_dec : RelDecision str_le.
Proof. intros a b. unfold str_le. apply _. Defined.

#[export] Instance pair_le_dec : RelDecision pair_le.
Proof. intros a b. unfold pair_le. apply _. Defined.

(** Comparing two elements by their keys. *)
Definition by_key {A K : Type} (le : relation K) (f : A -> K) : relation A :=
  fun x y => le (f x) (f y).

(** [sorted(l, key=f)]. Python's sort is stable: elements with equal keys
    keep their order. Both uses in this program sort by a key that
    determines the element, so the result is the only sorted arrangement of
    [l] ([py_sorted_unique] below). *)
Definition py_sorted {A K : Type} (le : relation K) `{!RelDecision le}
    (f : A -> K) (l : list A) : list A :=
  @merge_sort A (by_key le f) (fun x y => decide_rel le (f x) (f y)) l.

End PyOrder.
Export PyOrder.

(** ** analyzer.py *)

Module Analyzer.

(** [_get_value_type]: the chain of class tests, in the order of the source. *)
Definition _get_value_type (value : pyval) : JsonValueType :=
  if isinstance value Cstr then TString
  else if isinstance value Cbool then TBoolean
  else if isinstance_any value [Cint; Cfloat] then TNumber
  else if isinstance value Cdict then TObject
  else if isinstance value Clist then TArray
  else if is_none value then TNull
  else TUnknown.

(** *** Exceptions and the shared accumulators

    [stats], [duplicates] and [max_depth_tracker] are one object each, created
    by [analyze] and mutated in place by every call of the walk; a call that
    raises leaves them as they were when the exception started. *)

(** The exceptions of class [Exception] that can reach the handlers. *)
Inductive pyexn : Type :=
  | RecursionError
  | MemoryError.

Definition exn_name (e : pyexn) : string :=
  match e with
  | RecursionError => "RecursionError"
  | MemoryError => "MemoryError"
  end.

(** [str(e)]. For [RecursionError] this is the text of an exception raised
    at the call of a Python function; where the limit is hit inside a
    built-in, the interpreter appends the place ([ in comparison],
    [ in __instancecheck__]). *)
Definition exn_message (e : pyexn) : string :=
  match e with
  | RecursionError => "maximum recursion depth exceeded"
  | MemoryError => EmptyString
  end.

Inductive outcome (A : Type) : Type :=
  | Ok (a : A)
  | Raise (e : pyexn).
Arguments Ok {A} a.
Arguments Raise {A} e.

Record accumulators : Type := mkAcc {
  stats : TypeStatistics;
  duplicates : list DuplicateKeyInfo;
  max_depth_tracker : nat
}.

Definition Walk (A : Type) : Type := accumulators -> outcome A * accumulators.

#[export] Instance walk_ret : MRet Walk := fun A a acc => (Ok a, acc).

#[export] Instance walk_bind : MBind Walk := fun A B f m acc =>
  match m acc with
  | (Ok a, acc') => f a acc'
  | (Raise e, acc') => (Raise e, acc')
  end.

Definition raise {A : Type} (e : pyexn) : Walk A := fun acc => (Raise e, acc).

Definition update_stats (f : TypeStatistics -> TypeStatistics) : Walk unit :=
  fun acc => (Ok tt, mkAcc (f (stats acc)) (duplicates acc) (max_depth_tracker acc)).

Definition append_duplicate (d : DuplicateKeyInfo) : Walk unit :=
  fun acc => (Ok tt, mkAcc (stats acc) (duplicates acc ++ [d]) (max_depth_tracker acc)).

Definition update_max_depth (current_depth : nat) : Walk unit :=
  fun acc => (Ok tt, mkAcc (stats acc) (duplicates acc)
                           (Nat.max (max_depth_tracker acc) current_depth)).

(** [stats[field] += 1], one per counter. *)
Definition incr_total_values (s : TypeStatistics) : TypeStatistics :=
  mkStats (strings s) (numbers s) (booleans s) (nulls s) (objects s) (arrays s)
          (total_values s + 1).
Definition incr_objects (s : TypeStatistics) : TypeStatistics :=
  mkStats (strings s) (numbers s) (booleans s) (nulls s) (objects s + 1) (arrays s)
          (total_values s).
Definition incr_arrays (s : TypeStatistics) : TypeStatistics :=
  mkStats (strings s) (numbers s) (booleans s) (nulls s) (objects s) (arrays s + 1)
          (total_values s).
Definition incr_strings (s : TypeStatistics) : TypeStatistics :=
  mkStats (strings s + 1) (numbers s) (booleans s) (nulls s) (objects s) (arrays s)
          (total_values s).
Definition incr_numbers (s : TypeStatistics) : TypeStatistics :=
  mkStats (strings s) (numbers s + 1) (booleans s) (nulls s) (objects s) (arrays s)
          (total_values s).
Definition incr_booleans (s : TypeStatistics) : TypeStatistics :=
  mkStats (strings s) (numbers s) (booleans s + 1) (nulls s) (objects s) (arrays s)
          (total_values s).
Definition incr_nulls (s : TypeStatistics) : TypeStatistics :=
  mkStats (strings s) (numbers s) (booleans s) (nulls s + 1) (objects s) (arrays s)
          (total_values s).

(** *** Equality of summaries

    [s == first_summary] on the summary dictionaries. Python compares two
    dictionaries as mappings: same number of keys, and every key of the left
    one is in the right one with an equal value; the order of insertion
    plays no part. Lists compare element by element. *)
Fixpoint summary_eqb (a b : StructureSummary) : bool :=
  bool_decide (type a = type b) &&
  match keys a, keys b with
  | None, None => true
  | Some ka, Some kb =>
      bool_decide (length ka = length kb) &&
      (fix all (l : list (string * StructureSummary)) : bool :=
         match l with
         | [] => true
         | (k, v) :: l' =>
             match dict_get kb k with
             | Some v' => summary_eqb v v'
             | None => false
             end && all l'
         end) ka
  | _, _ => false
  end &&
  match element_summary a, element_summary b with
  | None, None => true
  | Some ea, Some eb => summary_eqb ea eb
  | _, _ => false
  end &&
  bool_decide (element_types a = element_types b) &&
  bool_decide (is_empty a = is_empty b).

(** [sorted(list(set(element_types)))]. The order in which the set yields its
    elements does not reach the result: the tags are pairwise distinct, so
    their sorted arrangement is unique. *)
Definition unique_sorted_types (element_types : list JsonValueType)
  : list JsonValueType :=
  py_sorted str_le type_name (remove_dups element_types).

(** *** The recursive walk

    [frames] is the number of nested calls the interpreter still allows when
    the walk is entered (the recursion limit less the frames in use); a call
    beyond it raises [RecursionError] before its body runs.

    Only the calls of the walk itself are charged to [frames]: the frame
    that the innermost call needs for [_get_value_type] or for the generator
    of [all(...)] is not counted, and neither are the comparisons
    [s == first_summary], which CPython 3.12 and later keep out of the
    recursion limit and earlier versions charge to it. A run of the
    interpreter can therefore raise [RecursionError] where this walk
    returns, for one in the comparison of two deep summaries on the earlier
    versions. What a run computes when it returns is the same for every
    [frames] ([analyze_recursive_returns] below). *)

(** The [for key, value in obj_node.items()] loop of the object branch. *)
Fixpoint object_loop (recurse : pyval -> string -> nat -> Walk StructureSummary)
    (current_path : string) (current_depth : nat)
    (its : list (string * pyval)) (seen_keys : gset string)
    (summary_keys : list (string * StructureSummary))
  : Walk (list (string * StructureSummary)) :=
  match its with
  | [] => mret summary_keys
  | (key, value) :: rest =>
      seen_keys' ←
        (if bool_decide (key ∈ seen_keys)
         then append_duplicate (mkDup current_path key) ;; mret seen_keys
         else mret ({[ key ]} ∪ seen_keys));
      let child_path :=
        if bool_decide (current_path = EmptyString) then key
        else current_path +:+ "." +:+ key in
      child ← recurse value child_path (current_depth + 1);
      object_loop recurse current_path current_depth rest seen_keys'
                  (dict_set summary_keys key child)
  end.

(** The [for i, item in enumerate(arr_node)] loop of the array branch. *)
Fixpoint array_loop (recurse : pyval -> string -> nat -> Walk StructureSummary)
    (current_path : string) (current_depth : nat)
    (arr : list pyval) (i : nat)
    (element_summaries : list StructureSummary)
    (element_types : list JsonValueType)
  : Walk (list StructureSummary * list JsonValueType) :=
  match arr with
  | [] => mret (element_summaries, element_types)
  | item :: rest =>
      let child_path := current_path +:+ "[" +:+ pretty i +:+ "]" in
      item_summary ← recurse item child_path (current_depth + 1);
      array_loop recurse current_path current_depth rest (i + 1)
                 (element_summaries ++ [item_summary])
                 (element_types ++ [type item_summary])
  end.

(** The representative summary of the elements of an array. The test
    [all(s == first_summary for s in element_summaries)] is [summary_eqb] on
    every summary; it always answers here, its frames not being counted
    (see above). *)
Definition representative (element_summaries : list StructureSummary)
    (unique_types : list JsonValueType) : option StructureSummary :=
  match element_summaries with
  | [] => None
  | first_summary :: _ =>
      match unique_types with
      | [t] =>
          let is_uniform :=
            forallb (fun s => summary_eqb s first_summary) element_summaries in
          if is_uniform then Some first_summary
          else Some (mkSummary t None None None false)
      | _ => None
      end
  end.

Fixpoint _analyze_recursive (frames : nat) (node : pyval)
    (current_path : string) (current_depth : nat) : Walk StructureSummary :=
  match frames with
  | 0 => raise RecursionError
  | S frames' =>
      let node_type := _get_value_type node in
      update_stats incr_total_values ;;
      update_max_depth current_depth ;;
      match node_type with
      | TObject =>
          update_stats incr_objects ;;
          summary_keys ←
            object_loop (_analyze_recursive frames') current_path current_depth
                        (items node) ∅ [];
          mret (mkSummary node_type (Some summary_keys) None None
                          (bool_decide (items node = [])))
      | TArray =>
          update_stats incr_arrays ;;
          '(element_summaries, element_types) ←
            array_loop (_analyze_recursive frames') current_path current_depth
                       (list_elems node) 0 [] [];
          let unique_types := unique_sorted_types element_types in
          mret (mkSummary node_type None
                          (representative element_summaries unique_types)
                          (Some unique_types)
                          (bool_decide (list_elems node = [])))
      | TString =>
          update_stats incr_strings ;;
          mret (mkSummary node_type None None None false)
      | TNumber =>
          update_stats incr_numbers ;;
          mret (mkSummary node_type None None None false)
      | TBoolean =>
          update_stats incr_booleans ;;
          mret (mkSummary node_type None None None false)
      | TNull =>
          update_stats incr_nulls ;;
          mret (mkSummary node_type None None None false)
      | TUnknown =>
          mret (mkSummary node_type None None None false)
      end
  end.

(** *** The analyzer object *)

Record JsonAnalyzer : Type := mkAnalyzer {
  results : JsonAnalysisResult;
  parsed_data : option pyval
}.

(** [JsonAnalyzer.__init__] *)
Definition JsonAnalyzer_init : JsonAnalyzer :=
  mkAnalyzer (mkResult None None None None (Some 0) None None []) None.

Definition newline : string := String (Ascii.ascii_of_nat 10) EmptyString.

Definition initial_stats : TypeStatistics := mkStats 0 0 0 0 0 0 0.

(** The accumulators [analyze] creates: counters at zero, no duplicate,
    depth tracker at zero. *)
Definition fresh_accumulators : accumulators := mkAcc initial_stats [] 0.

Section Analyze.
(** [traceback.format_exc()] in the handler of the exception given. *)
Variable format_exc : pyexn -> string.

Definition analysis_error_message (e : pyexn) : string :=
  "Unexpected Analysis Error: Failed processing JSON data." +:+ newline +:+
  "  Error: " +:+ exn_name e +:+ ": " +:+ exn_message e +:+ newline +:+
  "Traceback:" +:+ newline +:+ format_exc e.

(** [JsonAnalyzer.analyze]: the state of the analyzer after the call.
    [root_type] is assigned before the [try]; the four assignments of the
    [try] body happen only once the walk has returned. *)
Definition analyze (frames : nat) (self : JsonAnalyzer) (data : pyval)
  : JsonAnalyzer :=
  let r := results self in
  let r := mkResult (filepath r) (analysis_error r) (file_size_bytes r)
                    (Some (_get_value_type data)) (max_depth r)
                    (statistics r) (structure r) (duplicate_keys r) in
  match _analyze_recursive frames data "root" 0 fresh_accumulators with
  | (Ok summary, acc') =>
      mkAnalyzer
        (mkResult (filepath r) (analysis_error r) (file_size_bytes r)
                  (root_type r) (Some (max_depth_tracker acc'))
                  (Some (stats acc')) (Some summary) (duplicates acc'))
        (Some data)
  | (Raise e, _) =>
      mkAnalyzer
        (mkResult (filepath r) (Some (analysis_error_message e))
                  (file_size_bytes r) (root_type r) None None None [])
        (Some data)
  end.
End Analyze.

End Analyzer.
Export Analyzer.

(** ** report.py *)

Module Report.

#[export] Instance outcome_ret : MRet outcome := fun A a => Ok a.

#[export] Instance outcome_bind : MBind outcome := fun A B f m =>
  match m with
  | Ok a => f a
  | Raise e => Raise e
  end.

(** *** The result dictionary as a Python value

    [analyzer.results] and everything in it are dictionaries, and the report
    code handles them as such, whatever their keys. These functions give the
    dictionary each record stands for, the keys in the order of the
    dictionary displays of the source. *)

Definition opt_to_py {A : Type} (f : A -> pyval) (o : option A) : pyval :=
  match o with
  | None => PNone
  | Some a => f a
  end.

Definition nat_to_py (n : nat) : pyval := PInt (Z.of_nat n).
Definition type_to_py (t : JsonValueType) : pyval := PStr (type_name t).

Definition stats_to_py (s : TypeStatistics) : pyval :=
  PDict [("strings", nat_to_py (strings s));
         ("numbers", nat_to_py (numbers s));
         ("booleans", nat_to_py (booleans s));
         ("nulls", nat_to_py (nulls s));
         ("objects", nat_to_py (objects s));
         ("arrays", nat_to_py (arrays s));
         ("total_values", nat_to_py (total_values s))].

Fixpoint summary_to_py (s : StructureSummary) : pyval :=
  match s with
  | mkSummary t ks es ets e =>
      PDict [("type", type_to_py t);
             ("keys",
              match ks with
              | None => PNone
              | Some d => PDict (map (fun '(k, v) => (k, summary_to_py v)) d)
              end);
             ("element_summary",
              match es with
              | None => PNone
              | Some s' => summary_to_py s'
              end);
             ("element_types", opt_to_py (fun l => PList (map type_to_py l)) ets);
             ("is_empty", PBool e)]
  end.

Definition dup_to_py (d : DuplicateKeyInfo) : pyval :=
  PDict [("path", PStr (path d)); ("key", PStr (key d))].

Definition results_to_py (r : JsonAnalysisResult) : pyval :=
  PDict [("filepath", opt_to_py PStr (filepath r));
         ("analysis_error", opt_to_py PStr (analysis_error r));
         ("file_size_bytes", opt_to_py nat_to_py (file_size_bytes r));
         ("root_type", opt_to_py type_to_py (root_type r));
         ("max_depth", opt_to_py nat_to_py (max_depth r));
         ("statistics", opt_to_py stats_to_py (statistics r));
         ("structure", opt_to_py summary_to_py (structure r));
         ("duplicate_keys", PList (map dup_to_py (duplicate_keys r)))].

(** [k in d] and [d[k] = v] on a value that is a dictionary. *)
Definition py_contains (d : pyval) (k : string) : bool :=
  dict_contains (items d) k.
Definition py_get (d : pyval) (k : string) : option pyval :=
  dict_get (items d) k.
Definition py_setitem (d : pyval) (k : string) (v : pyval) : pyval :=
  PDict (dict_set (items d) k v).

(** *** [_clean_none_values_report]

    [frames] is, as for the walk, the number of nested calls the interpreter
    still allows; the recursion of the cleaning is as deep as the value.
    One frame is charged for each call of the function: the list
    comprehension runs in the frame of its call, as in CPython 3.12 and
    later; earlier versions run it in a frame of its own, so that a level of
    lists costs two frames there. What a cleaning returns when it returns is
    the same for every [frames] ([clean_returns_prune] below). *)

(** The [for k, v in item.items()] loop. *)
Fixpoint clean_items (recurse : pyval -> outcome pyval)
    (its : list (string * pyval)) (cleaned_dict : list (string * pyval))
  : outcome (list (string * pyval)) :=
  match its with
  | [] => mret cleaned_dict
  | (k, v) :: rest =>
      if is_none v then clean_items recurse rest cleaned_dict
      else
        cleaned_value ← recurse v;
        clean_items recurse rest (dict_set cleaned_dict k cleaned_value)
  end.

(** The list comprehension [[_clean_none_values_report(i) for i in item]]. *)
Fixpoint clean_list (recurse : pyval -> outcome pyval) (l : list pyval)
  : outcome (list pyval) :=
  match l with
  | [] => mret []
  | i :: rest =>
      i' ← recurse i;
      rest' ← clean_list recurse rest;
      mret (i' :: rest')
  end.

Fixpoint _clean_none_values_report (frames : nat) (item : pyval)
  : outcome pyval :=
  match frames with
  | 0 => Raise RecursionError
  | S frames' =>
      if isinstance item Cdict then
        cleaned_dict ←
          clean_items (_clean_none_values_report frames') (items item) [];
        let cleaned_dict :=
          if dict_contains (items item) "duplicate_keys"
             && negb (dict_contains cleaned_dict "duplicate_keys")
          then dict_set cleaned_dict "duplicate_keys" (PList [])
          else cleaned_dict in
        mret (PDict cleaned_dict)
      else if isinstance item Clist then
        l ← clean_list (_clean_none_values_report frames') (list_elems item);
        mret (PList l)
      else mret item
  end.

(** *** [generate_json_report] *)

(** Truth value of an optional string: [None] and the empty string are
    false. *)
Definition str_truthy (o : option string) : bool :=
  match o with
  | Some s => negb (bool_decide (s = EmptyString))
  | None => false
  end.

Definition dup_sort_key (d : DuplicateKeyInfo) : string * string :=
  (path d, key d).

(** The first step of the [try] body: [report_data["duplicate_keys"]] is
    replaced by its sorted copy when it is not empty. *)
Definition sort_duplicate_keys (report_data : JsonAnalysisResult)
  : JsonAnalysisResult :=
  if bool_decide (duplicate_keys report_data = []) then report_data
  else mkResult (filepath report_data) (analysis_error report_data)
                (file_size_bytes report_data) (root_type report_data)
                (max_depth report_data) (statistics report_data)
                (structure report_data)
                (py_sorted pair_le dup_sort_key (duplicate_keys report_data)).

Section GenerateReport.
Variable format_exc : pyexn -> string.

Definition report_error_message (e : pyexn) : string :=
  "Error during report generation: " +:+ exn_name e +:+ ": " +:+
  exn_message e +:+ newline +:+ "Traceback:" +:+ newline +:+ format_exc e.

Definition generate_json_report (frames : nat) (analyzer : JsonAnalyzer)
  : pyval :=
  let report_data := sort_duplicate_keys (results analyzer) in
  match _clean_none_values_report frames (results_to_py report_data) with
  | Ok cleaned_report =>
      let cleaned_report :=
        if negb (py_contains cleaned_report "filepath")
           && str_truthy (filepath report_data)
        then py_setitem cleaned_report "filepath"
                        (opt_to_py PStr (filepath report_data))
        else cleaned_report in
      let cleaned_report :=
        if str_truthy (analysis_error report_data)
           && negb (py_contains cleaned_report "analysis_error")
        then py_setitem cleaned_report "analysis_error"
                        (opt_to_py PStr (analysis_error report_data))
        else cleaned_report in
      cleaned_report
  | Raise e =>
      let final_error := report_error_message e in
      let minimal_error_report :=
        [("filepath", opt_to_py PStr (filepath report_data));
         ("analysis_error",
          if str_truthy (analysis_error report_data)
          then opt_to_py PStr (analysis_error report_data)
          else PStr final_error)] in
      match file_size_bytes report_data with
      | Some n =>
          PDict (dict_set minimal_error_report "file_size_bytes" (nat_to_py n))
      | None => PDict minimal_error_report
      end
  end.
End GenerateReport.

End Report.
Export Report.

(** ** Measures of a value tree, used to state what the walk computes *)

Module Shape.

(** The nodes directly below a node, in the order the walk visits them. *)
Definition children (v : pyval) : list pyval :=
  match v with
  | PDict its => its.*2
  | PList l => l
  | _ => []
  end.

(** Number of nodes of the tree that satisfy [p]. *)
Fixpoint count_where (p : pyval -> bool) (v : pyval) : nat :=
  (if p v then 1 else 0) +
  match v with
  | PDict its => sum_list (map (fun kv => count_where p kv.2) its)
  | PList l => sum_list (map (count_where p) l)
  | _ => 0
  end.

(** All nodes: leaves and containers, the root included. *)
Definition count_nodes (v : pyval) : nat := count_where (fun _ => true) v.

(** Nodes the classifier gives the tag [t]. *)
Definition count_type (t : JsonValueType) (v : pyval) : nat :=
  count_where (fun x => bool_decide (_get_value_type x = t)) v.

(** The length of every path from the root to a leaf (a node with nothing
    below it), the root being at depth 0. *)
Fixpoint root_to_leaf_lengths (v : pyval) : list nat :=
  match v with
  | PDict ((_ :: _) as its) =>
      concat (map (fun kv => map S (root_to_leaf_lengths kv.2)) its)
  | PList ((_ :: _) as l) =>
      concat (map (fun x => map S (root_to_leaf_lengths x)) l)
  | _ => [0]
  end.

Definition longest_path (v : pyval) : nat := max_list (root_to_leaf_lengths v).

(** Height of the tree, by recursion on the nodes below. *)
Fixpoint height (v : pyval) : nat :=
  match v with
  | PDict its => max_list (map (fun kv => S (height kv.2)) its)
  | PList l => max_list (map (fun x => S (height x)) l)
  | _ => 0
  end.

(** The six named counters added up. *)
Definition named_total (s : TypeStatistics) : nat :=
  strings s + numbers s + booleans s + nulls s + objects s + arrays s.

(** No dictionary of [v], at any depth, holds [None] as a value; [None] as
    an element of a list is allowed. *)
Fixpoint no_none_entries (v : pyval) : bool :=
  match v with
  | PDict its =>
      forallb (fun kv => negb (is_none kv.2) && no_none_entries kv.2) its
  | PList l => forallb no_none_entries l
  | _ => true
  end.

(** The statistics of a tree taken alone: per tag, the number of nodes the
    classifier gives that tag, and the number of all nodes. *)
Definition stats_of (v : pyval) : TypeStatistics :=
  mkStats (count_type TString v) (count_type TNumber v) (count_type TBoolean v)
          (count_type TNull v) (count_type TObject v) (count_type TArray v)
          (count_nodes v).

Definition stats_plus (a b : TypeStatistics) : TypeStatistics :=
  mkStats (strings a + strings b) (numbers a + numbers b)
          (booleans a + booleans b) (nulls a + nulls b)
          (objects a + objects b) (arrays a + arrays b)
          (total_values a + total_values b).

(** The summary of a node taken alone, as the walk builds it: the
    accumulators and the path play no part in it
    ([analyze_recursive_returns] below). *)
Fixpoint summary_of (v : pyval) : StructureSummary :=
  match v with
  | PDict its =>
      mkSummary TObject
        (Some (dict_of_pairs (map (fun kv => (kv.1, summary_of kv.2)) its)))
        None None (bool_decide (its = []))
  | PList l =>
      let element_summaries := map summary_of l in
      let unique_types := unique_sorted_types (map type element_summaries) in
      mkSummary TArray None (representative element_summaries unique_types)
                (Some unique_types) (bool_decide (l = []))
  | _ => mkSummary (_get_value_type v) None None None false
  end.

(** Strict order of the tags, by their names. *)
Definition tag_lt (t u : JsonValueType) : Prop :=
  String_as_OT.lt (type_name t) (type_name u).

End Shape.
Export Shape.

(** ** The accumulators along the walk *)

Module WalkState.

(** The accumulators once a call at depth [d] has counted its node. *)
Definition enter (d : nat) (acc : accumulators) : accumulators :=
  mkAcc (incr_total_values (stats acc)) (duplicates acc)
        (Nat.max (max_depth_tracker acc) d).

Definition with_stats (f : TypeStatistics -> TypeStatistics)
    (acc : accumulators) : accumulators :=
  mkAcc (f (stats acc)) (duplicates acc) (max_depth_tracker acc).

(** The counter a leaf of tag [t] increments; none for [TUnknown]. *)
Definition leaf_incr (t : JsonValueType) : TypeStatistics -> TypeStatistics :=
  match t with
  | TString => incr_strings
  | TNumber => incr_numbers
  | TBoolean => incr_booleans
  | TNull => incr_nulls
  | _ => fun s => s
  end.

Definition stats_sum (l : list TypeStatistics) : TypeStatistics :=
  foldr stats_plus initial_stats l.

(** The statistics of one node alone. *)
Definition own_stats (v : pyval) : TypeStatistics :=
  leaf_incr (_get_value_type v)
    (match _get_value_type v with
     | TObject => incr_objects
     | TArray => incr_arrays
     | _ => fun s => s
     end (incr_total_values initial_stats)).

(** The accumulators once the walk has returned from the tree [v] entered at
    depth [d], having appended [dups] to the duplicates. *)
Definition after (acc : accumulators) (v : pyval) (d : nat)
    (dups : list DuplicateKeyInfo) : accumulators :=
  mkAcc (stats_plus (stats acc) (stats_of v)) (duplicates acc ++ dups)
        (Nat.max (max_depth_tracker acc) (d + height v)).

End WalkState.
Export WalkState.

(** ** The entries of a cleaned result *)

Module ReportState.

(** What a name of the result dictionary holds once cleaned by a call with
    [S f] frames. *)
Definition cleaned_entry (f : nat) (r : JsonAnalysisResult) (k : string)
  : option pyval :=
  match dict_get (items (results_to_py r)) k with
  | Some v =>
      if is_none v then None
      else match _clean_none_values_report f v with
           | Ok v' => Some v'
           | Raise _ => None
           end
  | None => None
  end.

End ReportState.
Export ReportState.

(** ** The documents of the scenarios *)

Module Scenarios.

(** A [format_exc] to run the code with. *)
Definition no_traceback (e : pyexn) : string := EmptyString.

(** [{"id":1,"id":2,"tags":["x","y"],"meta":null}] *)
Definition scenario_document : jdoc :=
  JObject [("id", JInt 1); ("id", JInt 2);
           ("tags", JArray [JString "x"; JString "y"]); ("meta", JNull)].

(** [{"a": {"x":1,"x":2}, "b": {"x":3,"x":4}}] *)
Definition nested_document : jdoc :=
  JObject [("a", JObject [("x", JInt 1); ("x", JInt 2)]);
           ("b", JObject [("x", JInt 3); ("x", JInt 4)])].

(** The tree of a document with the members of every object kept as
    written. This is the sequence of items the object loop would have to
    iterate to see a repeated key; [json_load] returns it only when no key
    repeats. *)
Fixpoint members_as_written (d : jdoc) : pyval :=
  match d with
  | JString s => PStr s
  | JInt z => PInt z
  | JFloat r => PFloat r
  | JTrue => PBool true
  | JFalse => PBool false
  | JNull => PNone
  | JObject members =>
      PDict (map (fun '(k, v) => (k, members_as_written v)) members)
  | JArray elems => PList (map members_as_written elems)
  end.

(** Lexicographic order of duplicate entries by path, then key. *)
Definition dup_le (x y : DuplicateKeyInfo) : Prop :=
  String_as_OT.lt (path x) (path y) \/
  (path x = path y /\ str_le (key x) (key y)).

End Scenarios.
Export Scenarios.

(** ** file_handler.py

    The file system and the decoder are outside the program: what they
    answer for a path is an input of the model. *)

Module FileHandler.

(** The exceptions the [try] of [read_and_parse_json] tells apart, each
    caught by the first [except] clause its class matches. [OtherException]
    is any other [Exception], with the name of its class and its text. *)
Inductive read_exn : Type :=
  | FileNotFoundError
  | PermissionError
  | JSONDecodeError (lineno colno : nat) (msg : string)
  | OtherException (name message : string).

(** What is at a path: nothing ([os.path.exists] is false), something that
    is not a regular file ([os.path.isfile] is false), or a regular file,
    with what [os.path.getsize] and then [open] and [json.load] do on it:
    raise, or return the size and the document read. *)
Inductive path_entry : Type :=
  | Absent
  | NotAFile
  | RegularFile (getsize : read_exn + nat) (load : read_exn + jdoc).

Section ReadAndParse.
Variable fs : string -> path_entry.
(** [traceback.format_exc()] in the handler of the exception given. *)
Variable format_read_exc : read_exn -> string.

(** The [except] clauses: the message, and what becomes of [file_size].
    [parsed_data] is [None] in all of them: [json.load] has not returned. *)
Definition read_failure (filepath : string) (e : read_exn)
    (file_size : option nat) : pyval * option string * option nat :=
  match e with
  | FileNotFoundError =>
      (PNone, Some ("Error: File not found at '" +:+ filepath +:+ "'"), None)
  | PermissionError =>
      (PNone,
       Some ("Error: Permission denied reading file '" +:+ filepath +:+ "'"),
       None)
  | JSONDecodeError lineno colno msg =>
      (PNone,
       Some ("JSON Decode Error: Invalid JSON syntax in '" +:+ filepath +:+
             "' near line " +:+ pretty lineno +:+ " column " +:+
             pretty colno +:+ ":" +:+ newline +:+ "  Detail: " +:+ msg),
       file_size)
  | OtherException name message =>
      (PNone,
       Some ("Unexpected Error: Failed reading or parsing '" +:+ filepath +:+
             "'." +:+ newline +:+ "  Error: " +:+ name +:+ ": " +:+ message +:+
             newline +:+ "Traceback:" +:+ newline +:+ format_read_exc e),
       file_size)
  end.

(** [read_and_parse_json]: the triple (parsed data, error message, file
    size). Python's [None] is [PNone] for the data, as in the source, where
    a failed read and the document [null] give the same value. *)
Definition read_and_parse_json (filepath : string)
  : pyval * option string * option nat :=
  match fs filepath with
  | Absent =>
      (PNone, Some ("Error: File not found at '" +:+ filepath +:+ "'"), None)
  | NotAFile =>
      (PNone,
       Some ("Error: Input path '" +:+ filepath +:+
             "' is a directory, not a file."),
       None)
  | RegularFile getsize load =>
      match getsize with
      | inl e => read_failure filepath e None
      | inr file_size =>
          match load with
          | inl e => read_failure filepath e (Some file_size)
          | inr document => (json_load document, None, Some file_size)
          end
      end
  end.

(** [os.path.abspath] *)
Variable abspath : string -> string.
Variable format_exc : pyexn -> string.

Definition unknown_error_message (filepath : string) : string :=
  "Unknown error: Failed to parse '" +:+ filepath +:+
  "' but no specific error message was generated.".

(** [analyze_json_file]: the analyzer it returns. *)
Definition analyze_json_file (frames : nat) (filepath : string)
  : JsonAnalyzer :=
  let analyzer := JsonAnalyzer_init in
  let r := results analyzer in
  let r := mkResult (if bool_decide (filepath = EmptyString) then None
                     else Some (abspath filepath))
                    (analysis_error r) (file_size_bytes r) (root_type r)
                    (max_depth r) (statistics r) (structure r)
                    (duplicate_keys r) in
  let '(data, error_message, file_size) := read_and_parse_json filepath in
  let r := mkResult (Models.filepath r) (analysis_error r) file_size (root_type r)
                    (max_depth r) (statistics r) (structure r)
                    (duplicate_keys r) in
  if str_truthy error_message then
    mkAnalyzer (mkResult (Models.filepath r) error_message (file_size_bytes r)
                         None None None None [])
               (parsed_data analyzer)
  else if negb (is_none data) then
    analyze format_exc frames (mkAnalyzer r (parsed_data analyzer)) data
  else
    mkAnalyzer (mkResult (Models.filepath r)
                         (Some (unknown_error_message filepath))
                         (file_size_bytes r) (root_type r) (max_depth r)
                         (statistics r) (structure r) (duplicate_keys r))
               (parsed_data analyzer).
End ReadAndParse.

End FileHandler.
Export FileHandler.

(** ** Shapes of summaries and of reports *)

Module Invariants.

(** What every summary the walk builds satisfies, at every depth: [keys] is
    present only with the tag object, has pairwise distinct names, and is
    empty exactly when [is_empty] is set; [element_types] is present only
    with the tag array, is strictly increasing, and is empty exactly when
    [is_empty] is set; [element_summary] is present only next to
    [element_types], which is then the one tag of that summary; with
    neither [keys] nor [element_types], [is_empty] is not set. *)
Fixpoint summary_ok (s : StructureSummary) : Prop :=
  match s with
  | mkSummary t ks es ets e =>
      match ks with
      | None => True
      | Some d =>
          t = TObject /\ NoDup d.*1 /\ (e = true <-> d = []) /\
          (fix all (l : list (string * StructureSummary)) : Prop :=
             match l with
             | [] => True
             | kv :: l' => summary_ok kv.2 /\ all l'
             end) d
      end /\
      match ets with
      | None => es = None
      | Some ts =>
          t = TArray /\ StronglySorted tag_lt ts /\ (e = true <-> ts = []) /\
          match es with
          | None => True
          | Some r => ts = [type r] /\ summary_ok r
          end
      end /\
      (ks = None -> ets = None -> e = false)
  end.

(** The summary with the names of every [keys] mapping listed in increasing
    order, at every depth. Two dictionaries are equal for Python's [==]
    whatever the order of their keys: two summaries compare equal exactly
    when they are the same summary once the names are put in order
    ([summary_eqb_canonical] below). *)
Fixpoint canonical (s : StructureSummary) : StructureSummary :=
  match s with
  | mkSummary t ks es ets e =>
      mkSummary t
        (option_map
           (fun d => py_sorted str_le fst
                       (map (fun kv => (kv.1, canonical kv.2)) d)) ks)
        (option_map canonical es) ets e
  end.

(** The summary as the report shows it: the dictionary of [summary_to_py]
    without the names that hold [None], at every depth. *)
Fixpoint summary_to_report (s : StructureSummary) : pyval :=
  match s with
  | mkSummary t ks es ets e =>
      PDict
        ([("type", type_to_py t)] ++
         match ks with
         | None => []
         | Some d =>
             [("keys", PDict (map (fun '(k, v) => (k, summary_to_report v)) d))]
         end ++
         match es with
         | None => []
         | Some s' => [("element_summary", summary_to_report s')]
         end ++
         match ets with
         | None => []
         | Some l => [("element_types", PList (map type_to_py l))]
         end ++
         [("is_empty", PBool e)])
  end.

(** The path [analyze_json_file] stamps on its result. *)
Definition stamped_path (abspath : string -> string) (filepath : string)
  : option string :=
  if bool_decide (filepath = EmptyString) then None else Some (abspath filepath).

(** What cleaning returns when it returns: the same function without the
    frames ([clean_returns_prune] below). *)
Fixpoint prune (v : pyval) : pyval :=
  match v with
  | PDict its =>
      let cleaned_dict :=
        fold_left (fun cleaned kv =>
                     if is_none kv.2 then cleaned
                     else dict_set cleaned kv.1 (prune kv.2)) its [] in
      PDict (if dict_contains its "duplicate_keys"
                && negb (dict_contains cleaned_dict "duplicate_keys")
             then dict_set cleaned_dict "duplicate_keys" (PList [])
             else cleaned_dict)
  | PList l => PList (map prune l)
  | _ => v
  end.

(** The step of the dictionary loop of [prune], and its last test. *)
Definition prune_step (cleaned : list (string * pyval)) (kv : string * pyval)
  : list (string * pyval) :=
  if is_none kv.2 then cleaned else dict_set cleaned kv.1 (prune kv.2).

Definition finish (its cleaned : list (string * pyval))
  : list (string * pyval) :=
  if dict_contains its "duplicate_keys"
     && negb (dict_contains cleaned "duplicate_keys")
  then dict_set cleaned "duplicate_keys" (PList [])
  else cleaned.

(** One name of a report: present when the field is not [None]. *)
Definition entry {A : Type} (k : string) (f : A -> pyval) (o : option A)
  : list (string * pyval) :=
  match o with
  | None => []
  | Some a => [(k, f a)]
  end.

(** The report of a result when cleaning completes: the fields that are not
    [None], in the order of the result, the structure as
    [summary_to_report] shows it and the duplicates sorted. *)
Definition report_of (r : JsonAnalysisResult) : pyval :=
  PDict (entry "filepath" PStr (filepath r) ++
         entry "analysis_error" PStr (analysis_error r) ++
         entry "file_size_bytes" nat_to_py (file_size_bytes r) ++
         entry "root_type" type_to_py (root_type r) ++
         entry "max_depth" nat_to_py (max_depth r) ++
         entry "statistics" stats_to_py (statistics r) ++
         entry "structure" summary_to_report (structure r) ++
         [("duplicate_keys",
           PList (map dup_to_py
                      (py_sorted pair_le dup_sort_key (duplicate_keys r))))]).

(** Nodes that are containers. *)
Definition count_containers (v : pyval) : nat :=
  count_type TObject v + count_type TArray v.

End Invariants.
Export Invariants.

(** ** Sample files

    A file system to run the file handler on: a readable document, a file
    that holds [null], a file that is not valid JSON, a file that cannot be
    opened, a directory; every other path is absent. *)

Module SampleFiles.

Definition sample_fs (p : string) : path_entry :=
  if String.eqb p "data.json" then
    RegularFile (inr 44) (inr scenario_document)
  else if String.eqb p "null.json" then
    RegularFile (inr 4) (inr JNull)
  else if String.eqb p "broken.json" then
    RegularFile (inr 7) (inl (JSONDecodeError 1 2 "Expecting value"))
  else if String.eqb p "locked.json" then
    RegularFile (inr 9) (inl PermissionError)
  else if String.eqb p "folder" then NotAFile
  else Absent.

Definition sample_abspath (p : string) : string := "/work/" +:+ p.

(** A [format_exc] for the reader. *)
Definition no_read_traceback (e : read_exn) : string := EmptyString.

(** An analyzer that holds the message of an earlier failure. *)
Definition failed_before : JsonAnalyzer :=
  mkAnalyzer
    (mkResult (Some "/work/old.json") (Some "earlier failure") (Some 3)
              None None None None [])
    None.

(** An analyzer that holds two duplicates, out of order. *)
Definition with_duplicates : JsonAnalyzer :=
  mkAnalyzer
    (mkResult None None None None None None None
              [mkDup "root.b" "x"; mkDup "root.a" "x"])
    None.

End SampleFiles.
Export SampleFiles.

(** * Proofs *)

(** ** The walk *)

Module WalkFacts.

Lemma get_value_type_by_class v :
  _get_value_type v =
  match type_of v with
  | Cstr => TString
  | Cbool => TBoolean
  | Cint | Cfloat => TNumber
  | Cdict => TObject
  | Clist => TArray
  | CNoneType => TNull
  | Cother => TUnknown
  end.
Proof. destruct v; reflexivity. Qed.

(** The equations of the walk, one per class of node. *)

Lemma analyze_recursive_dict f its p d acc :
  _analyze_recursive (S f) (PDict its) p d acc =
  match object_loop (_analyze_recursive f) p d its ∅ []
                    (with_stats incr_objects (enter d acc)) with
  | (Ok ks, acc') =>
      (Ok (mkSummary TObject (Some ks) None None (bool_decide (its = []))), acc')
  | (Raise e, acc') => (Raise e, acc')
  end.
Proof. reflexivity. Qed.

Lemma analyze_recursive_list f l p d acc :
  _analyze_recursive (S f) (PList l) p d acc =
  match array_loop (_analyze_recursive f) p d l 0 [] []
                   (with_stats incr_arrays (enter d acc)) with
  | (Ok (ss, ts), acc') =>
      (Ok (mkSummary TArray None
             (representative ss (unique_sorted_types ts))
             (Some (unique_sorted_types ts)) (bool_decide (l = []))), acc')
  | (Raise e, acc') => (Raise e, acc')
  end.
Proof.
  unfold _analyze_recursive; fold _analyze_recursive.
  unfold mbind, walk_bind, update_stats, update_max_depth, with_stats, enter. simpl.
  destruct (array_loop _ _ _ _ _ _ _ _) as [[[ss ts]|e] acc']; reflexivity.
Qed.

Lemma analyze_recursive_leaf f v p d acc :
  children v = [] -> type_of v <> Cdict -> type_of v <> Clist ->
  _analyze_recursive (S f) v p d acc =
  (Ok (mkSummary (_get_value_type v) None None None false),
   with_stats (leaf_incr (_get_value_type v)) (enter d acc)).
Proof.
  destruct v; try reflexivity; simpl; intros; congruence.
Qed.

Ltac stats_arith :=
  unfold stats_plus, initial_stats, incr_total_values, incr_objects,
    incr_arrays, incr_strings, incr_numbers, incr_booleans, incr_nulls;
  simpl; f_equal; lia.

(** Statistics form a monoid under [stats_plus]. *)
Lemma stats_plus_assoc a b c :
  stats_plus (stats_plus a b) c = stats_plus a (stats_plus b c).
Proof. unfold stats_plus; simpl; f_equal; lia. Qed.

Lemma stats_plus_zero a : stats_plus a initial_stats = a.
Proof. destruct a; unfold stats_plus; simpl; f_equal; lia. Qed.

Lemma count_where_children p v :
  count_where p v =
  (if p v then 1 else 0) + sum_list (map (count_where p) (children v)).
Proof.
  destruct v; simpl; try lia.
  f_equal. f_equal. unfold fmap. rewrite map_map. reflexivity.
Qed.

Lemma stats_sum_field (f : TypeStatistics -> nat) l :
  (forall a b, f (stats_plus a b) = f a + f b) -> f initial_stats = 0 ->
  f (stats_sum l) = sum_list (map f l).
Proof.
  intros Hf H0. induction l as [|x l IH]; simpl; [done|].
  rewrite Hf, IH. reflexivity.
Qed.

Lemma stats_of_children v :
  stats_of v = stats_plus (own_stats v) (stats_sum (map stats_of (children v))).
Proof.
  unfold stats_of, count_type, count_nodes, stats_plus.
  rewrite !count_where_children.
  rewrite !(stats_sum_field _ _) by (intros; reflexivity).
  rewrite !map_map. simpl.
  unfold own_stats. rewrite !get_value_type_by_class.
  destruct v; simpl; f_equal; lia.
Qed.

Lemma own_stats_dict acc its :
  incr_objects (incr_total_values acc) = stats_plus acc (own_stats (PDict its)).
Proof.
  destruct acc. unfold stats_plus, own_stats, incr_objects, incr_total_values.
  simpl. f_equal; lia.
Qed.

Lemma own_stats_list acc l :
  incr_arrays (incr_total_values acc) = stats_plus acc (own_stats (PList l)).
Proof.
  destruct acc. unfold stats_plus, own_stats, incr_arrays, incr_total_values.
  simpl. f_equal; lia.
Qed.

Lemma max_list_shift {A} (g : A -> nat) d l :
  Nat.max d (max_list (map (fun x => d + 1 + g x) l)) =
  d + max_list (map (fun x => S (g x)) l).
Proof. induction l as [|x l IH]; simpl; lia. Qed.

Lemma well_formed_dict its :
  well_formed (PDict its) <->
  NoDup its.*1 /\ Forall (fun kv => well_formed kv.2) its.
Proof.
  simpl. apply and_iff_compat_l.
  induction its as [|kv its IH]; simpl.
  - split; auto.
  - rewrite Forall_cons, IH. reflexivity.
Qed.

Lemma well_formed_list l :
  well_formed (PList l) <-> Forall well_formed l.
Proof.
  simpl. induction l as [|x l IH]; simpl.
  - split; auto.
  - rewrite Forall_cons, IH. reflexivity.
Qed.

Lemma walk_bind_ok {A B} (m : Walk A) (k : A -> Walk B) acc a acc1 :
  m acc = (Ok a, acc1) -> (m ≫= k) acc = k a acc1.
Proof. unfold mbind, walk_bind. by intros ->. Qed.

Lemma walk_bind_raise {A B} (m : Walk A) (k : A -> Walk B) acc e acc1 :
  m acc = (Raise e, acc1) -> (m ≫= k) acc = (Raise e, acc1).
Proof. unfold mbind, walk_bind. by intros ->. Qed.

(** The duplicate test at the head of the object loop. *)
Lemma seen_step p k (seen : gset string) acc :
  (if bool_decide (k ∈ seen)
   then append_duplicate (mkDup p k) ;; mret seen
   else mret ({[ k ]} ∪ seen)) acc =
  (Ok (if bool_decide (k ∈ seen) then seen else {[ k ]} ∪ seen),
   mkAcc (stats acc)
         (duplicates acc ++ (if bool_decide (k ∈ seen) then [mkDup p k] else []))
         (max_depth_tracker acc)).
Proof.
  destruct (bool_decide (k ∈ seen)).
  - reflexivity.
  - unfold mret, walk_ret. rewrite app_nil_r. by destruct acc.
Qed.

Section Loops.
Variable f : nat.
Hypothesis walk_f : forall v p d acc, height v < f ->
  exists dups,
    _analyze_recursive f v p d acc = (Ok (summary_of v), after acc v d dups) /\
    (well_formed v -> dups = []).

Lemma object_loop_ok p d its : forall seen ks acc,
  Forall (fun kv => height kv.2 < f) its ->
  exists dups,
    object_loop (_analyze_recursive f) p d its seen ks acc =
    (Ok (fold_left (fun dd kv => dict_set dd kv.1 kv.2)
                   (map (fun kv => (kv.1, summary_of kv.2)) its) ks),
     mkAcc (stats_plus (stats acc) (stats_sum (map stats_of its.*2)))
           (duplicates acc ++ dups)
           (Nat.max (max_depth_tracker acc)
                    (max_list (map (fun kv => d + 1 + height kv.2) its)))) /\
    (NoDup its.*1 -> (forall k, k ∈ its.*1 -> k ∉ seen) ->
     Forall (fun kv => well_formed kv.2) its -> dups = []).
Proof.
  induction its as [|[k v] rest IH]; intros seen ks acc Hh.
  - exists []. split; [|done]. simpl. unfold mret, walk_ret.
    rewrite stats_plus_zero, app_nil_r, Nat.max_0_r. by destruct acc.
  - apply Forall_cons in Hh as [Hv Hrest]. simpl in Hv.
    simpl object_loop.
    set (x := if bool_decide (k ∈ seen) then [mkDup p k] else []).
    set (seen' := if bool_decide (k ∈ seen) then seen else {[k]} ∪ seen).
    set (acc1 := mkAcc (stats acc) (duplicates acc ++ x) (max_depth_tracker acc)).
    rewrite (walk_bind_ok _ _ _ _ _ (seen_step p k seen acc)).
    fold x seen' acc1.
    destruct (walk_f v (if bool_decide (p = EmptyString) then k else p +:+ "." +:+ k)
                     (d + 1) acc1 Hv) as (dv & Ev & Wv).
    rewrite (walk_bind_ok _ _ _ _ _ Ev).
    destruct (IH seen' (dict_set ks k (summary_of v)) (after acc1 v (d + 1) dv) Hrest)
      as (dr & Er & Wr).
    rewrite Er. exists (x ++ dv ++ dr). split.
    + simpl. f_equal. f_equal.
      * apply stats_plus_assoc.
      * by rewrite !app_assoc.
      * lia.
    + intros Hnd Hseen Hwf.
      apply NoDup_cons in Hnd as [Hk Hnd]. apply Forall_cons in Hwf as [Hwv Hwf].
      assert (k ∉ seen) as Hks by (apply Hseen; simpl; left).
      subst x seen'. rewrite (bool_decide_eq_false_2 _ Hks) in *.
      rewrite (Wv Hwv), Wr; auto.
      intros k' Hk'. simpl in Hseen.
      assert (k' <> k) by (intros ->; contradiction).
      specialize (Hseen k' (list_elem_of_further _ _ _ Hk')).
      rewrite elem_of_union, elem_of_singleton. tauto.
Qed.

Lemma array_loop_ok p d l : forall i ss ts acc,
  Forall (fun x => height x < f) l ->
  exists dups,
    array_loop (_analyze_recursive f) p d l i ss ts acc =
    (Ok (ss ++ map summary_of l, ts ++ map type (map summary_of l)),
     mkAcc (stats_plus (stats acc) (stats_sum (map stats_of l)))
           (duplicates acc ++ dups)
           (Nat.max (max_depth_tracker acc)
                    (max_list (map (fun x => d + 1 + height x) l)))) /\
    (Forall well_formed l -> dups = []).
Proof.
  induction l as [|v rest IH]; intros i ss ts acc Hh.
  - exists []. split; [|done]. simpl. unfold mret, walk_ret.
    rewrite stats_plus_zero, !app_nil_r, Nat.max_0_r. by destruct acc.
  - apply Forall_cons in Hh as [Hv Hrest].
    simpl array_loop.
    destruct (walk_f v (p +:+ "[" +:+ pretty i +:+ "]") (d + 1) acc Hv)
      as (dv & Ev & Wv).
    rewrite (walk_bind_ok _ _ _ _ _ Ev).
    destruct (IH (i + 1) (ss ++ [summary_of v]) (ts ++ [type (summary_of v)])
                 (after acc v (d + 1) dv) Hrest) as (dr & Er & Wr).
    rewrite Er. exists (dv ++ dr). split.
    + simpl. rewrite <- !app_assoc. simpl. f_equal. f_equal.
      * apply stats_plus_assoc.
      * lia.
    + intros Hwf. apply Forall_cons in Hwf as [Hwv Hwf].
      by rewrite (Wv Hwv), (Wr Hwf).
Qed.
End Loops.

(** With more frames than the tree is high, the walk returns; it has then
    built [summary_of v], added the statistics of [v], raised the depth
    tracker to the deepest node of [v], and appended no duplicate when [v] is
    a value the interpreter can hold. *)
Lemma analyze_recursive_ok frames : forall v p d acc,
  height v < frames ->
  exists dups,
    _analyze_recursive frames v p d acc = (Ok (summary_of v), after acc v d dups) /\
    (well_formed v -> dups = []).
Proof.
  induction frames as [|f IH]; intros v p d acc Hh; [lia|].
  destruct v as [s|b|z|r| |its|l|r].
  1-5,8: exists []; split; [|done];
    rewrite analyze_recursive_leaf by done;
    unfold after, with_stats, enter; rewrite stats_of_children;
    unfold own_stats; rewrite !get_value_type_by_class; simpl;
    rewrite app_nil_r, Nat.add_0_r; f_equal; f_equal;
    destruct acc as [[] ? ?]; stats_arith.
  - rewrite analyze_recursive_dict.
    destruct (object_loop_ok f IH p d its ∅ [] (with_stats incr_objects (enter d acc)))
      as (dups & E & W).
    { simpl in Hh. apply Forall_forall. intros kv Hkv.
      assert (S (height kv.2) <= max_list (map (fun kv => S (height kv.2)) its))%nat.
      { apply max_list_elem_of_le, list_elem_of_fmap. eauto. }
      lia. }
    rewrite E. exists dups. split.
    + unfold after, with_stats, enter. simpl duplicates. simpl stats.
      simpl max_depth_tracker. f_equal. f_equal.
      * rewrite (stats_of_children (PDict its)), (own_stats_dict _ its).
        apply stats_plus_assoc.
      * rewrite <- Nat.max_assoc, max_list_shift. reflexivity.
    + intros [Hnd Hwf]%well_formed_dict. apply W; auto.
      intros k _. apply not_elem_of_empty.
  - rewrite analyze_recursive_list.
    destruct (array_loop_ok f IH p d l 0 [] [] (with_stats incr_arrays (enter d acc)))
      as (dups & E & W).
    { simpl in Hh. apply Forall_forall. intros x Hx.
      assert (S (height x) <= max_list (map (fun x => S (height x)) l))%nat.
      { apply max_list_elem_of_le, list_elem_of_fmap. eauto. }
      lia. }
    rewrite E. exists dups. split.
    + unfold after, with_stats, enter. simpl duplicates. simpl stats.
      simpl max_depth_tracker. f_equal. f_equal.
      * rewrite (stats_of_children (PList l)), (own_stats_list _ l).
        apply stats_plus_assoc.
      * rewrite <- Nat.max_assoc, max_list_shift. reflexivity.
    + intros Hwf%well_formed_list. by apply W.
Qed.

Lemma max_list_reached (l : list nat) n :
  (0 < n)%nat -> (n <= max_list l)%nat -> exists m, m ∈ l /\ (n <= m)%nat.
Proof.
  intros Hn. induction l as [|x l IH]; simpl; intros Hle; [lia|].
  destruct (decide (n <= x)%nat) as [Hx|Hx].
  - exists x. split; [left|done].
  - destruct IH as (m & Hm & Hnm); [lia|]. exists m. split; [by right|done].
Qed.

Section LoopsRaise.
Variable f : nat.
Hypothesis raise_f : forall v p d acc, (f <= height v)%nat ->
  exists acc', _analyze_recursive f v p d acc = (Raise RecursionError, acc').

Lemma object_loop_raise p d its : forall seen ks acc,
  Exists (fun kv => (f <= height kv.2)%nat) its ->
  exists acc',
    object_loop (_analyze_recursive f) p d its seen ks acc =
    (Raise RecursionError, acc').
Proof.
  induction its as [|[k v] rest IH]; intros seen ks acc Hex.
  - by apply Exists_nil in Hex.
  - simpl object_loop.
    rewrite (walk_bind_ok _ _ _ _ _ (seen_step p k seen acc)).
    destruct (decide (height v < f)) as [Hlt|Hge].
    + destruct (analyze_recursive_ok f v
                  (if bool_decide (p = EmptyString) then k else p +:+ "." +:+ k) (d + 1)
                  (mkAcc (stats acc)
                     (duplicates acc ++
                        (if bool_decide (k ∈ seen) then [mkDup p k] else []))
                     (max_depth_tracker acc)) Hlt) as (dv & Ev & _).
      rewrite (walk_bind_ok _ _ _ _ _ Ev). apply IH.
      apply Exists_cons in Hex as [Hhd|Htl]; [simpl in Hhd; lia|done].
    + edestruct (raise_f v) as (acc' & Ev); [lia|].
      rewrite (walk_bind_raise _ _ _ _ _ Ev). eauto.
Qed.

Lemma array_loop_raise p d l : forall i ss ts acc,
  Exists (fun x => (f <= height x)%nat) l ->
  exists acc',
    array_loop (_analyze_recursive f) p d l i ss ts acc =
    (Raise RecursionError, acc').
Proof.
  induction l as [|v rest IH]; intros i ss ts acc Hex.
  - by apply Exists_nil in Hex.
  - simpl array_loop.
    destruct (decide (height v < f)) as [Hlt|Hge].
    + destruct (analyze_recursive_ok f v (p +:+ "[" +:+ pretty i +:+ "]")
                  (d + 1) acc Hlt) as (dv & Ev & _).
      rewrite (walk_bind_ok _ _ _ _ _ Ev). apply IH.
      apply Exists_cons in Hex as [Hhd|Htl]; [lia|done].
    + edestruct (raise_f v) as (acc' & Ev); [lia|].
      rewrite (walk_bind_raise _ _ _ _ _ Ev). eauto.
Qed.
End LoopsRaise.

(** With no more frames than the tree is high, the walk raises
    [RecursionError]. *)
Lemma analyze_recursive_raises frames : forall v p d acc,
  (frames <= height v)%nat ->
  exists acc', _analyze_recursive frames v p d acc = (Raise RecursionError, acc').
Proof.
  induction frames as [|f IH]; intros v p d acc Hh; [by eexists|].
  destruct v as [s|b|z|r| |its|l|r]; simpl in Hh; try lia.
  - rewrite analyze_recursive_dict.
    destruct (max_list_reached _ (S f) ltac:(lia) Hh) as (m & Hm & Hfm).
    apply list_elem_of_fmap in Hm as (kv & -> & Hkv).
    destruct (object_loop_raise f IH p d its ∅ []
                (with_stats incr_objects (enter d acc))) as (acc' & E).
    { apply Exists_exists. exists kv. split; [done|lia]. }
    rewrite E. eauto.
  - rewrite analyze_recursive_list.
    destruct (max_list_reached _ (S f) ltac:(lia) Hh) as (m & Hm & Hfm).
    apply list_elem_of_fmap in Hm as (x & -> & Hx).
    destruct (array_loop_raise f IH p d l 0 [] []
                (with_stats incr_arrays (enter d acc))) as (acc' & E).
    { apply Exists_exists. exists x. split; [done|lia]. }
    rewrite E. eauto.
Qed.

(** What a returned walk has done. *)
Lemma analyze_recursive_returns frames v p d acc s acc' :
  _analyze_recursive frames v p d acc = (Ok s, acc') ->
  height v < frames /\ s = summary_of v /\
  exists dups, acc' = after acc v d dups /\ (well_formed v -> dups = []).
Proof.
  intros E. destruct (decide (height v < frames)) as [Hlt|Hge].
  - destruct (analyze_recursive_ok frames v p d acc Hlt) as (dups & E' & W).
    rewrite E in E'. injection E' as -> ->. eauto.
  - destruct (analyze_recursive_raises frames v p d acc) as (acc'' & E'); [lia|].
    congruence.
Qed.

(** Whatever an interrupted walk raised, it is [RecursionError], and the
    tree is at least as high as the frames allowed. *)
Lemma analyze_recursive_raised frames v p d acc e acc' :
  _analyze_recursive frames v p d acc = (Raise e, acc') ->
  e = RecursionError /\ (frames <= height v)%nat.
Proof.
  intros E. destruct (decide (height v < frames)) as [Hlt|Hge].
  - destruct (analyze_recursive_ok frames v p d acc Hlt) as (dups & E' & W).
    congruence.
  - destruct (analyze_recursive_raises frames v p d acc) as (acc'' & E'); [lia|].
    split; [congruence|lia].
Qed.
End WalkFacts.
Import WalkFacts.

(** ** Dictionaries built by [json.load] *)

Module DictFacts.

Lemma dict_set_keys {V} (d : list (string * V)) k v :
  (dict_set d k v).*1 = if bool_decide (k ∈ d.*1) then d.*1 else d.*1 ++ [k].
Proof.
  induction d as [|[k' v'] d IH]; [done|]. simpl dict_set.
  destruct (String.eqb_spec k' k) as [->|Hne]; rewrite !fmap_cons; simpl fst.
  - rewrite bool_decide_eq_true_2 by left. reflexivity.
  - rewrite IH. destruct (decide (k ∈ d.*1)) as [Hin|Hout].
    + rewrite !bool_decide_eq_true_2; [done|by right|done].
    + rewrite !bool_decide_eq_false_2; [done| |done].
      intros [?|?]%elem_of_cons; congruence.
Qed.

Lemma dict_set_NoDup {V} (d : list (string * V)) k v :
  NoDup d.*1 -> NoDup (dict_set d k v).*1.
Proof.
  intros Hnd. rewrite dict_set_keys. case_bool_decide; [done|].
  apply NoDup_app. split_and!; [done| |apply NoDup_singleton].
  intros x Hx ->%list_elem_of_singleton. contradiction.
Qed.

Lemma dict_set_Forall {V} (P : V -> Prop) (d : list (string * V)) k v :
  Forall (fun kv => P kv.2) d -> P v -> Forall (fun kv => P kv.2) (dict_set d k v).
Proof.
  intros Hd Hv. induction d as [|[k' v'] d IH]; simpl.
  - by constructor.
  - apply Forall_cons in Hd as [Hhd Htl].
    destruct (String.eqb k' k); constructor; auto.
Qed.

Lemma dict_of_pairs_well_keyed {V} (P : V -> Prop) (pairs : list (string * V)) :
  Forall (fun kv => P kv.2) pairs ->
  NoDup (dict_of_pairs pairs).*1 /\ Forall (fun kv => P kv.2) (dict_of_pairs pairs).
Proof.
  unfold dict_of_pairs.
  assert (Hgen : forall acc, NoDup acc.*1 -> Forall (fun kv => P kv.2) acc ->
            Forall (fun kv => P kv.2) pairs ->
            NoDup (fold_left (fun d kv => dict_set d kv.1 kv.2) pairs acc).*1 /\
            Forall (fun kv => P kv.2)
                   (fold_left (fun d kv => dict_set d kv.1 kv.2) pairs acc)).
  { induction pairs as [|[k v] pairs IH]; intros acc Hnd Hacc Hp; simpl; [done|].
    apply Forall_cons in Hp as [Hv Hp].
    apply IH; [by apply dict_set_NoDup|by apply dict_set_Forall|done]. }
  intros Hp. apply Hgen; [constructor|constructor|done].
Qed.

(** Induction on a JSON document, the members of a container first. *)
Lemma jdoc_tree_ind (P : jdoc -> Prop) :
  (forall s, P (JString s)) -> (forall z, P (JInt z)) ->
  (forall r, P (JFloat r)) -> P JTrue -> P JFalse -> P JNull ->
  (forall members, Forall (fun kv => P kv.2) members -> P (JObject members)) ->
  (forall elems, Forall P elems -> P (JArray elems)) ->
  forall d, P d.
Proof.
  intros Hs Hi Hf Ht Hfa Hn Ho Ha. fix IH 1.
  intros [s|z|r| | | |members|elems];
    [apply Hs|apply Hi|apply Hf|exact Ht|exact Hfa|exact Hn| | ].
  - apply Ho. induction members as [|[k v] members IHm];
      constructor; [apply IH|exact IHm].
  - apply Ha. induction elems as [|x elems IHe];
      constructor; [apply IH|exact IHe].
Qed.

(** Whatever the document, [json.load] returns a value whose dictionaries
    have pairwise distinct keys. *)
Lemma json_load_well_formed d : well_formed (json_load d).
Proof.
  induction d as [s|z|r| | | |members IH|elems IH] using jdoc_tree_ind.
  1-6: exact I.
  - simpl json_load. apply well_formed_dict.
    apply (dict_of_pairs_well_keyed well_formed).
    apply Forall_fmap. eapply Forall_impl; [exact IH|]. by intros [k v].
  - simpl json_load. apply well_formed_list. by apply Forall_fmap.
Qed.

End DictFacts.
Import DictFacts.

(** ** Facts on the measures of a tree *)

Module ShapeFacts.

(** Induction on a value, the nodes below it first. *)
Lemma pyval_tree_ind (P : pyval -> Prop) :
  (forall v, Forall P (children v) -> P v) -> forall v, P v.
Proof.
  intros H. fix IH 1. intros v. apply H.
  destruct v as [s|b|z|r| |its|l|r]; simpl; try constructor.
  - induction its as [|[k x] its IHl]; constructor; [apply IH|exact IHl].
  - induction l as [|x l IHl]; constructor; [apply IH|exact IHl].
Qed.

Lemma sum_list_map_ext {A} (f g : A -> nat) l :
  Forall (fun x => f x = g x) l -> sum_list (map f l) = sum_list (map g l).
Proof. induction 1 as [|x l Hx _ IH]; simpl; congruence. Qed.

Lemma sum_list_map_plus {A} (f g : A -> nat) l :
  sum_list (map (fun x => f x + g x) l) = sum_list (map f l) + sum_list (map g l).
Proof. induction l as [|x l IH]; simpl; lia. Qed.

(** Every node has exactly one of the seven tags. *)
Lemma count_nodes_by_type v :
  count_nodes v =
  count_type TString v + count_type TNumber v + count_type TBoolean v +
  count_type TNull v + count_type TObject v + count_type TArray v +
  count_type TUnknown v.
Proof.
  induction v as [v IH] using pyval_tree_ind.
  unfold count_nodes, count_type in *. rewrite !count_where_children.
  rewrite (sum_list_map_ext _ _ _ IH), !sum_list_map_plus.
  destruct (_get_value_type v); simpl; lia.
Qed.

Lemma total_is_named_plus_unknown v :
  total_values (stats_of v) = named_total (stats_of v) + count_type TUnknown v.
Proof. unfold named_total. simpl. rewrite count_nodes_by_type. lia. Qed.

Lemma height_children v :
  height v = max_list (map (fun x => S (height x)) (children v)).
Proof.
  destruct v; simpl; try reflexivity. unfold fmap. by rewrite map_map.
Qed.

Lemma max_list_map_S l : l <> [] -> max_list (map S l) = S (max_list l).
Proof.
  induction l as [|x [|y l] IH]; [done|simpl; lia|].
  intros _. change (max_list (map S (x :: y :: l)))
    with (Nat.max (S x) (max_list (map S (y :: l)))).
  rewrite IH by done. change (max_list (x :: y :: l))
    with (Nat.max x (max_list (y :: l))). lia.
Qed.

Lemma max_list_app_max (l k : list nat) :
  max_list (l ++ k) = Nat.max (max_list l) (max_list k).
Proof. induction l as [|x l IH]; simpl; [done|]. rewrite IH. lia. Qed.

Lemma max_list_concat ls : max_list (concat ls) = max_list (map max_list ls).
Proof. induction ls as [|l ls IH]; simpl; [done|]. by rewrite max_list_app_max, IH. Qed.

Lemma root_to_leaf_lengths_children v :
  root_to_leaf_lengths v =
  match children v with
  | [] => [0]
  | cs => concat (map (fun x => map S (root_to_leaf_lengths x)) cs)
  end.
Proof.
  destruct v as [s|b|z|r| |[|[k x] its]|[|x l]|r]; try reflexivity.
  simpl. f_equal. induction its as [|[k' x'] its IH]; simpl; [done|].
  f_equal. exact IH.
Qed.

(** The height is the length of the longest path from the root to a leaf. *)
Lemma height_is_longest_path v :
  root_to_leaf_lengths v <> [] /\ longest_path v = height v.
Proof.
  unfold longest_path.
  induction v as [v IH] using pyval_tree_ind.
  rewrite root_to_leaf_lengths_children, height_children.
  destruct (children v) as [|c cs]; [done|]. split.
  - apply Forall_cons in IH as [[Hc _] _]. simpl.
    destruct (root_to_leaf_lengths c); [done|discriminate].
  - rewrite max_list_concat, map_map. f_equal.
    apply Forall_fmap_ext_1. eapply Forall_impl; [exact IH|].
    intros x [Hne Hx]. simpl. rewrite max_list_map_S by done. by rewrite Hx.
Qed.

End ShapeFacts.
Import ShapeFacts.

(** ** Facts on the ordering and on [sorted] *)

Module OrderFacts.

Lemma str_le_iff a b : str_le a b <-> a = b \/ String_as_OT.lt a b.
Proof.
  unfold str_le, str_leb, String_as_OT.lt.
  destruct (String_as_OT.compare_spec a b) as [Heq|Hlt|Hgt]; simpl.
  - split; [by left|done].
  - split; [by right|done].
  - split; [done|]. intros [->|Hlt].
    + by apply (irreflexivity String_as_OT.lt) in Hgt.
    + exfalso. apply (irreflexivity String_as_OT.lt a). by etrans.
Qed.

#[export] Instance str_le_refl : Reflexive str_le.
Proof. intros a. apply str_le_iff. by left. Qed.

#[export] Instance str_le_trans : Transitive str_le.
Proof.
  intros a b c [->|Hab]%str_le_iff [->|Hbc]%str_le_iff; apply str_le_iff; auto.
  right. by etrans.
Qed.

#[export] Instance str_le_total : Total str_le.
Proof.
  intros a b. rewrite !str_le_iff.
  destruct (String_as_OT.compare_spec a b) as [Heq|Hlt|Hgt]; auto.
Qed.

#[export] Instance str_le_antisym : AntiSymm (=) str_le.
Proof.
  intros a b [->|Hab]%str_le_iff [Heq|Hba]%str_le_iff; auto.
  exfalso. apply (irreflexivity String_as_OT.lt a). by etrans.
Qed.

(** The order of pairs is the lexicographic one. *)
Lemma pair_le_iff x y :
  pair_le x y <->
  String_as_OT.lt x.1 y.1 \/ (x.1 = y.1 /\ str_le x.2 y.2).
Proof.
  unfold pair_le, pair_leb, String_as_OT.lt.
  destruct (String_as_OT.compare_spec x.1 y.1) as [Heq|Hlt|Hgt]; simpl.
  - split; [by right|]. intros [?|[_ ?]]; done.
  - split; [by left|done].
  - split; [done|]. intros [Hlt|[Heq _]].
    + apply (irreflexivity String_as_OT.lt x.1). by etrans.
    + rewrite Heq in Hgt. by apply (irreflexivity String_as_OT.lt) in Hgt.
Qed.

#[export] Instance pair_le_trans : Transitive pair_le.
Proof.
  intros x y z. rewrite !pair_le_iff.
  intros [Hxy|[Exy Hxy]] [Hyz|[Eyz Hyz]].
  - left. by etrans.
  - left. by rewrite <- Eyz.
  - left. by rewrite Exy.
  - right. split; [congruence|by etrans].
Qed.

#[export] Instance pair_le_total : Total pair_le.
Proof.
  intros x y. rewrite !pair_le_iff.
  destruct (String_as_OT.compare_spec x.1 y.1) as [Heq|Hlt|Hgt]; auto.
  destruct (total str_le x.2 y.2); auto.
Qed.

#[export] Instance pair_le_antisym : AntiSymm (=) pair_le.
Proof.
  intros [x1 x2] [y1 y2]. rewrite !pair_le_iff. simpl.
  intros [Hxy|[-> Hxy]] [Hyx|[Eyx Hyx]].
  - exfalso. apply (irreflexivity String_as_OT.lt x1). by etrans.
  - subst. by apply (irreflexivity String_as_OT.lt) in Hxy.
  - by apply (irreflexivity String_as_OT.lt) in Hyx.
  - f_equal. by apply (anti_symm str_le).
Qed.

Section Sorted.
Context {A K : Type} (le : relation K) `{!RelDecision le}.
Context `{!Transitive le, !Total le, !AntiSymm (=) le}.
Context (f : A -> K) `{!Inj (=) (=) f}.

#[local] Instance by_key_trans : Transitive (by_key le f).
Proof. intros x y z. unfold by_key. apply transitivity. Qed.

#[local] Instance by_key_total : Total (by_key le f).
Proof. intros x y. unfold by_key. apply total, _. Qed.

#[local] Instance by_key_antisym : AntiSymm (=) (by_key le f).
Proof. intros x y Hxy Hyx. apply (inj f). by apply (anti_symm le). Qed.

Lemma py_sorted_sorted l : StronglySorted (by_key le f) (py_sorted le f l).
Proof. unfold py_sorted. apply (StronglySorted_merge_sort (by_key le f)). Qed.

Lemma py_sorted_perm l : py_sorted le f l ≡ₚ l.
Proof. unfold py_sorted. apply merge_sort_Permutation. Qed.

(** The sorted arrangement is unique: a stable sort and any other sort
    return the same list. *)
Lemma py_sorted_unique l l' :
  StronglySorted (by_key le f) l' -> l' ≡ₚ l -> l' = py_sorted le f l.
Proof.
  intros Hs Hp. apply (StronglySorted_unique (by_key le f)); [done| |].
  - apply py_sorted_sorted.
  - by rewrite py_sorted_perm.
Qed.
End Sorted.

#[export] Instance type_name_inj : Inj (=) (=) type_name.
Proof. intros [] []; simpl; intros H; first [reflexivity|discriminate H]. Qed.

#[export] Instance dup_sort_key_inj : Inj (=) (=) dup_sort_key.
Proof. intros [p k] [p' k']. unfold dup_sort_key. simpl. congruence. Qed.

Lemma sorted_distinct_tags k :
  StronglySorted (by_key str_le type_name) k ->
  NoDup k -> StronglySorted tag_lt k.
Proof.
  induction 1 as [|x k Hk IH Hall]; intros Hnd; constructor;
    apply NoDup_cons in Hnd as [Hx Hnd]; [by apply IH|].
  apply Forall_forall. intros y Hy.
  rewrite Forall_forall in Hall. specialize (Hall y Hy). unfold by_key in Hall.
  apply str_le_iff in Hall as [Heq|Hlt]; [|exact Hlt].
  apply (inj type_name) in Heq. subst. contradiction.
Qed.

(** [unique_sorted_types] lists each tag of its argument once, in strictly
    increasing order of the names. *)
Lemma unique_sorted_types_spec l :
  StronglySorted tag_lt (unique_sorted_types l) /\
  (forall t, t ∈ unique_sorted_types l <-> t ∈ l).
Proof.
  unfold unique_sorted_types.
  pose proof (py_sorted_sorted str_le type_name (remove_dups l)) as Hs.
  pose proof (py_sorted_perm str_le type_name (remove_dups l)) as Hp.
  assert (NoDup (py_sorted str_le type_name (remove_dups l))) as Hnd.
  { rewrite Hp. apply NoDup_remove_dups. }
  split.
  - by apply sorted_distinct_tags.
  - intros t. rewrite Hp. apply elem_of_remove_dups.
Qed.

Lemma tag_lt_irrefl t : ~ tag_lt t t.
Proof. unfold tag_lt. apply (irreflexivity String_as_OT.lt). Qed.

(** When all the tags are [t], the list of unique tags is [[t]]. *)
Lemma unique_sorted_types_one l t :
  l <> [] -> (forall u, u ∈ l -> u = t) -> unique_sorted_types l = [t].
Proof.
  intros Hne Hall.
  destruct (unique_sorted_types_spec l) as [Hs Hin].
  destruct (unique_sorted_types l) as [|a [|b k]] eqn:E.
  - destruct l as [|u l]; [done|].
    assert (u ∈ []) as H by (apply Hin; left). by apply elem_of_nil in H.
  - f_equal. apply Hall, Hin. left.
  - exfalso. assert (a = t) as -> by (apply Hall, Hin; left).
    assert (b = t) as -> by (apply Hall, Hin; right; left).
    apply StronglySorted_inv in Hs as [_ Hlt].
    apply Forall_cons in Hlt as [Hlt _]. by apply tag_lt_irrefl in Hlt.
Qed.

(** With two different tags present, the list of unique tags is not a
    singleton. *)
Lemma unique_sorted_types_mixed l t u :
  t ∈ l -> u ∈ l -> t <> u ->
  forall a, unique_sorted_types l <> [a].
Proof.
  intros Ht Hu Hne a E.
  destruct (unique_sorted_types_spec l) as [_ Hin].
  apply Hin in Ht, Hu. rewrite E in Ht, Hu.
  apply list_elem_of_singleton in Ht, Hu. congruence.
Qed.

End OrderFacts.
Import OrderFacts.

(** ** The analyzer *)

Module AnalyzerFacts.

Lemma stats_plus_zero_l a : stats_plus initial_stats a = a.
Proof. destruct a. reflexivity. Qed.

Section AnalyzeOutcomes.
Variable format_exc : pyexn -> string.

(** A call of [analyze] with more frames than the tree is high. *)
Lemma analyze_ok frames self v :
  height v < frames ->
  exists dups,
    results (analyze format_exc frames self v) =
    mkResult (filepath (results self)) (analysis_error (results self))
             (file_size_bytes (results self)) (Some (_get_value_type v))
             (Some (height v)) (Some (stats_of v)) (Some (summary_of v)) dups /\
    (well_formed v -> dups = []).
Proof.
  intros Hh. unfold analyze.
  destruct (analyze_recursive_ok frames v "root" 0 fresh_accumulators Hh)
    as (dups & E & W).
  rewrite E. exists dups. split; [|exact W].
  simpl. by rewrite stats_plus_zero_l.
Qed.

(** A call of [analyze] on a tree too high for the frames left. *)
Lemma analyze_raise frames self v :
  (frames <= height v)%nat ->
  results (analyze format_exc frames self v) =
  mkResult (filepath (results self))
           (Some (analysis_error_message format_exc RecursionError))
           (file_size_bytes (results self)) (Some (_get_value_type v))
           None None None [].
Proof.
  intros Hh. unfold analyze.
  destruct (analyze_recursive_raises frames v "root" 0 fresh_accumulators Hh)
    as (acc' & E).
  by rewrite E.
Qed.

(** On any value the interpreter can hold, hence on anything [json.load]
    returns, the analyzer reports no duplicate key: the items of a
    dictionary never repeat a key, so the test [key in seen_keys] of the
    object loop is never true. *)
Lemma analyze_reports_no_duplicates frames self v :
  well_formed v ->
  duplicate_keys (results (analyze format_exc frames self v)) = [].
Proof.
  intros Hwf. destruct (decide (height v < frames)) as [Hlt|Hge].
  - destruct (analyze_ok frames self v Hlt) as (dups & -> & W). simpl. auto.
  - rewrite analyze_raise by lia. reflexivity.
Qed.

Lemma analyze_json_reports_no_duplicates frames self doc :
  duplicate_keys (results (analyze format_exc frames self (json_load doc))) = [].
Proof. apply analyze_reports_no_duplicates, json_load_well_formed. Qed.

End AnalyzeOutcomes.

(** The walk does record a repeated key when the sequence of items it
    iterates has one: on the members as written of the two documents of the
    scenarios it counts and reports what the scenarios expect. No dictionary
    yields such a sequence. *)
Lemma walk_on_members_as_written_scenario :
  ~ well_formed (members_as_written scenario_document) /\
  exists summary,
    _analyze_recursive 3 (members_as_written scenario_document) "root" 0
                       fresh_accumulators =
    (Ok summary, mkAcc (mkStats 2 2 0 1 1 1 7) [mkDup "root" "id"] 2).
Proof.
  split.
  - intros [Hnd _]. apply NoDup_cons in Hnd as [Hid _]. apply Hid. left.
  - eexists. by vm_compute.
Qed.

Lemma walk_on_members_as_written_nested :
  exists summary,
    _analyze_recursive 3 (members_as_written nested_document) "root" 0
                       fresh_accumulators =
    (Ok summary,
     mkAcc (mkStats 0 4 0 0 3 0 7) [mkDup "root.a" "x"; mkDup "root.b" "x"] 2).
Proof. eexists. by vm_compute. Qed.

End AnalyzerFacts.
Import AnalyzerFacts.

(** ** The shape of the summaries *)

Module SummaryShape.

Lemma summary_tree_ind (P : StructureSummary -> Prop) :
  (forall t ks es ets e,
     match ks with Some d => Forall (fun kv => P kv.2) d | None => True end ->
     match es with Some r => P r | None => True end ->
     P (mkSummary t ks es ets e)) ->
  forall s, P s.
Proof.
  intros H. fix IH 1. intros [t ks es ets e]. apply H.
  - destruct ks as [d|]; [|exact I].
    induction d as [|[k c] d IHd]; constructor; [apply IH|exact IHd].
  - destruct es as [r|]; [apply IH|exact I].
Qed.

Lemma summary_ok_unfold t ks es ets e :
  summary_ok (mkSummary t ks es ets e) <->
  match ks with
  | None => True
  | Some d =>
      t = TObject /\ NoDup d.*1 /\ (e = true <-> d = []) /\
      Forall (fun kv => summary_ok kv.2) d
  end /\
  match ets with
  | None => es = None
  | Some ts =>
      t = TArray /\ StronglySorted tag_lt ts /\ (e = true <-> ts = []) /\
      match es with
      | None => True
      | Some r => ts = [type r] /\ summary_ok r
      end
  end /\
  (ks = None -> ets = None -> e = false).
Proof.
  simpl. apply and_iff_compat_r. destruct ks as [d|]; [|done].
  do 3 apply and_iff_compat_l.
  induction d as [|kv d IH]; simpl; [split; auto|].
  rewrite Forall_cons, IH. reflexivity.
Qed.

Lemma dict_set_not_nil {V} (d : list (string * V)) k v : dict_set d k v <> [].
Proof. destruct d as [|[k' v'] d]; simpl; [done|]. by destruct (String.eqb k' k). Qed.

Lemma fold_dict_set_not_nil {V} (l acc : list (string * V)) :
  acc <> [] -> fold_left (fun d kv => dict_set d kv.1 kv.2) l acc <> [].
Proof.
  revert acc. induction l as [|kv l IH]; intros acc H; simpl; [done|].
  apply IH, dict_set_not_nil.
Qed.

Lemma dict_of_pairs_nil {V} (l : list (string * V)) :
  dict_of_pairs l = [] <-> l = [].
Proof.
  split; [|by intros ->]. destruct l as [|kv l]; [done|].
  unfold dict_of_pairs. simpl. intros H.
  by apply fold_dict_set_not_nil in H.
Qed.

(** Every summary the walk builds is well shaped, at every depth. *)
Lemma summary_of_ok v : summary_ok (summary_of v).
Proof.
  induction v as [v IH] using pyval_tree_ind.
  destruct v as [s|b|z|r| |its|l|r];
    try (apply summary_ok_unfold; split; [done|split; done]).
  - change (summary_of (PDict its)) with
      (mkSummary TObject
         (Some (dict_of_pairs (map (fun kv => (kv.1, summary_of kv.2)) its)))
         None None (bool_decide (its = []))).
    apply summary_ok_unfold. split; [|split; done].
    destruct (dict_of_pairs_well_keyed summary_ok
                (map (fun kv => (kv.1, summary_of kv.2)) its)) as [Hnd Hall].
    { apply Forall_forall. intros kv Hkv.
      change (map ?f ?l) with (f <$> l) in Hkv.
      apply list_elem_of_fmap in Hkv as ([k x] & -> & Hin). simpl.
      rewrite Forall_forall in IH. apply IH. simpl.
      apply list_elem_of_fmap. by exists (k, x). }
    split_and!; [done|done| |done].
    rewrite dict_of_pairs_nil. split.
    + intros Hb. apply bool_decide_eq_true_1 in Hb. by subst.
    + intros Hm. apply bool_decide_eq_true_2. by destruct its.
  - simpl in IH.
    assert (Htags : map type (map summary_of l) = map _get_value_type l).
    { rewrite map_map. apply map_ext. by intros []. }
    change (summary_of (PList l)) with
      (mkSummary TArray None
         (representative (map summary_of l)
            (unique_sorted_types (map type (map summary_of l))))
         (Some (unique_sorted_types (map type (map summary_of l))))
         (bool_decide (l = []))).
    apply summary_ok_unfold. split; [done|]. split; [|done].
    destruct (unique_sorted_types_spec (map type (map summary_of l)))
      as [Hs Hin].
    split_and!; [done|done| |].
    + split.
      * intros Hb. apply bool_decide_eq_true_1 in Hb. by subst.
      * intros Hts. apply bool_decide_eq_true_2. destruct l as [|x l]; [done|].
        exfalso. assert (type (summary_of x) ∈ ([] : list JsonValueType)) as H.
        { rewrite <- Hts. apply Hin. left. }
        by apply elem_of_nil in H.
    + unfold representative.
      destruct l as [|x l]; [done|]. simpl map at 1 2.
      destruct (unique_sorted_types _) as [|t [|u ts]] eqn:Ets; try done.
      assert (t = type (summary_of x)) as ->.
      { assert (type (summary_of x) ∈ [t]) as H by (apply Hin; left).
        by apply list_elem_of_singleton in H. }
      destruct (forallb _ _).
      * split; [done|]. by apply Forall_cons in IH as [? _].
      * split; [done|]. by apply summary_ok_unfold.
Qed.

(** X14. The structure of a successful result is well shaped at every depth:
    [keys] only with the tag object and with distinct names, the element
    fields only with the tag array, [element_types] strictly increasing and
    reduced to the tag of [element_summary] when there is one, [is_empty]
    set exactly on an object without keys or an array without elements. *)
Theorem structure_is_well_shaped format_exc frames self v s :
  structure (results (analyze format_exc frames self v)) = Some s ->
  summary_ok s.
Proof.
  destruct (decide (height v < frames)) as [Hlt|Hge].
  - destruct (analyze_ok format_exc frames self v Hlt) as (dups & -> & _).
    simpl. intros [= <-]. apply summary_of_ok.
  - rewrite analyze_raise by lia. done.
Qed.

End SummaryShape.
Import SummaryShape.

(** ** Equality of summaries *)

Module SummaryEquality.

Lemma summary_eqb_unfold a b :
  summary_eqb a b =
  bool_decide (type a = type b) &&
  match keys a, keys b with
  | None, None => true
  | Some ka, Some kb =>
      bool_decide (length ka = length kb) &&
      forallb (fun kv => match dict_get kb kv.1 with
                         | Some v' => summary_eqb kv.2 v'
                         | None => false
                         end) ka
  | _, _ => false
  end &&
  match element_summary a, element_summary b with
  | None, None => true
  | Some ea, Some eb => summary_eqb ea eb
  | _, _ => false
  end &&
  bool_decide (element_types a = element_types b) &&
  bool_decide (is_empty a = is_empty b).
Proof.
  destruct a as [t ks es ets e]. simpl. do 4 f_equal.
  destruct ks as [ka|]; [|done]. destruct (keys b) as [kb|]; [|done].
  f_equal. induction ka as [|[k v] ka IH]; [done|]. simpl. by rewrite IH.
Qed.

Lemma dict_get_elem {V} (d : list (string * V)) k v :
  NoDup d.*1 -> (k, v) ∈ d -> dict_get d k = Some v.
Proof.
  induction d as [|[k0 v0] d IH]; intros Hnd Hin; [by apply elem_of_nil in Hin|].
  rewrite fmap_cons in Hnd. apply NoDup_cons in Hnd as [Hk0 Hnd].
  simpl. apply elem_of_cons in Hin as [[= <- <-]|Hin].
  - by rewrite String.eqb_refl.
  - destruct (String.eqb_spec k0 k) as [->|_]; [|by apply IH].
    exfalso. apply Hk0. apply list_elem_of_fmap. by exists (k, v).
Qed.

Lemma dict_get_Some_elem {V} (d : list (string * V)) k v :
  dict_get d k = Some v -> (k, v) ∈ d.
Proof.
  induction d as [|[k0 v0] d IH]; [done|]. simpl.
  destruct (String.eqb_spec k0 k) as [->|_].
  - intros [= ->]. left.
  - intros H. right. by apply IH.
Qed.

(** A list with distinct keys has one arrangement sorted by key. *)
Lemma sorted_by_key_unique {V} (l1 l2 : list (string * V)) :
  NoDup l1.*1 -> l1 ≡ₚ l2 ->
  py_sorted str_le fst l1 = py_sorted str_le fst l2.
Proof.
  intros Hnd Hp.
  apply (StronglySorted_unique_strong (by_key str_le fst)).
  - intros x y Hx Hy Hxy Hyx.
    assert (x.1 = y.1) as Hk by (by apply (anti_symm str_le)).
    rewrite py_sorted_perm in Hx, Hy. rewrite <- Hp in Hy.
    destruct x as [k v], y as [k' v']. simpl in Hk. subst k'.
    apply (dict_get_elem _ _ _ Hnd) in Hx, Hy. congruence.
  - apply py_sorted_sorted; apply _.
  - apply py_sorted_sorted; apply _.
  - by rewrite !py_sorted_perm.
Qed.

Lemma canonical_unfold t ks es ets e :
  canonical (mkSummary t ks es ets e) =
  mkSummary t
    (option_map
       (fun d => py_sorted str_le fst
                   (map (fun kv => (kv.1, canonical kv.2)) d)) ks)
    (option_map canonical es) ets e.
Proof. reflexivity. Qed.

(** Python's [==] on two summaries, each with distinct names in every
    [keys] mapping, answers [True] exactly when the two are the same once
    the names of every [keys] mapping are listed in increasing order: it
    looks at every field at every depth, and at nothing else than the order
    of the names. *)
Lemma summary_eqb_canonical : forall a b,
  summary_ok a -> summary_ok b ->
  summary_eqb a b = true <-> canonical a = canonical b.
Proof.
  induction a as [t ks es ets e IHk IHe] using summary_tree_ind.
  intros [t' ks' es' ets' e'] Ha Hb.
  apply summary_ok_unfold in Ha as (Hka & Hea & _).
  apply summary_ok_unfold in Hb as (Hkb & Heb & _).
  rewrite summary_eqb_unfold, !canonical_unfold. simpl type. simpl keys.
  simpl element_summary. simpl element_types. simpl is_empty.
  set (f := fun kv : string * StructureSummary => (kv.1, canonical kv.2)).
  assert (HE : match es, es' with
               | None, None => true
               | Some ea, Some eb => summary_eqb ea eb
               | _, _ => false
               end = true <->
               option_map canonical es = option_map canonical es').
  { destruct es as [r|], es' as [r'|]; simpl; try done.
    destruct ets as [ts|]; [|done]. destruct ets' as [ts'|]; [|done].
    destruct Hea as (_ & _ & _ & _ & Hr), Heb as (_ & _ & _ & _ & Hr').
    rewrite (IHe r' Hr Hr'). split; [by intros ->|by intros [= ->]]. }
  assert (HK : match ks, ks' with
               | None, None => true
               | Some ka, Some kb =>
                   bool_decide (length ka = length kb) &&
                   forallb (fun kv => match dict_get kb kv.1 with
                                      | Some v' => summary_eqb kv.2 v'
                                      | None => false
                                      end) ka
               | _, _ => false
               end = true <->
               option_map (fun d => py_sorted str_le fst (map f d)) ks =
               option_map (fun d => py_sorted str_le fst (map f d)) ks').
  { destruct ks as [d|], ks' as [d'|]; simpl; try done.
    destruct Hka as (_ & Hnd & _ & Hok), Hkb as (_ & Hnd' & _ & Hok').
    rewrite Forall_forall in IHk, Hok, Hok'.
    assert (Hkeys : forall l : list (string * StructureSummary),
              (map f l).*1 = l.*1).
    { intros l. change (map f l) with (f <$> l).
      rewrite <- list_fmap_compose. apply list_fmap_ext. by intros i [k v] _. }
    rewrite andb_true_iff, bool_decide_eq_true, forallb_forall. split.
    - intros [Hlen Hall]. f_equal. apply sorted_by_key_unique.
      { by rewrite Hkeys. }
      apply submseteq_length_Permutation; [|by rewrite !length_map, Hlen].
      apply NoDup_submseteq.
      { apply (NoDup_fmap_1 fst). by rewrite Hkeys. }
      intros x Hx. change (map f d) with (f <$> d) in Hx.
      apply list_elem_of_fmap in Hx as ([k v] & -> & Hin).
      specialize (Hall (k, v) (proj1 (list_elem_of_In _ _) Hin)). simpl in Hall.
      destruct (dict_get d' k) as [v'|] eqn:Hg; [|done].
      apply dict_get_Some_elem in Hg.
      apply (IHk (k, v) Hin v' (Hok _ Hin) (Hok' _ Hg)) in Hall.
      change (map f d') with (f <$> d'). apply list_elem_of_fmap.
      exists (k, v'). split; [|done]. simpl in Hall. unfold f. simpl.
      by rewrite Hall.
    - intros [= Hs].
      assert (map f d ≡ₚ map f d') as Hp.
      { rewrite <- (py_sorted_perm str_le fst (map f d)), Hs.
        apply py_sorted_perm. }
      split.
      { apply Permutation_length in Hp. by rewrite !length_map in Hp. }
      intros [k v] Hin%list_elem_of_In. simpl.
      assert (f (k, v) ∈ map f d') as Hx.
      { rewrite <- Hp. change (map f d) with (f <$> d).
        apply list_elem_of_fmap. by exists (k, v). }
      change (map f d') with (f <$> d') in Hx.
      apply list_elem_of_fmap in Hx as ([k' v'] & [= <- Hc] & Hin').
      rewrite (dict_get_elem _ _ _ Hnd' Hin').
      by apply (IHk (k, v) Hin v' (Hok _ Hin) (Hok' _ Hin')). }
  rewrite !andb_true_iff, !bool_decide_eq_true, HK, HE. split.
  - intros ((((-> & ->) & ->) & ->) & ->). reflexivity.
  - intros [= -> -> -> -> ->]. done.
Qed.

(** On the summaries of two values. *)
Lemma summary_of_eqb x y :
  summary_eqb (summary_of y) (summary_of x) = true <->
  canonical (summary_of y) = canonical (summary_of x).
Proof. apply summary_eqb_canonical; apply summary_of_ok. Qed.

End SummaryEquality.
Import SummaryEquality.

(** ** The claims on the analyzer *)

Module AnalyzerClaims.

(** C8. The classifier returns one of the seven tags on every value; a
    boolean gets [TBoolean] although it passes the number test as well,
    because the boolean test comes first; a value of a class outside the
    JSON value space gets [TUnknown], and only such a value does. *)
Theorem get_value_type_classifies :
  (forall v, _get_value_type v ∈
             [TString; TNumber; TBoolean; TNull; TObject; TArray; TUnknown]) /\
  (forall b, _get_value_type (PBool b) = TBoolean /\
             isinstance_any (PBool b) [Cint; Cfloat] = true) /\
  (forall v, _get_value_type v = TNumber -> isinstance v Cbool = false) /\
  (forall v, _get_value_type v = TUnknown <-> type_of v = Cother).
Proof.
  split_and!.
  - intros v. destruct (_get_value_type v); set_solver.
  - intros b. split; reflexivity.
  - intros v. by destruct v.
  - intros v. rewrite get_value_type_by_class. by destruct (type_of v).
Qed.

Lemma get_value_type_classifies_witness :
  _get_value_type (PInt 3) = TNumber /\ isinstance (PInt 3) Cbool = false.
Proof.
  split; [reflexivity|].
  apply (proj1 (proj2 (proj2 get_value_type_classifies)) (PInt 3)).
  reflexivity.
Defined.

(** C6. When the walk raises, the call of [analyze] leaves an error message
    in [analysis_error], [None] in [structure], [statistics] and
    [max_depth], and the empty list in [duplicate_keys], whatever the
    analyzer held before. *)
Theorem analyze_fails_atomically format_exc frames self v e acc :
  _analyze_recursive frames v "root" 0 fresh_accumulators = (Raise e, acc) ->
  analysis_error (results (analyze format_exc frames self v)) =
    Some (analysis_error_message format_exc e) /\
  analysis_error_message format_exc e <> EmptyString /\
  structure (results (analyze format_exc frames self v)) = None /\
  statistics (results (analyze format_exc frames self v)) = None /\
  max_depth (results (analyze format_exc frames self v)) = None /\
  duplicate_keys (results (analyze format_exc frames self v)) = [].
Proof.
  intros E. unfold analyze. rewrite E. simpl.
  split_and!; done.
Qed.

Lemma analyze_fails_atomically_witness :
  _analyze_recursive 1 (PList [PInt 1]) "root" 0 fresh_accumulators =
    (Raise RecursionError,
     mkAcc (mkStats 0 0 0 0 0 1 1) [] 0) /\
  structure (results (analyze no_traceback 1 JsonAnalyzer_init (PList [PInt 1])))
    = None.
Proof.
  split; [by vm_compute|].
  eapply (analyze_fails_atomically no_traceback 1 JsonAnalyzer_init
            (PList [PInt 1]) RecursionError).
  by vm_compute.
Defined.

(** C10. When the walk raises, [root_type] still holds the tag of the root
    value, next to the error message. *)
Theorem analyze_error_keeps_root_type format_exc frames self v e acc :
  _analyze_recursive frames v "root" 0 fresh_accumulators = (Raise e, acc) ->
  root_type (results (analyze format_exc frames self v)) =
    Some (_get_value_type v) /\
  analysis_error (results (analyze format_exc frames self v)) =
    Some (analysis_error_message format_exc e).
Proof.
  intros E. unfold analyze. rewrite E. simpl.
  split; reflexivity.
Qed.

Lemma analyze_error_keeps_root_type_witness :
  _analyze_recursive 1 (PList [PInt 1]) "root" 0 fresh_accumulators =
    (Raise RecursionError, mkAcc (mkStats 0 0 0 0 0 1 1) [] 0) /\
  root_type (results (analyze no_traceback 1 JsonAnalyzer_init (PList [PInt 1])))
    = Some TArray.
Proof.
  split; [by vm_compute|].
  eapply (analyze_error_keeps_root_type no_traceback 1 JsonAnalyzer_init
            (PList [PInt 1]) RecursionError).
  by vm_compute.
Defined.

(** C3. With more frames than the tree is high the analysis succeeds; and
    whenever it has succeeded, every named counter is the number of nodes
    of its tag, [total_values] is the number of nodes of the tree, and it is
    the sum of the six named counters plus the number of nodes tagged
    unknown, so it is that sum when no node is tagged unknown. *)
Theorem total_values_counts_visited_nodes format_exc frames self v :
  (height v < frames ->
   exists st, statistics (results (analyze format_exc frames self v)) = Some st) /\
  (forall st,
     statistics (results (analyze format_exc frames self v)) = Some st ->
     st = stats_of v /\
     total_values st = count_nodes v /\
     total_values st = named_total st + count_type TUnknown v /\
     (count_type TUnknown v = 0 -> total_values st = named_total st)).
Proof.
  split.
  - intros Hh. destruct (analyze_ok format_exc frames self v Hh) as (dups & -> & _).
    eauto.
  - intros st Hst. destruct (decide (height v < frames)) as [Hlt|Hge].
    + destruct (analyze_ok format_exc frames self v Hlt) as (dups & E & _).
      rewrite E in Hst. simpl in Hst. injection Hst as <-.
      pose proof (total_is_named_plus_unknown v) as Ht.
      split_and!; [reflexivity|reflexivity|exact Ht|].
      intros H0. rewrite Ht, H0. lia.
    + rewrite analyze_raise in Hst by lia. discriminate.
Qed.

Lemma total_values_counts_visited_nodes_witness :
  statistics (results (analyze no_traceback 5 JsonAnalyzer_init
                         (PList [PInt 1; POther "object()"; PDict []]))) =
    Some (mkStats 0 1 0 0 1 1 4) /\
  total_values (mkStats 0 1 0 0 1 1 4) =
    named_total (mkStats 0 1 0 0 1 1 4) +
    count_type TUnknown (PList [PInt 1; POther "object()"; PDict []]).
Proof.
  split; [by vm_compute|].
  apply (proj2 (total_values_counts_visited_nodes no_traceback 5
                  JsonAnalyzer_init
                  (PList [PInt 1; POther "object()"; PDict []]))
               (mkStats 0 1 0 0 1 1 4)).
  by vm_compute.
Defined.

(** C5. With more frames than the tree is high the analysis succeeds; and
    whenever it has succeeded, [max_depth] is the length of the longest path
    from the root to a leaf, the root being at depth 0. *)
Theorem max_depth_is_longest_path format_exc frames self v :
  (height v < frames ->
   exists d, max_depth (results (analyze format_exc frames self v)) = Some d) /\
  (forall d,
     max_depth (results (analyze format_exc frames self v)) = Some d ->
     d = longest_path v).
Proof.
  split.
  - intros Hh. destruct (analyze_ok format_exc frames self v Hh) as (dups & -> & _).
    eauto.
  - intros d Hd. destruct (decide (height v < frames)) as [Hlt|Hge].
    + destruct (analyze_ok format_exc frames self v Hlt) as (dups & E & _).
      rewrite E in Hd. simpl in Hd. injection Hd as <-.
      symmetry. apply height_is_longest_path.
    + rewrite analyze_raise in Hd by lia. discriminate.
Qed.

Lemma max_depth_is_longest_path_witness :
  max_depth (results (analyze no_traceback 5 JsonAnalyzer_init
                        (PDict [("a", PList [PInt 1; PList [PNone]]); ("b", PNone)])))
    = Some 3 /\
  3 = longest_path (PDict [("a", PList [PInt 1; PList [PNone]]); ("b", PNone)]).
Proof.
  split; [by vm_compute|].
  apply (max_depth_is_longest_path no_traceback 5 JsonAnalyzer_init
           (PDict [("a", PList [PInt 1; PList [PNone]]); ("b", PNone)])).
  by vm_compute.
Defined.

(** C1. What one call of the analyzer produces for the document
    [{"id":1,"id":2,"tags":["x","y"],"meta":null}]: [json.load] keeps one
    entry for ["id"], so one number is counted, six values in all, and no
    duplicate key is reported. *)
Theorem scenario_repeated_id_is_collapsed format_exc frames self :
  2 < frames ->
  json_load scenario_document =
    PDict [("id", PInt 2); ("tags", PList [PStr "x"; PStr "y"]); ("meta", PNone)] /\
  statistics (results (analyze format_exc frames self (json_load scenario_document)))
    = Some (mkStats 2 1 0 1 1 1 6) /\
  max_depth (results (analyze format_exc frames self (json_load scenario_document)))
    = Some 2 /\
  duplicate_keys (results (analyze format_exc frames self (json_load scenario_document)))
    = [].
Proof.
  intros Hf. split; [by vm_compute|].
  destruct (analyze_ok format_exc frames self (json_load scenario_document))
    as (dups & -> & W); [exact Hf|].
  rewrite W by apply json_load_well_formed. split_and!; by vm_compute.
Qed.

Lemma scenario_repeated_id_is_collapsed_witness :
  2 < 1000 /\
  statistics (results (analyze no_traceback 1000 JsonAnalyzer_init
                         (json_load scenario_document)))
    = Some (mkStats 2 1 0 1 1 1 6).
Proof.
  split; [lia|].
  apply (scenario_repeated_id_is_collapsed no_traceback 1000 JsonAnalyzer_init).
  lia.
Defined.

(** C2. What the analyzer produces for the document
    [{"a": {"x":1,"x":2}, "b": {"x":3,"x":4}}]: each inner object reaches the
    walk with a single ["x"], and no duplicate key is reported. *)
Theorem nested_repeated_keys_are_collapsed format_exc frames self :
  2 < frames ->
  json_load nested_document =
    PDict [("a", PDict [("x", PInt 2)]); ("b", PDict [("x", PInt 4)])] /\
  statistics (results (analyze format_exc frames self (json_load nested_document)))
    = Some (mkStats 0 2 0 0 3 0 5) /\
  duplicate_keys (results (analyze format_exc frames self (json_load nested_document)))
    = [].
Proof.
  intros Hf. split; [by vm_compute|].
  destruct (analyze_ok format_exc frames self (json_load nested_document))
    as (dups & -> & W); [exact Hf|].
  rewrite W by apply json_load_well_formed. split; by vm_compute.
Qed.

Lemma nested_repeated_keys_are_collapsed_witness :
  2 < 1000 /\
  duplicate_keys (results (analyze no_traceback 1000 JsonAnalyzer_init
                             (json_load nested_document))) = [].
Proof.
  split; [lia|].
  apply (nested_repeated_keys_are_collapsed no_traceback 1000 JsonAnalyzer_init).
  lia.
Defined.

Lemma summary_of_type v : type (summary_of v) = _get_value_type v.
Proof. by destruct v. Qed.

(** C4, as the code has it. For an array node on which the walk returns:
    the summary of each element is [summary_of] of it; [element_types] is
    the list of the tags of the elements, each once, in increasing order of
    the names, so the empty list for an empty array; [is_empty] tells
    whether the array is empty; [element_summary] is absent for an empty
    array, the summary of the first element when all elements have one tag
    and every summary is the first one up to the order of the names in the
    [keys] mappings (the same [canonical] summary), the summary with that
    tag alone and [is_empty] false when all elements have one tag and some
    summary differs from the first in more than that order, and absent when
    two elements differ in tag. *)
Theorem array_summary_by_cases frames l p d acc s acc' :
  _analyze_recursive frames (PList l) p d acc = (Ok s, acc') ->
  Forall (fun x => forall f' p' d' a s' a',
            _analyze_recursive f' x p' d' a = (Ok s', a') -> s' = summary_of x) l /\
  type s = TArray /\
  is_empty s = bool_decide (l = []) /\
  (exists ts, element_types s = Some ts /\ StronglySorted tag_lt ts /\
              forall t, t ∈ ts <-> exists x, x ∈ l /\ _get_value_type x = t) /\
  (l = [] -> element_types s = Some [] /\ element_summary s = None) /\
  (forall x rest t, l = x :: rest ->
     (forall y, y ∈ l -> _get_value_type y = t) ->
     (Forall (fun y => canonical (summary_of y) = canonical (summary_of x)) l ->
      element_summary s = Some (summary_of x)) /\
     (~ Forall (fun y => canonical (summary_of y) = canonical (summary_of x)) l ->
      element_summary s = Some (mkSummary t None None None false))) /\
  (forall x y, x ∈ l -> y ∈ l -> _get_value_type x <> _get_value_type y ->
     element_summary s = None).
Proof.
  intros E. apply analyze_recursive_returns in E as (_ & -> & _).
  assert (Htags : map type (map summary_of l) = map _get_value_type l).
  { rewrite map_map. apply map_ext. intros x. apply summary_of_type. }
  change (summary_of (PList l)) with
    (mkSummary TArray None
       (representative (map summary_of l)
          (unique_sorted_types (map type (map summary_of l))))
       (Some (unique_sorted_types (map type (map summary_of l))))
       (bool_decide (l = []))).
  rewrite Htags. simpl type. simpl is_empty. simpl element_types.
  simpl element_summary.
  split_and!.
  - apply Forall_forall. intros x _ f' p' d' a s' a' E.
    by apply analyze_recursive_returns in E as (_ & -> & _).
  - reflexivity.
  - reflexivity.
  - exists (unique_sorted_types (map _get_value_type l)).
    destruct (unique_sorted_types_spec (map _get_value_type l)) as [Hs Hin].
    split_and!; [reflexivity|exact Hs|].
    intros t. rewrite Hin. change (map _get_value_type l) with (_get_value_type <$> l).
    rewrite list_elem_of_fmap. split.
    + intros (x & -> & Hx). eauto.
    + intros (x & Hx & <-). eauto.
  - intros ->. split; reflexivity.
  - intros x rest t -> Hall.
    assert (Hcmp : Forall (fun y => canonical (summary_of y) =
                                    canonical (summary_of x)) (x :: rest) <->
                   Forall (fun y => summary_eqb (summary_of y) (summary_of x)
                                    = true) (x :: rest)).
    { apply Forall_iff. intros y. symmetry. apply summary_of_eqb. }
    rewrite Hcmp.
    rewrite (unique_sorted_types_one _ t); [|done|].
    2:{ intros u Hu. change (map _get_value_type (x :: rest))
          with (_get_value_type <$> (x :: rest)) in Hu.
        apply list_elem_of_fmap in Hu as (y & -> & Hy). by apply Hall. }
    change (map summary_of (x :: rest)) with (summary_of x :: map summary_of rest).
    unfold representative.
    destruct (forallb (fun s0 => summary_eqb s0 (summary_of x))
                      (summary_of x :: map summary_of rest)) eqn:Hu.
    + split; [done|]. intros Hn. exfalso. apply Hn.
      pose proof (proj1 (forallb_forall _ _) Hu) as Hu'.
      apply Forall_forall. intros y Hy.
      apply Hu'. change (In (summary_of y) (map summary_of (x :: rest))).
      apply in_map. by apply list_elem_of_In.
    + split; [|done]. intros Hf. exfalso.
      assert (forallb (fun s0 => summary_eqb s0 (summary_of x))
                      (summary_of x :: map summary_of rest) = true); [|congruence].
      apply (proj2 (forallb_forall _ _)). intros s0 Hs0.
      change (In s0 (map summary_of (x :: rest))) in Hs0.
      apply (proj1 (in_map_iff _ _ _)) in Hs0 as (y & <- & Hy).
      rewrite Forall_forall in Hf. apply Hf, list_elem_of_In, Hy.
  - intros x y Hx Hy Hne.
    pose proof (unique_sorted_types_mixed (map _get_value_type l)
                  (_get_value_type x) (_get_value_type y)) as Hmix.
    unfold representative.
    destruct (map summary_of l) as [|first ?]; [done|].
    destruct (unique_sorted_types (map _get_value_type l)) as [|a [|b k]]; try done.
    exfalso. eapply Hmix; [| |exact Hne|reflexivity].
    + change (map _get_value_type l) with (_get_value_type <$> l).
      apply list_elem_of_fmap. eauto.
    + change (map _get_value_type l) with (_get_value_type <$> l).
      apply list_elem_of_fmap. eauto.
Qed.

Lemma array_summary_by_cases_witness :
  _analyze_recursive 3
    (PList [PDict [("a", PInt 1); ("b", PStr "x")];
            PDict [("b", PStr "y"); ("a", PInt 2)]])
    "root" 0 fresh_accumulators =
    (Ok (mkSummary TArray None
           (Some (summary_of (PDict [("a", PInt 1); ("b", PStr "x")])))
           (Some [TObject]) false),
     mkAcc (mkStats 2 2 0 0 2 1 7) [] 2) /\
  summary_of (PDict [("b", PStr "y"); ("a", PInt 2)]) <>
    summary_of (PDict [("a", PInt 1); ("b", PStr "x")]) /\
  element_summary
    (mkSummary TArray None
       (Some (summary_of (PDict [("a", PInt 1); ("b", PStr "x")])))
       (Some [TObject]) false) =
    Some (summary_of (PDict [("a", PInt 1); ("b", PStr "x")])).
Proof.
  split; [by vm_compute|]. split; [by vm_compute|].
  destruct (array_summary_by_cases 3
              [PDict [("a", PInt 1); ("b", PStr "x")];
               PDict [("b", PStr "y"); ("a", PInt 2)]]
              "root" 0 fresh_accumulators
              (mkSummary TArray None
                 (Some (summary_of (PDict [("a", PInt 1); ("b", PStr "x")])))
                 (Some [TObject]) false)
              (mkAcc (mkStats 2 2 0 0 2 1 7) [] 2))
    as (_ & _ & _ & _ & _ & Hone & _); [by vm_compute|].
  destruct (Hone (PDict [("a", PInt 1); ("b", PStr "x")])
                 [PDict [("b", PStr "y"); ("a", PInt 2)]] TObject eq_refl)
    as [Hsame _].
  - intros y Hy. apply elem_of_cons in Hy as [->|Hy]; [done|].
    by apply list_elem_of_singleton in Hy as ->.
  - apply Hsame. repeat constructor; by vm_compute.
Defined.

(** Two objects with the same keys in another order have summaries that
    differ, in that order only: the array is uniform and gets the summary of
    its first element, where a comparison that looks at the order gives the
    summary with the tag alone. Two objects whose summaries differ under a
    key do not make a uniform array. *)
Lemma summary_equality_ignores_key_order :
  summary_of (PDict [("b", PStr "y"); ("a", PInt 2)]) <>
    summary_of (PDict [("a", PInt 1); ("b", PStr "x")]) /\
  element_summary
    (summary_of (PList [PDict [("a", PInt 1); ("b", PStr "x")];
                        PDict [("b", PStr "y"); ("a", PInt 2)]])) =
    Some (summary_of (PDict [("a", PInt 1); ("b", PStr "x")])) /\
  element_summary
    (summary_of (PList [PDict [("a", PDict [("c", PInt 1)])];
                        PDict [("a", PDict [("d", PInt 1)])]])) =
    Some (mkSummary TObject None None None false).
Proof. split_and!; by vm_compute. Qed.

(** C4 as stated fails on the empty array: its [element_types] is the empty
    list, not an absent value. It fails too on two objects with the same
    keys in another order: their summaries are not the same, and the array
    gets the summary of the first, not the summary with the tag alone. *)
Lemma array_claim_refuted :
  ~ (forall s acc',
       _analyze_recursive 1 (PList []) "root" 0 fresh_accumulators = (Ok s, acc') ->
       element_types s = None /\ element_summary s = None /\ is_empty s = true) /\
  ~ (forall s acc',
       _analyze_recursive 3
         (PList [PDict [("a", PInt 1); ("b", PStr "x")];
                 PDict [("b", PStr "y"); ("a", PInt 2)]])
         "root" 0 fresh_accumulators = (Ok s, acc') ->
       summary_of (PDict [("b", PStr "y"); ("a", PInt 2)]) <>
         summary_of (PDict [("a", PInt 1); ("b", PStr "x")]) ->
       element_summary s = Some (mkSummary TObject None None None false)).
Proof.
  split.
  - intros H.
    destruct (H (mkSummary TArray None None (Some []) true)
                (mkAcc (mkStats 0 0 0 0 0 1 1) [] 0)) as [Habs _];
      [by vm_compute|discriminate Habs].
  - intros H.
    specialize (H (mkSummary TArray None
                     (Some (summary_of (PDict [("a", PInt 1); ("b", PStr "x")])))
                     (Some [TObject]) false)
                  (mkAcc (mkStats 2 2 0 0 2 1 7) [] 2)
                  ltac:(by vm_compute) ltac:(by vm_compute)).
    vm_compute in H. discriminate H.
Qed.

End AnalyzerClaims.

(** ** The report *)

Module ReportFacts.

Lemma dict_get_set {V} (d : list (string * V)) k v k' :
  dict_get (dict_set d k v) k' = if String.eqb k k' then Some v else dict_get d k'.
Proof.
  induction d as [|[k0 v0] d IH]; simpl.
  - reflexivity.
  - destruct (String.eqb_spec k0 k) as [->|Hne]; simpl.
    + destruct (String.eqb k k'); reflexivity.
    + rewrite IH. destruct (String.eqb_spec k0 k') as [->|Hne'];
        [|reflexivity].
      destruct (String.eqb_spec k k'); [congruence|reflexivity].
Qed.

Lemma dict_get_None {V} (d : list (string * V)) k :
  k ∉ d.*1 -> dict_get d k = None.
Proof.
  induction d as [|[k0 v0] d IH]; [done|]. rewrite fmap_cons, not_elem_of_cons.
  simpl. intros [Hne Hk]. destruct (String.eqb_spec k0 k); [congruence|auto].
Qed.

Lemma dict_set_fresh {V} (d : list (string * V)) k v :
  k ∉ d.*1 -> dict_set d k v = d ++ [(k, v)].
Proof.
  induction d as [|[k0 v0] d IH]; [done|]. rewrite fmap_cons, not_elem_of_cons.
  simpl. intros [Hne Hk]. destruct (String.eqb_spec k0 k); [congruence|].
  by rewrite IH.
Qed.

Lemma no_none_entries_dict its :
  no_none_entries (PDict its) = true <->
  Forall (fun kv => is_none kv.2 = false /\ no_none_entries kv.2 = true) its.
Proof.
  simpl. rewrite forallb_forall, Forall_forall. split; intros H kv Hkv.
  - apply list_elem_of_In, H, andb_prop in Hkv as [H1 H2].
    by apply negb_true_iff in H1.
  - apply list_elem_of_In, H in Hkv as [H1 H2]. by rewrite H1, H2.
Qed.

Lemma no_none_entries_list l :
  no_none_entries (PList l) = true <-> Forall (fun x => no_none_entries x = true) l.
Proof.
  simpl. rewrite forallb_forall, Forall_forall.
  split; intros H x Hx; apply H; by apply list_elem_of_In.
Qed.

(** The equations of the cleaning function. *)
Lemma clean_dict f its :
  _clean_none_values_report (S f) (PDict its) =
  match clean_items (_clean_none_values_report f) its [] with
  | Ok cleaned_dict =>
      Ok (PDict (if dict_contains its "duplicate_keys"
                    && negb (dict_contains cleaned_dict "duplicate_keys")
                 then dict_set cleaned_dict "duplicate_keys" (PList [])
                 else cleaned_dict))
  | Raise e => Raise e
  end.
Proof. reflexivity. Qed.

Lemma clean_list_eq f l :
  _clean_none_values_report (S f) (PList l) =
  match clean_list (_clean_none_values_report f) l with
  | Ok l' => Ok (PList l')
  | Raise e => Raise e
  end.
Proof. reflexivity. Qed.

Lemma clean_leaf f v :
  type_of v <> Cdict -> type_of v <> Clist ->
  _clean_none_values_report (S f) v = Ok v.
Proof. destruct v; simpl; intros; first [reflexivity|congruence]. Qed.

(** A value that is not [None] is not [None] once cleaned. *)
Lemma clean_not_none f v out :
  _clean_none_values_report f v = Ok out -> is_none v = false -> is_none out = false.
Proof.
  destruct f as [|f]; [done|].
  destruct v as [s|b|z|r| |its|l|r];
    try (rewrite clean_leaf by done; by intros [= <-]).
  - rewrite clean_dict. destruct (clean_items _ _ _); [|done]. by intros [= <-].
  - rewrite clean_list_eq. destruct (clean_list _ _); [|done]. by intros [= <-].
Qed.

Section CleanLoops.
Variable recurse : pyval -> outcome pyval.

(** What the dictionary loop leaves under each key, for items with pairwise
    distinct keys none of which is in the dictionary being filled. *)
Lemma clean_items_get its : forall cleaned out,
  NoDup its.*1 -> (forall k, k ∈ its.*1 -> k ∉ cleaned.*1) ->
  clean_items recurse its cleaned = Ok out ->
  forall k,
    dict_get out k =
    match dict_get cleaned k with
    | Some x => Some x
    | None =>
        match dict_get its k with
        | Some v =>
            if is_none v then None
            else match recurse v with Ok v' => Some v' | Raise _ => None end
        | None => None
        end
    end.
Proof.
  induction its as [|[k0 v0] rest IH]; intros cleaned out Hnd Hdis E k.
  - simpl in E. injection E as <-. simpl. by destruct (dict_get cleaned k).
  - rewrite fmap_cons in Hnd. apply NoDup_cons in Hnd as [Hk0 Hnd].
    simpl in E. simpl dict_get.
    assert (dict_get rest k0 = None) as Hrest by by apply dict_get_None.
    assert (dict_get cleaned k0 = None) as Hcl.
    { apply dict_get_None, Hdis. rewrite fmap_cons. left. }
    destruct (is_none v0) eqn:Hn.
    + rewrite (IH cleaned out Hnd) by
        (try done; intros k' Hk'; apply Hdis; rewrite fmap_cons; by right).
      destruct (String.eqb_spec k0 k) as [<-|Hne]; [|done].
      by rewrite Hcl, Hrest, Hn.
    + destruct (recurse v0) as [v0'|e] eqn:Hr; [|done]. simpl in E.
      assert (forall k', k' ∈ rest.*1 -> k' ∉ (dict_set cleaned k0 v0').*1) as Hdis'.
      { intros k' Hk'. rewrite dict_set_keys.
        rewrite bool_decide_eq_false_2 by (apply Hdis; rewrite fmap_cons; left).
        rewrite elem_of_app, list_elem_of_singleton.
        intros [Hin|Heq].
        - revert Hin. apply Hdis. rewrite fmap_cons. by right.
        - by subst k'. }
      rewrite (IH _ out Hnd Hdis' E).
      rewrite dict_get_set.
      destruct (String.eqb_spec k0 k) as [<-|Hne]; [|reflexivity].
      by rewrite Hcl, Hn, Hr.
Qed.

Lemma clean_items_Forall (P : pyval -> Prop) its : forall cleaned out,
  (forall v v', recurse v = Ok v' -> is_none v = false -> P v') ->
  Forall (fun kv => P kv.2) cleaned ->
  clean_items recurse its cleaned = Ok out ->
  Forall (fun kv => P kv.2) out.
Proof.
  induction its as [|[k0 v0] rest IH]; intros cleaned out Hrec Hcl E.
  - simpl in E. by injection E as <-.
  - simpl in E. destruct (is_none v0) eqn:Hn; [by eapply IH|].
    destruct (recurse v0) as [v0'|e] eqn:Hr; [|done]. simpl in E.
    eapply IH; [done| |exact E]. apply dict_set_Forall; eauto.
Qed.

Lemma clean_list_Forall2 l : forall out,
  clean_list recurse l = Ok out ->
  Forall2 (fun x x' => recurse x = Ok x') l out.
Proof.
  induction l as [|x l IH]; intros out E; simpl in E.
  - injection E as <-. constructor.
  - destruct (recurse x) as [x'|e] eqn:Hr; [|done]. simpl in E.
    destruct (clean_list recurse l) as [l'|e]; [|done]. simpl in E.
    injection E as <-. constructor; auto.
Qed.

Lemma clean_items_ok its : forall cleaned,
  Forall (fun kv => exists v', recurse kv.2 = Ok v') its ->
  exists out, clean_items recurse its cleaned = Ok out.
Proof.
  induction its as [|[k0 v0] rest IH]; intros cleaned Hall; simpl; [by eexists|].
  apply Forall_cons in Hall as [[v' Hv] Hall]. simpl in Hv.
  destruct (is_none v0); [by apply IH|]. rewrite Hv. simpl. by apply IH.
Qed.

Lemma clean_list_ok l :
  Forall (fun x => exists x', recurse x = Ok x') l ->
  exists out, clean_list recurse l = Ok out.
Proof.
  induction 1 as [|x l [x' Hx] _ [out IH]]; simpl; [by eexists|].
  rewrite Hx. simpl. rewrite IH. simpl. by eexists.
Qed.
End CleanLoops.

(** With more frames than the value is high, cleaning returns. *)
Lemma clean_ok frames : forall v,
  height v < frames -> exists out, _clean_none_values_report frames v = Ok out.
Proof.
  induction frames as [|f IH]; intros v Hh; [lia|].
  destruct v as [s|b|z|r| |its|l|r]; try (by eexists).
  - rewrite clean_dict.
    destruct (clean_items_ok (_clean_none_values_report f) its []) as [out ->];
      [|by eexists].
    apply Forall_forall. intros kv Hkv. apply IH. simpl in Hh.
    assert (S (height kv.2) <= max_list (map (fun kv => S (height kv.2)) its))%nat.
    { apply max_list_elem_of_le, list_elem_of_fmap. eauto. }
    lia.
  - rewrite clean_list_eq.
    destruct (clean_list_ok (_clean_none_values_report f) l) as [out ->];
      [|by eexists].
    apply Forall_forall. intros x Hx. apply IH. simpl in Hh.
    assert (S (height x) <= max_list (map (fun x => S (height x)) l))%nat.
    { apply max_list_elem_of_le, list_elem_of_fmap. eauto. }
    lia.
Qed.

(** Cleaning leaves no [None] under any key, at any depth. *)
Lemma clean_prunes_everywhere frames : forall v out,
  _clean_none_values_report frames v = Ok out -> no_none_entries out = true.
Proof.
  induction frames as [|f IH]; intros v out E; [done|].
  destruct v as [s|b|z|r| |its|l|r];
    try (rewrite clean_leaf in E by done; by injection E as <-).
  - rewrite clean_dict in E.
    destruct (clean_items _ its []) as [cleaned|e] eqn:Hc; [|done].
    injection E as <-. apply no_none_entries_dict.
    assert (Forall (fun kv => is_none kv.2 = false /\ no_none_entries kv.2 = true)
                   cleaned) as Hcl.
    { eapply (clean_items_Forall _
               (fun v => is_none v = false /\ no_none_entries v = true));
        [|constructor|exact Hc].
      intros v v' Hv Hn. split; [by eapply clean_not_none|by eapply IH]. }
    destruct (_ && _); [|done].
    by apply (dict_set_Forall
                (fun v => is_none v = false /\ no_none_entries v = true)).
  - rewrite clean_list_eq in E.
    destruct (clean_list _ l) as [l'|e] eqn:Hl; [|done].
    injection E as <-. apply no_none_entries_list.
    apply clean_list_Forall2 in Hl.
    induction Hl as [|x x' l l' Hx _ IHl]; constructor; eauto.
Qed.

(** Cleaning a list keeps every element in its place, the [None] ones as
    they are. *)
Lemma clean_keeps_list_elements frames l out :
  _clean_none_values_report frames (PList l) = Ok out ->
  exists l', out = PList l' /\ length l' = length l /\
             forall i, l !! i = Some PNone -> l' !! i = Some PNone.
Proof.
  destruct frames as [|f]; [done|]. rewrite clean_list_eq.
  destruct (clean_list _ l) as [l'|e] eqn:Hl; [|done]. intros [= <-].
  exists l'. apply clean_list_Forall2 in Hl. split_and!; [done| |].
  - symmetry. by eapply Forall2_length.
  - intros i Hi.
    destruct (Forall2_lookup_l _ _ _ _ _ Hl Hi) as (x' & -> & Hx).
    destruct f; [done|]. by injection Hx as <-.
Qed.

(** A value with no [None] under any key and no repeated key comes back
    from cleaning as it went in. *)
Lemma clean_identity frames : forall v out,
  well_formed v -> no_none_entries v = true ->
  _clean_none_values_report frames v = Ok out -> out = v.
Proof.
  induction frames as [|f IH]; intros v out Hwf Hnn E; [done|].
  destruct v as [s|b|z|r| |its|l|r];
    try (rewrite clean_leaf in E by done; by injection E as <-).
  - rewrite clean_dict in E.
    destruct (clean_items _ its []) as [cleaned|e] eqn:Hc; [|done].
    apply well_formed_dict in Hwf as [Hnd Hwf].
    apply no_none_entries_dict in Hnn.
    assert (Hgen : forall its acc out,
              NoDup its.*1 -> (forall k, k ∈ its.*1 -> k ∉ acc.*1) ->
              Forall (fun kv => well_formed kv.2) its ->
              Forall (fun kv => is_none kv.2 = false /\ no_none_entries kv.2 = true) its ->
              clean_items (_clean_none_values_report f) its acc = Ok out ->
              out = acc ++ its).
    { clear -IH. induction its as [|[k0 v0] rest IHr];
        intros acc out Hnd Hdis Hwf Hnn E; simpl in E.
      - injection E as <-. by rewrite app_nil_r.
      - assert (k0 ∉ acc.*1) as Hacc by (apply Hdis; rewrite fmap_cons; left).
        assert (forall k', k' ∈ rest.*1 -> k' ∉ acc.*1) as Hdis'
          by (intros k' Hk'; apply Hdis; rewrite fmap_cons; by right).
        rewrite fmap_cons in Hnd. apply NoDup_cons in Hnd as [Hk0 Hnd].
        apply Forall_cons in Hwf as [Hw0 Hwf].
        apply Forall_cons in Hnn as [[Hn0 Hnn0] Hnn].
        simpl in Hw0, Hn0, Hnn0, Hk0. rewrite Hn0 in E.
        destruct (_clean_none_values_report f v0) as [v0'|e] eqn:Hr; [|done].
        simpl in E. apply IH in Hr; [subst v0'|done|done].
        apply IHr in E; [|done| |done|done].
        + rewrite E, dict_set_fresh by done. by rewrite <- app_assoc.
        + intros k' Hk'. rewrite dict_set_keys.
          rewrite bool_decide_eq_false_2 by done.
          rewrite elem_of_app, list_elem_of_singleton.
          intros [Hin|Heq]; [by apply (Hdis' k')|by subst k']. }
    apply Hgen in Hc; [|done|intros; apply not_elem_of_nil|done|done].
    simpl in Hc. subst cleaned. injection E as <-.
    by destruct (dict_contains its "duplicate_keys").
  - rewrite clean_list_eq in E.
    destruct (clean_list _ l) as [l'|e] eqn:Hl; [|done].
    injection E as <-. f_equal.
    apply well_formed_list in Hwf. apply no_none_entries_list in Hnn.
    apply clean_list_Forall2 in Hl.
    induction Hl as [|x x' l l' Hx _ IHl]; [done|].
    apply Forall_cons in Hwf as [? ?]. apply Forall_cons in Hnn as [? ?].
    f_equal; eauto.
Qed.

Lemma clean_items_ran (recurse : pyval -> outcome pyval) its : forall cleaned out,
  clean_items recurse its cleaned = Ok out ->
  Forall (fun kv => is_none kv.2 = false -> exists v', recurse kv.2 = Ok v') its.
Proof.
  induction its as [|[k0 v0] rest IH]; intros cleaned out E; [constructor|].
  simpl in E. destruct (is_none v0) eqn:Hn.
  - constructor; [simpl; congruence|by eapply IH].
  - destruct (recurse v0) as [v0'|e] eqn:Hr; [|done]. simpl in E.
    constructor; [simpl; eauto|by eapply IH].
Qed.

Lemma dict_get_cons {V} k0 (v0 : V) d k :
  dict_get ((k0, v0) :: d) k = if String.eqb k0 k then Some v0 else dict_get d k.
Proof. reflexivity. Qed.

Lemma results_keys_NoDup r : NoDup (items (results_to_py r)).*1.
Proof. apply (bool_decide_unpack _). by vm_compute. Qed.

Lemma results_has_duplicate_keys r :
  dict_get (items (results_to_py r)) "duplicate_keys" =
  Some (PList (map dup_to_py (duplicate_keys r))).
Proof. reflexivity. Qed.

Lemma clean_results f r out :
  _clean_none_values_report (S f) (results_to_py r) = Ok out ->
  (forall k, py_get out k = cleaned_entry f r k) /\
  Forall (fun kv => is_none kv.2 = false ->
                    exists v', _clean_none_values_report f kv.2 = Ok v')
         (items (results_to_py r)).
Proof.
  intros E. change (results_to_py r) with (PDict (items (results_to_py r))) in E.
  rewrite clean_dict in E.
  destruct (clean_items _ _ []) as [cd|e] eqn:Hc; [|done].
  pose proof (clean_items_ran _ _ _ _ Hc) as Hran.
  pose proof (clean_items_get _ _ [] _ (results_keys_NoDup r)
                (fun k _ => not_elem_of_nil k) Hc) as Hget.
  split; [|exact Hran].
  assert (dict_contains cd "duplicate_keys" = true) as Hdk.
  { unfold dict_contains. rewrite Hget. simpl dict_get at 1.
    rewrite results_has_duplicate_keys. simpl is_none.
    rewrite Forall_forall in Hran.
    destruct (Hran ("duplicate_keys", PList (map dup_to_py (duplicate_keys r))))
      as [v' Hv]; [simpl; do 7 right; left|done|].
    simpl in Hv. by rewrite Hv. }
  rewrite Hdk, andb_false_r in E. injection E as <-.
  intros k. unfold py_get, cleaned_entry. simpl items at 1. by rewrite Hget.
Qed.

Section ReportOutcomes.
Variable format_exc : pyexn -> string.

(** When cleaning returns, the report is the cleaned dictionary: the two
    names put back after cleaning are already in it. *)
Lemma generate_json_report_cleaned frames a out :
  _clean_none_values_report frames
    (results_to_py (sort_duplicate_keys (results a))) = Ok out ->
  generate_json_report format_exc frames a = out.
Proof.
  intros E. unfold generate_json_report. rewrite E.
  destruct frames as [|f]; [done|].
  destruct (clean_results f _ out E) as [Hget Hran].
  set (r := sort_duplicate_keys (results a)) in *.
  rewrite Forall_forall in Hran.
  assert (str_truthy (filepath r) = true -> py_contains out "filepath" = true) as H1.
  { intros Ht. unfold py_contains, dict_contains.
    change (dict_get (items out) "filepath") with (py_get out "filepath").
    rewrite Hget. unfold cleaned_entry. simpl dict_get.
    pose proof (Hran ("filepath", opt_to_py PStr (filepath r))
                  ltac:(simpl; left)) as Hfp.
    destruct (filepath r) as [s|]; [|done]. simpl in *.
    destruct Hfp as [v' Hv]; [done|]. by rewrite Hv. }
  assert (str_truthy (analysis_error r) = true ->
          py_contains out "analysis_error" = true) as H2.
  { intros Ht. unfold py_contains, dict_contains.
    change (dict_get (items out) "analysis_error") with (py_get out "analysis_error").
    rewrite Hget. unfold cleaned_entry. simpl dict_get.
    pose proof (Hran ("analysis_error", opt_to_py PStr (analysis_error r))
                  ltac:(simpl; right; left)) as Hae.
    destruct (analysis_error r) as [s|]; [|done]. simpl in *.
    destruct Hae as [v' Hv]; [done|]. by rewrite Hv. }
  destruct (str_truthy (filepath r)).
  - rewrite H1 by done. simpl.
    destruct (str_truthy (analysis_error r)); [|done]. by rewrite H2.
  - rewrite andb_false_r.
    destruct (str_truthy (analysis_error r)); [|done]. by rewrite H2.
Qed.

(** When cleaning raises, the report has at most the three names of the
    minimal error report. *)
Lemma generate_json_report_minimal frames a e k :
  _clean_none_values_report frames
    (results_to_py (sort_duplicate_keys (results a))) = Raise e ->
  k <> "filepath" -> k <> "analysis_error" -> k <> "file_size_bytes" ->
  py_get (generate_json_report format_exc frames a) k = None.
Proof.
  intros E H1 H2 H3. unfold generate_json_report. rewrite E.
  apply String.eqb_neq in H1, H2, H3. rewrite String.eqb_sym in H1, H2, H3.
  destruct (file_size_bytes _) as [n|]; unfold py_get.
  - change (items (PDict (dict_set ?d "file_size_bytes" ?v)))
      with (d ++ [("file_size_bytes", v)]).
    cbn [app items]. by rewrite !dict_get_cons, H1, H2, H3.
  - cbn [items]. by rewrite !dict_get_cons, H1, H2.
Qed.
End ReportOutcomes.

Lemma dups_well_formed l : well_formed (PList (map dup_to_py l)).
Proof.
  apply well_formed_list, Forall_forall. intros v Hv.
  change (map dup_to_py l) with (dup_to_py <$> l) in Hv.
  apply list_elem_of_fmap in Hv as (d & -> & _).
  apply well_formed_dict. split; [|repeat constructor].
  apply (bool_decide_unpack _). by vm_compute.
Qed.

Lemma dups_no_none l : no_none_entries (PList (map dup_to_py l)) = true.
Proof.
  apply no_none_entries_list, Forall_forall. intros v Hv.
  change (map dup_to_py l) with (dup_to_py <$> l) in Hv.
  by apply list_elem_of_fmap in Hv as (d & -> & _).
Qed.

Lemma stats_well_formed st : well_formed (stats_to_py st).
Proof.
  apply well_formed_dict. split; [|repeat constructor].
  apply (bool_decide_unpack _). by vm_compute.
Qed.

Lemma sort_duplicate_keys_eq r :
  sort_duplicate_keys r =
  mkResult (filepath r) (analysis_error r) (file_size_bytes r) (root_type r)
           (max_depth r) (statistics r) (structure r)
           (py_sorted pair_le dup_sort_key (duplicate_keys r)).
Proof.
  unfold sort_duplicate_keys. case_bool_decide as Hd; [|done].
  destruct r. simpl in *. by subst.
Qed.

Lemma by_key_dup_le x y : by_key pair_le dup_sort_key x y <-> dup_le x y.
Proof. unfold by_key, dup_le. by rewrite pair_le_iff. Qed.

End ReportFacts.
Import ReportFacts.

(** ** The claims on the report *)

Module ReportClaims.

Section Entries.
Variable format_exc : pyexn -> string.

(** Where an entry of the report comes from, the three names of the minimal
    error report apart. *)
Lemma report_entry_inv frames a k v :
  py_get (generate_json_report format_exc frames a) k = Some v ->
  k <> "filepath" -> k <> "analysis_error" -> k <> "file_size_bytes" ->
  exists f x,
    frames = S f /\
    py_get (results_to_py (sort_duplicate_keys (results a))) k = Some x /\
    is_none x = false /\ _clean_none_values_report f x = Ok v.
Proof.
  intros Hv H1 H2 H3.
  destruct (_clean_none_values_report frames
              (results_to_py (sort_duplicate_keys (results a)))) as [out|e] eqn:E.
  - rewrite (generate_json_report_cleaned _ _ _ _ E) in Hv.
    destruct frames as [|f]; [done|]. exists f.
    destruct (clean_results f _ out E) as [Hget _].
    rewrite Hget in Hv. unfold cleaned_entry, py_get in *.
    destruct (dict_get _ k) as [x|]; [|done]. exists x.
    destruct (is_none x); [done|].
    destruct (_clean_none_values_report f x); [|done].
    by injection Hv as <-.
  - by rewrite (generate_json_report_minimal _ _ _ _ _ E) in Hv.
Qed.

(** With enough frames, every name of the result not holding [None] is in
    the report with its cleaned value, and every name holding [None] is
    absent from it. *)
Lemma report_entry_ok frames a k x :
  height (results_to_py (sort_duplicate_keys (results a))) < frames ->
  py_get (results_to_py (sort_duplicate_keys (results a))) k = Some x ->
  if is_none x
  then py_get (generate_json_report format_exc frames a) k = None
  else exists v, _clean_none_values_report (frames - 1) x = Ok v /\
                 py_get (generate_json_report format_exc frames a) k = Some v.
Proof.
  intros Hh Hx. destruct (clean_ok frames _ Hh) as [out E].
  rewrite (generate_json_report_cleaned _ _ _ _ E).
  destruct frames as [|f]; [done|].
  destruct (clean_results f _ out E) as [Hget Hran].
  rewrite Hget. unfold cleaned_entry, py_get in *. rewrite Hx.
  destruct (is_none x) eqn:Hn; [done|].
  rewrite Forall_forall in Hran.
  destruct (Hran (k, x)) as [v Hv]; [|done|].
  - clear -Hx. induction (items _) as [|[k0 v0] d IH]; [done|].
    rewrite dict_get_cons in Hx. destruct (String.eqb_spec k0 k) as [->|Hne].
    + injection Hx as ->. left.
    + right. auto.
  - simpl in Hv. replace (S f - 1) with f by lia. rewrite Hv. eauto.
Qed.
End Entries.

Lemma StronglySorted_impl {A} (R S : relation A) l :
  (forall x y, R x y -> S x y) -> StronglySorted R l -> StronglySorted S l.
Proof.
  intros HRS. induction 1 as [|x l _ IH Hall]; constructor; [done|].
  eapply Forall_impl; eauto.
Qed.

(** C7. The duplicates of the report are the duplicates of the analyzer
    sorted by path, then key: whenever the report has a [duplicate_keys]
    entry it is that sorted list, and with enough frames it has one;
    duplicates at [root.b] / [x] and [root.a] / [y] come out as
    [(root.a, y); (root.b, x)]; and the [statistics] entry of the report is
    the statistics of the analyzer, unchanged. *)
Theorem report_duplicate_keys_sorted format_exc frames a :
  StronglySorted dup_le
    (py_sorted pair_le dup_sort_key (duplicate_keys (results a))) /\
  py_sorted pair_le dup_sort_key (duplicate_keys (results a))
    ≡ₚ duplicate_keys (results a) /\
  (forall v,
     py_get (generate_json_report format_exc frames a) "duplicate_keys" = Some v ->
     v = PList (map dup_to_py
                  (py_sorted pair_le dup_sort_key (duplicate_keys (results a))))) /\
  (forall v,
     py_get (generate_json_report format_exc frames a) "statistics" = Some v ->
     exists st, statistics (results a) = Some st /\ v = stats_to_py st) /\
  (height (results_to_py (sort_duplicate_keys (results a))) < frames ->
   py_get (generate_json_report format_exc frames a) "duplicate_keys" =
     Some (PList (map dup_to_py
                    (py_sorted pair_le dup_sort_key (duplicate_keys (results a))))) /\
   py_get (generate_json_report format_exc frames a) "statistics" =
     stats_to_py <$> statistics (results a)) /\
  py_sorted pair_le dup_sort_key [mkDup "root.b" "x"; mkDup "root.a" "y"] =
    [mkDup "root.a" "y"; mkDup "root.b" "x"].
Proof.
  split_and!.
  - eapply StronglySorted_impl; [|apply py_sorted_sorted; apply _].
    intros x y. apply by_key_dup_le.
  - apply py_sorted_perm.
  - intros v Hv.
    apply report_entry_inv in Hv as (f & x & _ & Hx & _ & Hc); [|done..].
    rewrite sort_duplicate_keys_eq in Hx. injection Hx as <-.
    by apply clean_identity in Hc; [|apply dups_well_formed|apply dups_no_none].
  - intros v Hv.
    apply report_entry_inv in Hv as (f & x & _ & Hx & Hn & Hc); [|done..].
    rewrite sort_duplicate_keys_eq in Hx. injection Hx as <-.
    simpl in Hn, Hc. destruct (statistics (results a)) as [st|]; [|done].
    exists st. split; [done|]. simpl in Hc.
    by apply clean_identity in Hc; [|apply stats_well_formed|].
  - intros Hh. split.
    + pose proof (report_entry_ok format_exc frames a "duplicate_keys" _ Hh eq_refl)
        as (v & Hc & ->).
      rewrite sort_duplicate_keys_eq in Hc. simpl in Hc.
      by apply clean_identity in Hc as ->;
        [|apply dups_well_formed|apply dups_no_none].
    + pose proof (report_entry_ok format_exc frames a "statistics" _ Hh eq_refl)
        as Hst.
      rewrite sort_duplicate_keys_eq in Hst. simpl in Hst.
      destruct (statistics (results a)) as [st|]; simpl in Hst; [|done].
      destruct Hst as (v & Hc & ->).
      by apply clean_identity in Hc as ->; [|apply stats_well_formed|].
  - by vm_compute.
Qed.

Lemma report_duplicate_keys_sorted_witness :
  height (results_to_py (sort_duplicate_keys
            (mkResult None None None (Some TObject) (Some 1)
                      (Some (mkStats 0 4 0 0 3 0 7)) None
                      [mkDup "root.b" "x"; mkDup "root.a" "y"]))) < 5 /\
  py_get (generate_json_report no_traceback 5
            (mkAnalyzer
               (mkResult None None None (Some TObject) (Some 1)
                         (Some (mkStats 0 4 0 0 3 0 7)) None
                         [mkDup "root.b" "x"; mkDup "root.a" "y"]) None))
         "duplicate_keys" =
    Some (PList [PDict [("path", PStr "root.a"); ("key", PStr "y")];
                 PDict [("path", PStr "root.b"); ("key", PStr "x")]]).
Proof.
  split; [vm_compute; lia|].
  refine (proj1 (proj1 (proj2 (proj2 (proj2 (proj2
    (report_duplicate_keys_sorted no_traceback 5
       (mkAnalyzer
          (mkResult None None None (Some TObject) (Some 1)
                    (Some (mkStats 0 4 0 0 3 0 7)) None
                    [mkDup "root.b" "x"; mkDup "root.a" "y"]) None)))))) _)).
  vm_compute. lia.
Defined.

(** C9. The report of the document [1]: the summary the analyzer stores
    holds [None] under [keys], [element_summary] and [element_types]; the
    summary in the report has lost the three names. The cleaning prunes
    inside the structural summary, where the claim, the docstring of
    [generate_json_report] and the comment above the call keep what lies
    below the top level. *)
Theorem report_prunes_inside_structure :
  py_get (results_to_py
            (results (analyze no_traceback 10 JsonAnalyzer_init (PInt 1))))
         "structure" =
    Some (PDict [("type", PStr "number"); ("keys", PNone);
                 ("element_summary", PNone); ("element_types", PNone);
                 ("is_empty", PBool false)]) /\
  py_get (generate_json_report no_traceback 10
            (analyze no_traceback 10 JsonAnalyzer_init (PInt 1)))
         "structure" =
    Some (PDict [("type", PStr "number"); ("is_empty", PBool false)]) /\
  py_get (generate_json_report no_traceback 10
            (analyze no_traceback 10 JsonAnalyzer_init (PInt 1)))
         "structure" <>
  py_get (results_to_py
            (results (analyze no_traceback 10 JsonAnalyzer_init (PInt 1))))
         "structure".
Proof. split_and!; [by vm_compute|by vm_compute|by vm_compute]. Qed.

End ReportClaims.

(** ** The file handler *)

Module FileHandlerFacts.

Lemma append_nonempty (a b : string) : a <> EmptyString -> a +:+ b <> EmptyString.
Proof. destruct a; [done|]. simpl. discriminate. Qed.

Section Reading.
Variable fs : string -> path_entry.
Variable format_read_exc : read_exn -> string.

Lemma read_failure_spec filepath e file_size :
  exists msg,
    read_failure format_read_exc filepath e file_size =
    (PNone, Some msg,
     match e with
     | FileNotFoundError | PermissionError => None
     | _ => file_size
     end) /\ msg <> EmptyString.
Proof.
  destruct e; simpl; eexists; (split; [reflexivity|]);
    by apply append_nonempty.
Qed.

(** The two ways [read_and_parse_json] ends. *)
Lemma read_cases filepath :
  (exists msg size,
     read_and_parse_json fs format_read_exc filepath = (PNone, Some msg, size) /\
     msg <> EmptyString /\
     ~ exists n d, fs filepath = RegularFile (inr n) (inr d)) \/
  (exists n d,
     fs filepath = RegularFile (inr n) (inr d) /\
     read_and_parse_json fs format_read_exc filepath =
       (json_load d, None, Some n)).
Proof.
  unfold read_and_parse_json.
  destruct (fs filepath) as [| |[e|n] ld].
  - left. do 2 eexists. split_and!; [done|by apply append_nonempty|].
    by intros (n & d & ?).
  - left. do 2 eexists. split_and!; [done|by apply append_nonempty|].
    by intros (n & d & ?).
  - left. destruct (read_failure_spec filepath e None) as (msg & -> & Hmsg).
    do 2 eexists. split_and!; [done|done|]. by intros (n & d & ?).
  - destruct ld as [e|d]; [left|right; eauto].
    destruct (read_failure_spec filepath e (Some n)) as (msg & -> & Hmsg).
    do 2 eexists. split_and!; [done|done|]. by intros (n' & d & ?).
Qed.

(** X1. Reading either fails, with a message that is not empty and no data, or
    returns the decoded document with no message; it returns exactly when
    the path is a regular file whose size and content could be read. *)
Theorem read_returns_data_or_message filepath :
  match read_and_parse_json fs format_read_exc filepath with
  | (data, Some msg, _) =>
      data = PNone /\ msg <> EmptyString /\
      ~ exists n d, fs filepath = RegularFile (inr n) (inr d)
  | (data, None, file_size) =>
      exists n d, fs filepath = RegularFile (inr n) (inr d) /\
                  data = json_load d /\ file_size = Some n
  end.
Proof.
  destruct (read_cases filepath) as [(msg & size & -> & Hne & Hno)|(n & d & Hfs & ->)].
  - done.
  - eauto.
Qed.

(** X2. The size comes back exactly when [getsize] returned it and what
    followed did not raise [FileNotFoundError] or [PermissionError]: a file
    that is not valid JSON still reports its size. *)
Theorem read_reports_size filepath n :
  (read_and_parse_json fs format_read_exc filepath).2 = Some n <->
  exists ld, fs filepath = RegularFile (inr n) ld /\
             ld <> inl FileNotFoundError /\ ld <> inl PermissionError.
Proof.
  unfold read_and_parse_json.
  destruct (fs filepath) as [| |[e|m] load]; simpl.
  - split; [done|]. by intros (ld & ? & _).
  - split; [done|]. by intros (ld & ? & _).
  - split; [by destruct e|]. by intros (ld & ? & _).
  - destruct load as [e|d].
    + destruct e; simpl.
      * split; [done|]. intros (ld & [= _ <-] & ? & _). done.
      * split; [done|]. intros (ld & [= _ <-] & _ & ?). done.
      * split; [intros [= ->]; eauto|]. by intros (ld & [= ->] & _).
      * split; [intros [= ->]; eauto|]. by intros (ld & [= ->] & _).
    + split; [intros [= ->]; eauto|]. by intros (ld & [= ->] & _).
Qed.

Variable abspath : string -> string.
Variable format_exc : pyexn -> string.

Lemma str_truthy_Some msg : msg <> EmptyString -> str_truthy (Some msg) = true.
Proof. intros H. simpl. by rewrite bool_decide_eq_false_2. Qed.

(** X3. When reading fails, the analyzer is not run: the result holds the
    reader's message, the path, the size if the reader kept it, and nothing
    else. *)
Theorem analyze_json_file_read_failure frames filepath msg :
  (read_and_parse_json fs format_read_exc filepath).1.2 = Some msg ->
  analyze_json_file fs format_read_exc abspath format_exc frames filepath =
  mkAnalyzer
    (mkResult (stamped_path abspath filepath) (Some msg)
              (read_and_parse_json fs format_read_exc filepath).2
              None None None None [])
    None.
Proof.
  intros Hmsg. unfold analyze_json_file.
  destruct (read_cases filepath) as [(m & size & E & Hne & _)|(n & d & _ & E)];
    rewrite E in *; simpl in Hmsg; [|done].
  injection Hmsg as ->. by rewrite (str_truthy_Some _ Hne).
Qed.

(** X4. A file that holds the document [null] is reported as an unknown error:
    the analyzer is not run, and [max_depth] keeps the 0 the analyzer was
    created with. *)
Theorem analyze_json_file_null_document frames filepath n d :
  fs filepath = RegularFile (inr n) (inr d) -> json_load d = PNone ->
  analyze_json_file fs format_read_exc abspath format_exc frames filepath =
  mkAnalyzer
    (mkResult (stamped_path abspath filepath) (Some (unknown_error_message filepath))
              (Some n) None (Some 0) None None [])
    None.
Proof.
  intros Hfs Hd. unfold analyze_json_file, read_and_parse_json.
  rewrite Hfs, Hd. reflexivity.
Qed.

(** A readable file whose document is not [null] is handed to the
    analyzer, created anew, with path and size stamped. *)
Lemma analyze_json_file_runs frames filepath n d :
  fs filepath = RegularFile (inr n) (inr d) -> json_load d <> PNone ->
  analyze_json_file fs format_read_exc abspath format_exc frames filepath =
  analyze format_exc frames
    (mkAnalyzer
       (mkResult (stamped_path abspath filepath) None (Some n) None (Some 0)
                 None None []) None)
    (json_load d).
Proof.
  intros Hfs Hd. unfold analyze_json_file, read_and_parse_json.
  rewrite Hfs. simpl str_truthy. cbv iota beta.
  replace (is_none (json_load d)) with false by (by destruct (json_load d)).
  reflexivity.
Qed.

(** X5. A result of [analyze_json_file] that has a structure comes from a
    readable file whose document is not [null], and is the result of the
    analyzer on the decoded document with path and size stamped: no error,
    the tag, the height, the counts and the summary of the document, and no
    duplicate key. *)
Theorem analyze_json_file_success frames filepath s :
  structure
    (results (analyze_json_file fs format_read_exc abspath format_exc frames
                                filepath)) = Some s ->
  exists n d,
    fs filepath = RegularFile (inr n) (inr d) /\ json_load d <> PNone /\
    results (analyze_json_file fs format_read_exc abspath format_exc frames
                               filepath) =
    mkResult (stamped_path abspath filepath) None (Some n)
             (Some (_get_value_type (json_load d)))
             (Some (height (json_load d)))
             (Some (stats_of (json_load d)))
             (Some (summary_of (json_load d))) [].
Proof.
  destruct (read_cases filepath) as [(msg & size & E & Hne & _)|(n & d & Hfs & E)].
  - unfold analyze_json_file. by rewrite E, (str_truthy_Some _ Hne).
  - clear E. destruct (is_none (json_load d)) eqn:Hn.
    + unfold analyze_json_file, read_and_parse_json. rewrite Hfs.
      simpl str_truthy. cbv iota beta. by rewrite Hn.
    + assert (json_load d <> PNone) as Hd by (by intros Heq; rewrite Heq in Hn).
      rewrite (analyze_json_file_runs frames filepath n d Hfs Hd).
      destruct (decide (height (json_load d) < frames)) as [Hlt|Hge].
      * destruct (analyze_ok format_exc frames
                    (mkAnalyzer
                       (mkResult (stamped_path abspath filepath) None (Some n)
                                 None (Some 0) None None []) None)
                    (json_load d) Hlt) as (dups & -> & W).
        intros _. exists n, d. split; [done|]. split; [done|].
        by rewrite W by apply json_load_well_formed.
      * by rewrite analyze_raise by lia.
Qed.

(** X6. Whatever the path holds, the result has an error message or a
    structure, never both and never neither. *)
Theorem analyze_json_file_error_xor_structure frames filepath :
  analysis_error
    (results (analyze_json_file fs format_read_exc abspath format_exc frames
                                filepath)) = None <->
  is_Some (structure
    (results (analyze_json_file fs format_read_exc abspath format_exc frames
                                filepath))).
Proof.
  destruct (read_cases filepath) as [(msg & size & E & Hne & _)|(n & d & Hfs & E)].
  - unfold analyze_json_file. rewrite E, (str_truthy_Some _ Hne).
    simpl. split; [done|]. by intros [? ?].
  - clear E.
    destruct (is_none (json_load d)) eqn:Hn.
    + unfold analyze_json_file, read_and_parse_json. rewrite Hfs.
      simpl str_truthy. cbv iota beta. rewrite Hn.
      simpl. split; [done|]. by intros [? ?].
    + assert (json_load d <> PNone) as Hd by (by intros Heq; rewrite Heq in Hn).
      destruct (decide (height (json_load d) < frames)) as [Hlt|Hge].
      * rewrite (analyze_json_file_runs frames filepath n d Hfs Hd).
        destruct (analyze_ok format_exc frames
                    (mkAnalyzer
                       (mkResult (stamped_path abspath filepath) None (Some n)
                                 None (Some 0) None None []) None)
                    (json_load d) Hlt) as (dups & -> & _).
        simpl. split; [eauto|done].
      * rewrite (analyze_json_file_runs frames filepath n d Hfs Hd).
        rewrite analyze_raise by lia. simpl. split; [done|]. by intros [? ?].
Qed.

End Reading.
End FileHandlerFacts.
Import FileHandlerFacts.

(** ** More on the analyzer *)

Module AnalyzerMore.

Lemma max_list_le_bound (l : list nat) b :
  (forall x, x ∈ l -> (x <= b)%nat) -> (max_list l <= b)%nat.
Proof.
  induction l as [|x l IH]; intros H; simpl; [lia|].
  apply Nat.max_lub; [apply H; left|apply IH; intros y Hy; apply H; by right].
Qed.

Lemma sum_list_elem_le (l : list nat) x : x ∈ l -> (x <= sum_list l)%nat.
Proof.
  induction 1 as [x l|x y l _ IH]; simpl; lia.
Qed.

Lemma own_container v :
  children v <> [] ->
  (if bool_decide (_get_value_type v = TObject) then 1 else 0) +
  (if bool_decide (_get_value_type v = TArray) then 1 else 0) = 1.
Proof. destruct v; simpl; try done. Qed.

(** A tree is no higher than it has containers, and has more nodes than it
    is high. *)
Lemma height_bounds v :
  (height v <= count_containers v)%nat /\ (height v < count_nodes v)%nat.
Proof.
  induction v as [v IH] using pyval_tree_ind.
  unfold count_containers, count_nodes, count_type in *.
  rewrite !count_where_children, height_children.
  destruct (decide (children v = [])) as [->|Hne]; [simpl; lia|].
  pose proof (own_container v Hne) as Hown.
  split.
  - apply max_list_le_bound. intros x Hx.
    change (map ?f ?l) with (f <$> l) in Hx.
    apply list_elem_of_fmap in Hx as (c & -> & Hc).
    rewrite Forall_forall in IH. destruct (IH c Hc) as [Hcc _].
    pose proof (sum_list_elem_le
      (map (count_where (fun x => bool_decide (_get_value_type x = TObject)))
           (children v)) _
      (list_elem_of_fmap_2 _ _ _ Hc)) as H1.
    pose proof (sum_list_elem_le
      (map (count_where (fun x => bool_decide (_get_value_type x = TArray)))
           (children v)) _
      (list_elem_of_fmap_2 _ _ _ Hc)) as H2.
    lia.
  - apply Nat.lt_succ_r. simpl.
    apply max_list_le_bound. intros x Hx.
    change (map ?f ?l) with (f <$> l) in Hx.
    apply list_elem_of_fmap in Hx as (c & -> & Hc).
    rewrite Forall_forall in IH. destruct (IH c Hc) as [_ Hcn].
    pose proof (sum_list_elem_le
      (map (count_where (fun _ => true)) (children v)) _
      (list_elem_of_fmap_2 _ _ _ Hc)) as H1.
    lia.
Qed.

Section AnalyzeMore.
Variable format_exc : pyexn -> string.

(** X7. A call of [analyze] that leaves a structure had more frames than
    the tree is high. On a tree at least as high as the frames left, the
    walk raises: the result has an error message and no structure, no
    statistics and no depth. *)
Theorem structure_needs_frames_above_height frames self v :
  (is_Some (structure (results (analyze format_exc frames self v))) ->
   height v < frames) /\
  ((frames <= height v)%nat ->
   is_Some (analysis_error (results (analyze format_exc frames self v))) /\
   structure (results (analyze format_exc frames self v)) = None /\
   statistics (results (analyze format_exc frames self v)) = None /\
   max_depth (results (analyze format_exc frames self v)) = None).
Proof.
  destruct (decide (height v < frames)) as [Hlt|Hge].
  - split; [done|lia].
  - rewrite analyze_raise by lia. simpl. split.
    + by intros [? ?].
    + intros _. split_and!; [eauto|done..].
Qed.

(** X8. In a successful result, [max_depth] is at most the number of containers
    counted and less than [total_values], and the tag of the structure is
    [root_type]. *)
Theorem result_fields_agree frames self v st d s :
  statistics (results (analyze format_exc frames self v)) = Some st ->
  max_depth (results (analyze format_exc frames self v)) = Some d ->
  structure (results (analyze format_exc frames self v)) = Some s ->
  (d <= objects st + arrays st)%nat /\ (d < total_values st)%nat /\
  root_type (results (analyze format_exc frames self v)) = Some (type s).
Proof.
  destruct (decide (height v < frames)) as [Hlt|Hge].
  - destruct (analyze_ok format_exc frames self v Hlt) as (dups & -> & _).
    simpl. intros [= <-] [= <-] [= <-].
    destruct (height_bounds v). split_and!; [done|done|]. by destruct v.
  - rewrite analyze_raise by lia. done.
Qed.

(** X9. Calling [analyze] again with the same data changes nothing. *)
Theorem analyze_twice frames self v :
  analyze format_exc frames (analyze format_exc frames self v) v =
  analyze format_exc frames self v.
Proof.
  unfold analyze.
  destruct (_analyze_recursive frames v "root" 0 fresh_accumulators)
    as [[s|e] acc]; reflexivity.
Qed.

(** X10. A successful call leaves [filepath], [file_size_bytes] and
    [analysis_error] as they were: the message of an earlier failed call
    stays next to the new structure. *)
Theorem analyze_success_keeps_earlier_error frames self v :
  height v < frames ->
  analysis_error (results (analyze format_exc frames self v)) =
    analysis_error (results self) /\
  filepath (results (analyze format_exc frames self v)) =
    filepath (results self) /\
  file_size_bytes (results (analyze format_exc frames self v)) =
    file_size_bytes (results self) /\
  is_Some (structure (results (analyze format_exc frames self v))).
Proof.
  intros Hlt.
  destruct (analyze_ok format_exc frames self v Hlt) as (dups & -> & _).
  simpl. eauto.
Qed.
End AnalyzeMore.

(** X11. A walk that returns has built the summary of its node, whatever the
    path, the depth, the frames and the accumulators; it has added the
    statistics of the tree to the counters, raised the depth tracker to the
    deepest node, and kept the duplicates it was given at the head of the
    list. *)
Theorem walk_adds_to_accumulators frames v p d acc s acc' :
  _analyze_recursive frames v p d acc = (Ok s, acc') ->
  s = summary_of v /\
  stats acc' = stats_plus (stats acc) (stats_of v) /\
  max_depth_tracker acc' = Nat.max (max_depth_tracker acc) (d + height v) /\
  duplicates acc `prefix_of` duplicates acc'.
Proof.
  intros E. apply analyze_recursive_returns in E as (_ & -> & dups & -> & _).
  split_and!; [done|done|done|]. simpl. by exists dups.
Qed.

(** X12. For an object node with pairwise distinct keys on which the walk
    returns: the summary has the tag object, its [keys] list the keys of
    the object in their order, each with the summary of its value,
    [is_empty] tells whether the object has no key, and the element fields
    are absent. *)
Theorem object_summary_lists_keys frames its p d acc s acc' :
  NoDup its.*1 ->
  _analyze_recursive frames (PDict its) p d acc = (Ok s, acc') ->
  s = mkSummary TObject
        (Some (map (fun kv => (kv.1, summary_of kv.2)) its))
        None None (bool_decide (its = [])).
Proof.
  intros Hnd E. apply analyze_recursive_returns in E as (_ & -> & _).
  simpl. do 2 f_equal.
  assert (Hgen : forall (l acc0 : list (string * StructureSummary)),
            NoDup (acc0.*1 ++ l.*1) ->
            fold_left (fun d kv => dict_set d kv.1 kv.2) l acc0 = acc0 ++ l).
  { induction l as [|[k x] l IH]; intros acc0 H; simpl.
    - by rewrite app_nil_r.
    - rewrite fmap_cons in H. simpl in H.
      rewrite dict_set_fresh.
      + rewrite IH; [by rewrite <- app_assoc|].
        rewrite fmap_app. simpl. by rewrite <- app_assoc.
      + apply NoDup_app in H as (_ & H & _). intros Hk. apply (H k Hk). left. }
  unfold dict_of_pairs. rewrite Hgen; [done|]. simpl.
  rewrite <- list_fmap_compose. exact Hnd.
Qed.

(** X13. The list of tags of an array depends only on which tags occur among the
    elements, not on their order or number. *)
Theorem element_types_depend_on_tag_set l l' :
  (forall t, t ∈ map _get_value_type l <-> t ∈ map _get_value_type l') ->
  element_types (summary_of (PList l)) = element_types (summary_of (PList l')).
Proof.
  intros Hset. simpl. f_equal.
  assert (Htags : forall k, map type (map summary_of k) = map _get_value_type k).
  { intros k. rewrite map_map. apply map_ext. by intros []. }
  rewrite !Htags.
  destruct (unique_sorted_types_spec (map _get_value_type l)) as [Hs Hin].
  destruct (unique_sorted_types_spec (map _get_value_type l')) as [Hs' Hin'].
  assert (forall k, StronglySorted tag_lt k -> NoDup k) as Hnd.
  { induction 1 as [|x k _ IH Hall]; constructor; [|done].
    intros Hx. rewrite Forall_forall in Hall.
    by apply (tag_lt_irrefl x), Hall. }
  apply (StronglySorted_unique_strong tag_lt); [|done|done|].
  - intros x y _ _ H1 H2. exfalso. apply (tag_lt_irrefl x).
    unfold tag_lt in *. by etrans.
  - apply NoDup_Permutation; [by apply Hnd|by apply Hnd|].
    intros t. rewrite Hin, Hin'. apply Hset.
Qed.

End AnalyzerMore.
Import AnalyzerMore.

(** ** More on the report *)

Module ReportMore.

Lemma clean_items_NoDup (recurse : pyval -> outcome pyval) its :
  forall cleaned out,
    NoDup cleaned.*1 -> clean_items recurse its cleaned = Ok out -> NoDup out.*1.
Proof.
  induction its as [|[k v] rest IH]; intros cleaned out Hnd E; simpl in E.
  - by injection E as <-.
  - destruct (is_none v); [by eapply IH|].
    destruct (recurse v) as [v'|e]; [|done]. simpl in E.
    eapply IH; [|exact E]. by apply dict_set_NoDup.
Qed.

(** What cleaning returns has no repeated key in any dictionary. *)
Lemma clean_well_formed frames : forall v out,
  _clean_none_values_report frames v = Ok out -> well_formed out.
Proof.
  induction frames as [|f IH]; intros v out E; [done|].
  destruct v as [s|b|z|r| |its|l|r];
    try (rewrite clean_leaf in E by done; by injection E as <-).
  - rewrite clean_dict in E.
    destruct (clean_items _ its []) as [cleaned|e] eqn:Hc; [|done].
    injection E as <-. apply well_formed_dict.
    assert (NoDup cleaned.*1) as Hnd
      by (eapply clean_items_NoDup; [|exact Hc]; constructor).
    assert (Forall (fun kv => well_formed kv.2) cleaned) as Hwf.
    { eapply (clean_items_Forall _ well_formed); [|constructor|exact Hc].
      intros v v' Hv _. by eapply IH. }
    destruct (_ && _); [|done].
    split; [by apply dict_set_NoDup|].
    by apply (dict_set_Forall well_formed).
  - rewrite clean_list_eq in E.
    destruct (clean_list _ l) as [l'|e] eqn:Hl; [|done].
    injection E as <-. apply well_formed_list.
    apply clean_list_Forall2 in Hl.
    induction Hl as [|x x' l l' Hx _ IHl]; constructor; eauto.
Qed.

(** X15. Cleaning what cleaning returned changes nothing. *)
Theorem clean_twice frames frames' v out out' :
  _clean_none_values_report frames v = Ok out ->
  _clean_none_values_report frames' out = Ok out' ->
  out' = out.
Proof.
  intros E E'. eapply clean_identity; [| |exact E'].
  - by eapply clean_well_formed.
  - by eapply clean_prunes_everywhere.
Qed.

(** X16. A cleaning that returns gives back its argument exactly when no
    dictionary of the argument holds [None]; a [None] that is an element of
    a list does not count. *)
Theorem clean_returns_argument_iff_none_free frames v out :
  well_formed v -> _clean_none_values_report frames v = Ok out ->
  out = v <-> no_none_entries v = true.
Proof.
  intros Hwf E. split.
  - intros <-. by eapply clean_prunes_everywhere.
  - intros Hnn. by eapply clean_identity.
Qed.

(** X17. A dictionary that has the name [duplicate_keys] still has it once
    cleaned; where it held [None] it holds the empty list. *)
Theorem clean_keeps_duplicate_keys frames its out :
  dict_contains its "duplicate_keys" = true ->
  _clean_none_values_report frames (PDict its) = Ok out ->
  py_contains out "duplicate_keys" = true /\
  (NoDup its.*1 -> dict_get its "duplicate_keys" = Some PNone ->
   py_get out "duplicate_keys" = Some (PList [])).
Proof.
  intros Hin E. destruct frames as [|f]; [done|].
  rewrite clean_dict, Hin in E.
  destruct (clean_items _ its []) as [cleaned|e] eqn:Hc; [|done].
  injection E as <-. unfold py_contains, py_get. simpl items. split.
  - destruct (dict_contains cleaned "duplicate_keys") eqn:Hd; simpl; [done|].
    unfold dict_contains. by rewrite dict_get_set.
  - intros Hnd Hnone.
    pose proof (clean_items_get _ _ [] _ Hnd
                  (fun k _ => not_elem_of_nil k) Hc "duplicate_keys") as Hget.
    rewrite Hnone in Hget. simpl in Hget.
    unfold dict_contains. rewrite Hget. simpl. by rewrite dict_get_set.
Qed.

Lemma sort_duplicate_keys_fields r :
  filepath (sort_duplicate_keys r) = filepath r /\
  analysis_error (sort_duplicate_keys r) = analysis_error r /\
  file_size_bytes (sort_duplicate_keys r) = file_size_bytes r.
Proof. by rewrite sort_duplicate_keys_eq. Qed.

Lemma clean_leaf_inv f v out :
  type_of v <> Cdict -> type_of v <> Clist ->
  _clean_none_values_report f v = Ok out -> out = v.
Proof.
  intros H1 H2 E. destruct f as [|f]; [done|].
  rewrite clean_leaf in E by done. by injection E as <-.
Qed.

Section ReportFields.
Variable format_exc : pyexn -> string.

(** X18. The path and a non-empty error message of the analyzer are in the
    report as they are, whether cleaning completes or raises. *)
Theorem report_carries_path_and_error frames a :
  (forall p, filepath (results a) = Some p ->
     py_get (generate_json_report format_exc frames a) "filepath" =
       Some (PStr p)) /\
  (forall m, analysis_error (results a) = Some m -> m <> EmptyString ->
     py_get (generate_json_report format_exc frames a) "analysis_error" =
       Some (PStr m)).
Proof.
  destruct (sort_duplicate_keys_fields (results a)) as (Hfp & Hae & _).
  destruct (_clean_none_values_report frames
              (results_to_py (sort_duplicate_keys (results a))))
    as [out|e] eqn:E.
  - rewrite (generate_json_report_cleaned _ _ _ _ E).
    destruct frames as [|f]; [done|].
    destruct (clean_results f _ out E) as [Hget Hran].
    rewrite Forall_forall in Hran. split.
    + intros p Hp. rewrite Hget. unfold cleaned_entry. simpl dict_get.
      rewrite Hfp, Hp. simpl.
      destruct (Hran ("filepath", PStr p)) as [v' Hv]; [|done|].
      { simpl. rewrite Hfp, Hp. left. }
      simpl in Hv. rewrite Hv. f_equal. by eapply clean_leaf_inv.
    + intros m Hm _. rewrite Hget. unfold cleaned_entry. simpl dict_get.
      rewrite Hae, Hm. simpl.
      destruct (Hran ("analysis_error", PStr m)) as [v' Hv]; [|done|].
      { simpl. rewrite Hae, Hm. right. left. }
      simpl in Hv. rewrite Hv. f_equal. by eapply clean_leaf_inv.
  - unfold generate_json_report. rewrite E, Hfp, Hae. split.
    + intros p ->. by destruct (file_size_bytes _).
    + intros m -> Hm. simpl str_truthy.
      rewrite bool_decide_eq_false_2 by done.
      by destruct (file_size_bytes _).
Qed.


(** X20. The report does not depend on the order in which the analyzer holds
    the duplicates. *)
Theorem report_ignores_duplicate_order frames a dups' :
  duplicate_keys (results a) ≡ₚ dups' ->
  generate_json_report format_exc frames
    (mkAnalyzer
       (mkResult (filepath (results a)) (analysis_error (results a))
                 (file_size_bytes (results a)) (root_type (results a))
                 (max_depth (results a)) (statistics (results a))
                 (structure (results a)) dups')
       (parsed_data a)) =
  generate_json_report format_exc frames a.
Proof.
  intros Hp. unfold generate_json_report. simpl results.
  rewrite !sort_duplicate_keys_eq. simpl.
  replace (py_sorted pair_le dup_sort_key dups')
    with (py_sorted pair_le dup_sort_key (duplicate_keys (results a))); [done|].
  apply py_sorted_unique; try apply _.
  - apply py_sorted_sorted; apply _.
  - by rewrite py_sorted_perm.
Qed.
End ReportFields.

End ReportMore.
Import ReportMore.

(** ** The report as a dictionary *)

Module ReportShape.

Lemma prune_dict its :
  prune (PDict its) = PDict (finish its (fold_left prune_step its [])).
Proof. reflexivity. Qed.

Lemma clean_items_fold f its : forall cleaned,
  Forall (fun kv => _clean_none_values_report f kv.2 = Ok (prune kv.2)) its ->
  clean_items (_clean_none_values_report f) its cleaned =
  Ok (fold_left prune_step its cleaned).
Proof.
  induction its as [|[k v] rest IH]; intros cleaned Hall; [done|].
  apply Forall_cons in Hall as [Hv Hall]. simpl in Hv. simpl.
  unfold prune_step at 2. simpl.
  destruct (is_none v); [by apply IH|]. rewrite Hv. simpl. by apply IH.
Qed.

Lemma clean_list_map f l :
  Forall (fun x => _clean_none_values_report f x = Ok (prune x)) l ->
  clean_list (_clean_none_values_report f) l = Ok (map prune l).
Proof.
  induction 1 as [|x l Hx _ IH]; [done|]. simpl. by rewrite Hx, IH.
Qed.

(** With more frames than the value is high, cleaning returns [prune]. *)
Lemma clean_is_prune frames : forall v,
  height v < frames -> _clean_none_values_report frames v = Ok (prune v).
Proof.
  induction frames as [|f IH]; intros v Hh; [lia|].
  destruct v as [s|b|z|r| |its|l|r]; try reflexivity.
  - rewrite clean_dict, prune_dict, clean_items_fold; [done|].
    apply Forall_forall. intros kv Hkv. apply IH. simpl in Hh.
    assert (S (height kv.2) <= max_list (map (fun kv => S (height kv.2)) its))%nat.
    { apply max_list_elem_of_le, list_elem_of_fmap. eauto. }
    lia.
  - rewrite clean_list_eq, clean_list_map; [done|].
    apply Forall_forall. intros x Hx. apply IH. simpl in Hh.
    assert (S (height x) <= max_list (map (fun x => S (height x)) l))%nat.
    { apply max_list_elem_of_le, list_elem_of_fmap. eauto. }
    lia.
Qed.

Lemma clean_items_returns f its : forall cleaned out,
  (forall v o, _clean_none_values_report f v = Ok o -> o = prune v) ->
  clean_items (_clean_none_values_report f) its cleaned = Ok out ->
  out = fold_left prune_step its cleaned.
Proof.
  induction its as [|[k v] rest IH]; intros cleaned out Hf E.
  - by injection E as <-.
  - simpl in E. simpl fold_left. unfold prune_step at 2. simpl.
    destruct (is_none v); [by apply IH|].
    destruct (_clean_none_values_report f v) as [o|e] eqn:Hv; [|done].
    apply Hf in Hv as ->. by apply IH.
Qed.

Lemma clean_list_returns f l : forall out,
  (forall v o, _clean_none_values_report f v = Ok o -> o = prune v) ->
  clean_list (_clean_none_values_report f) l = Ok out -> out = map prune l.
Proof.
  induction l as [|x l IH]; intros out Hf E.
  - by injection E as <-.
  - simpl in E.
    destruct (_clean_none_values_report f x) as [o|e] eqn:Hx; [|done].
    destruct (clean_list _ l) as [l'|e] eqn:Hl; [|done].
    simpl in E. injection E as <-. apply Hf in Hx as ->.
    simpl. f_equal. by apply IH.
Qed.

(** Whatever the frames, a cleaning that returns returns [prune]. *)
Lemma clean_returns_prune frames : forall v out,
  _clean_none_values_report frames v = Ok out -> out = prune v.
Proof.
  induction frames as [|f IH]; intros v out E; [done|].
  destruct v as [s|b|z|r| |its|l|r]; try (by injection E as <-).
  - rewrite clean_dict in E.
    destruct (clean_items _ its []) as [cleaned|e] eqn:Hc; [|done].
    apply clean_items_returns in Hc as ->; [|exact IH].
    injection E as <-. by rewrite prune_dict.
  - rewrite clean_list_eq in E.
    destruct (clean_list _ l) as [l'|e] eqn:Hl; [|done].
    apply clean_list_returns in Hl as ->; [|exact IH].
    by injection E as <-.
Qed.

(** For items with pairwise distinct names, none of them in the dictionary
    being filled, the loop appends the items that do not hold [None], each
    with its value pruned. *)
Lemma fold_prune_step its : forall cleaned,
  NoDup (cleaned.*1 ++ its.*1) ->
  fold_left prune_step its cleaned =
  cleaned ++ omap (fun kv => if is_none kv.2 then None
                             else Some (kv.1, prune kv.2)) its.
Proof.
  induction its as [|[k v] rest IH]; intros cleaned Hnd; simpl.
  - by rewrite app_nil_r.
  - rewrite fmap_cons in Hnd. simpl in Hnd. unfold prune_step at 2. simpl.
    destruct (is_none v).
    + apply IH. apply NoDup_app in Hnd as (H1 & H2 & H3).
      apply NoDup_cons in H3 as [_ H3]. apply NoDup_app. split_and!; [done| |done].
      intros x Hx Hx'. apply (H2 x Hx). by right.
    + assert (k ∉ cleaned.*1) as Hk.
      { apply NoDup_app in Hnd as (_ & H2 & _). intros Hk. apply (H2 k Hk). left. }
      rewrite dict_set_fresh by done. rewrite IH.
      * by rewrite <- app_assoc.
      * rewrite fmap_app. simpl. by rewrite <- app_assoc.
Qed.

Lemma dict_contains_keys {V W} (d : list (string * V)) (d' : list (string * W)) k :
  d.*1 = d'.*1 -> dict_contains d k = dict_contains d' k.
Proof.
  revert d'. induction d as [|[k0 v0] d IH]; intros [|[k1 v1] d'] H; try done.
  rewrite !fmap_cons in H. simpl in H. injection H as -> H.
  unfold dict_contains in *. simpl. destruct (String.eqb k1 k); [done|].
  by apply IH.
Qed.

Lemma finish_same_keys its cleaned :
  its.*1 = cleaned.*1 -> finish its cleaned = cleaned.
Proof.
  intros H. unfold finish.
  rewrite (dict_contains_keys its cleaned _ H). by destruct (dict_contains _ _).
Qed.

Lemma finish_not_there its cleaned :
  dict_contains its "duplicate_keys" = false -> finish its cleaned = cleaned.
Proof. intros H. unfold finish. by rewrite H. Qed.

(** A value with no repeated key and no [None] under any key is its own
    pruning. *)
Lemma prune_none_free v :
  well_formed v -> no_none_entries v = true -> prune v = v.
Proof.
  intros Hwf Hnn.
  pose proof (clean_is_prune (S (height v)) v ltac:(lia)) as E.
  by apply clean_identity in E.
Qed.

(** Induction on a summary, the summaries inside it first. *)
Lemma map_values_keys {V W} (g : V -> W) (d : list (string * V)) :
  (map (fun '(k, v) => (k, g v)) d).*1 = d.*1.
Proof. induction d as [|[k c] d IH]; [done|]. simpl. f_equal. exact IH. Qed.

Lemma prune_keys d :
  NoDup d.*1 ->
  Forall (fun kv => prune (summary_to_py kv.2) = summary_to_report kv.2) d ->
  prune (PDict (map (fun '(k, v) => (k, summary_to_py v)) d)) =
  PDict (map (fun '(k, v) => (k, summary_to_report v)) d).
Proof.
  intros Hnd Hall. rewrite prune_dict, fold_prune_step.
  2:{ simpl. by rewrite map_values_keys. }
  simpl app.
  assert (omap (fun kv : string * pyval =>
                  if is_none kv.2 then None else Some (kv.1, prune kv.2))
               (map (fun '(k, v) => (k, summary_to_py v)) d) =
          map (fun '(k, v) => (k, summary_to_report v)) d) as ->.
  { clear Hnd. induction Hall as [|[k c] d Hc _ IH]; [done|].
    simpl in Hc.
    change (match (if is_none (summary_to_py c) then None
                   else Some (k, prune (summary_to_py c))) with
            | Some y =>
                y :: omap (fun kv : string * pyval =>
                             if is_none kv.2 then None
                             else Some (kv.1, prune kv.2))
                          (map (fun '(k, v) => (k, summary_to_py v)) d)
            | None =>
                omap (fun kv : string * pyval =>
                        if is_none kv.2 then None
                        else Some (kv.1, prune kv.2))
                     (map (fun '(k, v) => (k, summary_to_py v)) d)
            end =
            (k, summary_to_report c)
              :: map (fun '(k, v) => (k, summary_to_report v)) d).
    replace (is_none (summary_to_py c)) with false by (by destruct c).
    by rewrite Hc, IH. }
  rewrite finish_same_keys; [done|]. by rewrite !map_values_keys.
Qed.

Lemma is_none_summary s : is_none (summary_to_py s) = false.
Proof. by destruct s. Qed.

Lemma prune_types l : prune (PList (map type_to_py l)) = PList (map type_to_py l).
Proof. simpl. f_equal. rewrite map_map. by apply map_ext. Qed.

(** The pruning of the dictionary of a well-shaped summary is the summary
    as the report shows it. *)
Lemma prune_summary s :
  summary_ok s -> prune (summary_to_py s) = summary_to_report s.
Proof.
  induction s as [t ks es ets e IHk IHe] using summary_tree_ind.
  intros Hok. apply summary_ok_unfold in Hok as (Hks & Hets & _).
  assert (Hk : forall d, ks = Some d ->
            prune (PDict (map (fun '(k, v) => (k, summary_to_py v)) d)) =
            PDict (map (fun '(k, v) => (k, summary_to_report v)) d)).
  { intros d ->. destruct Hks as (_ & Hnd & _ & Hall).
    apply prune_keys; [done|].
    rewrite Forall_forall in IHk, Hall |- *. intros kv Hkv.
    by apply IHk, Hall. }
  assert (He : forall r, es = Some r ->
            prune (summary_to_py r) = summary_to_report r).
  { intros r ->. apply IHe. destruct ets as [ts|]; [|done].
    by destruct Hets as (_ & _ & _ & _ & ?). }
  change (summary_to_py (mkSummary t ks es ets e)) with
    (PDict [("type", type_to_py t);
            ("keys",
             match ks with
             | None => PNone
             | Some d => PDict (map (fun '(k, v) => (k, summary_to_py v)) d)
             end);
            ("element_summary",
             match es with
             | None => PNone
             | Some s' => summary_to_py s'
             end);
            ("element_types",
             opt_to_py (fun l => PList (map type_to_py l)) ets);
            ("is_empty", PBool e)]).
  rewrite prune_dict, fold_prune_step by (apply (bool_decide_unpack _); by vm_compute).
  rewrite finish_not_there by done.
  destruct ks as [d|], es as [r|], ets as [ts|];
    cbn [app omap list_omap fst snd is_none type_to_py opt_to_py];
    rewrite ?is_none_summary; cbn [app omap list_omap fst snd is_none];
    rewrite ?(Hk _ eq_refl), ?(He _ eq_refl), ?prune_types; reflexivity.
Qed.

(** X21. Cleaning the dictionary of a well-shaped summary, with more frames than
    it is high, returns the summary without the names that hold [None], at
    every depth: a leaf keeps [type] and [is_empty] only, an object its
    [keys] too, an array its [element_types] and, when there is one, its
    [element_summary]. *)
Theorem clean_summary_drops_absent_fields frames s :
  summary_ok s -> height (summary_to_py s) < frames ->
  _clean_none_values_report frames (summary_to_py s) = Ok (summary_to_report s).
Proof.
  intros Hok Hh. rewrite clean_is_prune by done. f_equal. by apply prune_summary.
Qed.

Lemma keep_entry {A} k (f : A -> pyval) (o : option A) rest :
  (forall a, is_none (f a) = false) ->
  omap (fun kv : string * pyval =>
          if is_none kv.2 then None else Some (kv.1, prune kv.2))
       ((k, opt_to_py f o) :: rest) =
  entry k (fun a => prune (f a)) o ++
  omap (fun kv : string * pyval =>
          if is_none kv.2 then None else Some (kv.1, prune kv.2)) rest.
Proof.
  intros Hf. destruct o as [a|]; cbn [omap list_omap opt_to_py snd fst is_none entry app].
  - by rewrite Hf.
  - reflexivity.
Qed.

Lemma entry_ext {A} k (f g : A -> pyval) (o : option A) :
  (forall a, o = Some a -> f a = g a) -> entry k f o = entry k g o.
Proof. intros H. destruct o as [a|]; [|done]. simpl. by rewrite H. Qed.

Lemma dict_contains_app {V} (a b : list (string * V)) k :
  dict_contains (a ++ b) k = dict_contains a k || dict_contains b k.
Proof.
  unfold dict_contains. induction a as [|[k0 v0] a IH]; [done|]. simpl.
  by destruct (String.eqb k0 k).
Qed.

Lemma finish_present its cleaned :
  dict_contains cleaned "duplicate_keys" = true -> finish its cleaned = cleaned.
Proof. intros H. unfold finish. by rewrite H, andb_false_r. Qed.

(** The pruning of the dictionary of a result whose structure is well
    shaped. *)
Lemma prune_results r :
  (forall s, structure r = Some s -> summary_ok s) ->
  prune (results_to_py r) =
  PDict (entry "filepath" PStr (filepath r) ++
         entry "analysis_error" PStr (analysis_error r) ++
         entry "file_size_bytes" nat_to_py (file_size_bytes r) ++
         entry "root_type" type_to_py (root_type r) ++
         entry "max_depth" nat_to_py (max_depth r) ++
         entry "statistics" stats_to_py (statistics r) ++
         entry "structure" summary_to_report (structure r) ++
         [("duplicate_keys", PList (map dup_to_py (duplicate_keys r)))]).
Proof.
  intros Hok. unfold results_to_py.
  rewrite prune_dict, fold_prune_step by apply (results_keys_NoDup r).
  rewrite !keep_entry by (intros; first [reflexivity|apply is_none_summary]).
  cbn [omap list_omap fst snd is_none app].
  rewrite (prune_none_free (PList (map dup_to_py (duplicate_keys r))))
    by (first [apply dups_well_formed|apply dups_no_none]).
  rewrite (entry_ext "statistics" _ stats_to_py)
    by (intros st _; by apply prune_none_free; [apply stats_well_formed|]).
  rewrite (entry_ext "structure" _ summary_to_report)
    by (intros s Hs; by apply prune_summary, Hok).
  rewrite finish_present; [reflexivity|].
  rewrite !dict_contains_app. simpl. by rewrite !orb_true_r.
Qed.

Section PrunedReport.
Variable format_exc : pyexn -> string.

Lemma generate_json_report_pruned frames a :
  height (results_to_py (sort_duplicate_keys (results a))) < frames ->
  generate_json_report format_exc frames a =
  prune (results_to_py (sort_duplicate_keys (results a))).
Proof.
  intros Hh.
  by rewrite (generate_json_report_cleaned _ _ _ _ (clean_is_prune _ _ Hh)).
Qed.

(** X22. With more frames than the result is high, and a well-shaped structure,
    the report is the result without its [None] fields, in the order of the
    result: the structure without the absent fields of its summaries, the
    duplicates sorted, everything else as it is. *)
Theorem report_is_pruned_result frames a :
  (forall s, structure (results a) = Some s -> summary_ok s) ->
  height (results_to_py (sort_duplicate_keys (results a))) < frames ->
  generate_json_report format_exc frames a = report_of (results a).
Proof.
  intros Hok Hh. rewrite generate_json_report_pruned by done.
  rewrite sort_duplicate_keys_eq. by rewrite prune_results.
Qed.
End PrunedReport.

End ReportShape.
Import ReportShape.

(** ** From the file to the report *)

Module Pipeline.

Lemma height_results r :
  duplicate_keys r = [] ->
  (height (results_to_py r) <=
   Nat.max (if statistics r is Some _ then 2 else 1)
           (match structure r with
            | Some s => S (height (summary_to_py s))
            | None => 0
            end))%nat.
Proof.
  intros Hd. unfold results_to_py. rewrite Hd.
  destruct (filepath r), (analysis_error r), (file_size_bytes r),
    (root_type r), (max_depth r), (statistics r), (structure r);
    cbn [opt_to_py nat_to_py]; simpl; lia.
Qed.

Lemma height_summary_pos s : (1 <= height (summary_to_py s))%nat.
Proof. destruct s. simpl. lia. Qed.

Section Files.
Variable fs : string -> path_entry.
Variable format_read_exc : read_exn -> string.
Variable abspath : string -> string.
Variable format_exc : pyexn -> string.

(** X23. Whatever the path holds and however many frames are left, the result
    for a file lists no duplicate key. *)
Theorem file_result_lists_no_duplicates frames filepath :
  duplicate_keys
    (results (analyze_json_file fs format_read_exc abspath format_exc frames
                                filepath)) = [].
Proof.
  destruct (read_cases fs format_read_exc filepath)
    as [(msg & size & E & Hne & _)|(n & d & Hfs & E)].
  - unfold analyze_json_file. by rewrite E, (str_truthy_Some _ Hne).
  - clear E. destruct (is_none (json_load d)) eqn:Hn.
    + unfold analyze_json_file, read_and_parse_json. rewrite Hfs.
      simpl str_truthy. cbv iota beta. by rewrite Hn.
    + assert (json_load d <> PNone) as Hd by (by intros Heq; rewrite Heq in Hn).
      rewrite (analyze_json_file_runs fs format_read_exc abspath format_exc
                 frames filepath n d Hfs Hd).
      apply analyze_json_reports_no_duplicates.
Qed.

(** X24. The report for a path that could not be read and decoded, generated
    with two frames or more: the path, the reader's message, the size if the
    reader kept it, and an empty list of duplicates; nothing else. *)
Theorem report_of_unreadable_file frames frames' filepath msg :
  (read_and_parse_json fs format_read_exc filepath).1.2 = Some msg ->
  1 < frames' ->
  generate_json_report format_exc frames'
    (analyze_json_file fs format_read_exc abspath format_exc frames filepath) =
  PDict (entry "filepath" PStr (stamped_path abspath filepath) ++
         [("analysis_error", PStr msg)] ++
         entry "file_size_bytes" nat_to_py
           (read_and_parse_json fs format_read_exc filepath).2 ++
         [("duplicate_keys", PList [])]).
Proof.
  intros Hmsg Hf.
  assert (analyze_json_file fs format_read_exc abspath format_exc frames filepath =
          mkAnalyzer
            (mkResult (stamped_path abspath filepath) (Some msg)
                      (read_and_parse_json fs format_read_exc filepath).2
                      None None None None []) None) as ->.
  { unfold analyze_json_file.
    destruct (read_cases fs format_read_exc filepath)
      as [(m & size & E & Hne & _)|(n & d & _ & E)];
      rewrite E in *; simpl in Hmsg; [|done].
    injection Hmsg as ->. by rewrite (str_truthy_Some _ Hne). }
  rewrite generate_json_report_pruned.
  - by rewrite sort_duplicate_keys_eq, prune_results.
  - simpl results. rewrite sort_duplicate_keys_eq.
    eapply Nat.le_lt_trans; [by apply height_results|]. simpl. lia.
Qed.

(** X25. The report for a readable file whose document is not [null], analysed
    with more frames than the document is high and reported with more
    frames than the result is high: path, size, root tag, depth, statistics,
    the structure without the absent fields of its summaries, and an empty
    list of duplicates, in this order, with no error message. *)
Theorem report_of_readable_file frames frames' filepath n d :
  fs filepath = RegularFile (inr n) (inr d) -> json_load d <> PNone ->
  height (json_load d) < frames ->
  S (height (summary_to_py (summary_of (json_load d)))) < frames' ->
  generate_json_report format_exc frames'
    (analyze_json_file fs format_read_exc abspath format_exc frames filepath) =
  PDict (entry "filepath" PStr (stamped_path abspath filepath) ++
         [("file_size_bytes", PInt (Z.of_nat n));
          ("root_type", type_to_py (_get_value_type (json_load d)));
          ("max_depth", PInt (Z.of_nat (height (json_load d))));
          ("statistics", stats_to_py (stats_of (json_load d)));
          ("structure", summary_to_report (summary_of (json_load d)));
          ("duplicate_keys", PList [])]).
Proof.
  intros Hfs Hd Hh Hf.
  rewrite (analyze_json_file_runs fs format_read_exc abspath format_exc
             frames filepath n d Hfs Hd).
  destruct (analyze_ok format_exc frames
              (mkAnalyzer
                 (mkResult (stamped_path abspath filepath) None (Some n) None
                           (Some 0) None None []) None)
              (json_load d) Hh) as (dups & E & W).
  rewrite W in E by apply json_load_well_formed.
  rewrite generate_json_report_pruned; rewrite E.
  - rewrite sort_duplicate_keys_eq, prune_results; [reflexivity|].
    simpl. intros s [= <-]. apply summary_of_ok.
  - simpl results. rewrite sort_duplicate_keys_eq.
    eapply Nat.le_lt_trans; [by apply height_results|]. simpl.
    pose proof (height_summary_pos (summary_of (json_load d))). lia.
Qed.
End Files.

End Pipeline.
Import Pipeline.

(** ** The theorems above on the sample files *)

Module Runs.

Lemma read_reports_size_witness :
  (read_and_parse_json sample_fs no_read_traceback "broken.json").2 = Some 7.
Proof.
  apply (proj2 (read_reports_size sample_fs no_read_traceback "broken.json" 7)).
  exists (inl (JSONDecodeError 1 2 "Expecting value")).
  split; [by vm_compute|]. split; discriminate.
Defined.

Lemma analyze_json_file_read_failure_witness :
  (read_and_parse_json sample_fs no_read_traceback "missing.json").1.2 =
    Some "Error: File not found at 'missing.json'" /\
  analyze_json_file sample_fs no_read_traceback sample_abspath no_traceback 10
                    "missing.json" =
  mkAnalyzer
    (mkResult (stamped_path sample_abspath "missing.json")
              (Some "Error: File not found at 'missing.json'")
              (read_and_parse_json sample_fs no_read_traceback "missing.json").2
              None None None None [])
    None.
Proof.
  split; [by vm_compute|].
  apply (analyze_json_file_read_failure sample_fs no_read_traceback
           sample_abspath no_traceback 10 "missing.json").
  by vm_compute.
Defined.

Lemma analyze_json_file_null_document_witness :
  sample_fs "null.json" = RegularFile (inr 4) (inr JNull) /\
  analyze_json_file sample_fs no_read_traceback sample_abspath no_traceback 10
                    "null.json" =
  mkAnalyzer
    (mkResult (stamped_path sample_abspath "null.json")
              (Some (unknown_error_message "null.json"))
              (Some 4) None (Some 0) None None [])
    None.
Proof.
  split; [by vm_compute|].
  apply (analyze_json_file_null_document sample_fs no_read_traceback
           sample_abspath no_traceback 10 "null.json" 4 JNull);
    by vm_compute.
Defined.

Lemma analyze_json_file_success_witness :
  structure
    (results (analyze_json_file sample_fs no_read_traceback sample_abspath
                                no_traceback 10 "data.json")) =
    Some (summary_of (json_load scenario_document)) /\
  exists n d,
    sample_fs "data.json" = RegularFile (inr n) (inr d) /\
    json_load d <> PNone /\
    results (analyze_json_file sample_fs no_read_traceback sample_abspath
                               no_traceback 10 "data.json") =
    mkResult (stamped_path sample_abspath "data.json") None (Some n)
             (Some (_get_value_type (json_load d)))
             (Some (height (json_load d)))
             (Some (stats_of (json_load d)))
             (Some (summary_of (json_load d))) [].
Proof.
  split; [by vm_compute|].
  apply (analyze_json_file_success sample_fs no_read_traceback sample_abspath
           no_traceback 10 "data.json"
           (summary_of (json_load scenario_document))).
  by vm_compute.
Defined.

Lemma analyze_json_file_error_xor_structure_witness :
  analysis_error
    (results (analyze_json_file sample_fs no_read_traceback sample_abspath
                                no_traceback 10 "data.json")) = None /\
  is_Some (structure
    (results (analyze_json_file sample_fs no_read_traceback sample_abspath
                                no_traceback 10 "data.json"))).
Proof.
  split; [by vm_compute|].
  apply (proj1 (analyze_json_file_error_xor_structure sample_fs
                  no_read_traceback sample_abspath no_traceback 10 "data.json")).
  by vm_compute.
Defined.

Lemma structure_needs_frames_above_height_witness :
  (1 <= height (PList [PInt 1]))%nat /\
  structure (results (analyze no_traceback 1 JsonAnalyzer_init
                        (PList [PInt 1]))) = None.
Proof.
  split; [vm_compute; lia|].
  apply (proj2 (structure_needs_frames_above_height no_traceback 1
                  JsonAnalyzer_init (PList [PInt 1]))).
  vm_compute. lia.
Defined.

Lemma result_fields_agree_witness :
  statistics (results (analyze no_traceback 5 JsonAnalyzer_init
                         (PList [PInt 1; PList []]))) =
    Some (mkStats 0 1 0 0 0 2 3) /\
  (1 <= objects (mkStats 0 1 0 0 0 2 3) + arrays (mkStats 0 1 0 0 0 2 3))%nat /\
  (1 < total_values (mkStats 0 1 0 0 0 2 3))%nat /\
  root_type (results (analyze no_traceback 5 JsonAnalyzer_init
                        (PList [PInt 1; PList []]))) =
    Some (type (summary_of (PList [PInt 1; PList []]))).
Proof.
  split; [by vm_compute|].
  apply (result_fields_agree no_traceback 5 JsonAnalyzer_init
           (PList [PInt 1; PList []]) (mkStats 0 1 0 0 0 2 3) 1
           (summary_of (PList [PInt 1; PList []]))); by vm_compute.
Defined.

Lemma analyze_success_keeps_earlier_error_witness :
  height (PList [PInt 1]) < 5 /\
  analysis_error (results (analyze no_traceback 5 failed_before
                             (PList [PInt 1]))) =
    Some "earlier failure".
Proof.
  split; [vm_compute; lia|].
  apply (analyze_success_keeps_earlier_error no_traceback 5 failed_before
           (PList [PInt 1])).
  vm_compute. lia.
Defined.

Lemma walk_adds_to_accumulators_witness :
  _analyze_recursive 5 (PList [PInt 1; PStr "a"]) "root" 2
    (mkAcc (mkStats 1 0 0 0 0 0 1) [mkDup "root" "k"] 1) =
  (Ok (mkSummary TArray None None (Some [TNumber; TString]) false),
   mkAcc (mkStats 2 1 0 0 0 1 4) [mkDup "root" "k"] 3) /\
  max_depth_tracker (mkAcc (mkStats 2 1 0 0 0 1 4) [mkDup "root" "k"] 3) =
    Nat.max 1 (2 + height (PList [PInt 1; PStr "a"])).
Proof.
  split; [by vm_compute|].
  apply (walk_adds_to_accumulators 5 (PList [PInt 1; PStr "a"]) "root" 2
           (mkAcc (mkStats 1 0 0 0 0 0 1) [mkDup "root" "k"] 1)
           (mkSummary TArray None None (Some [TNumber; TString]) false)
           (mkAcc (mkStats 2 1 0 0 0 1 4) [mkDup "root" "k"] 3)).
  by vm_compute.
Defined.

Lemma object_summary_lists_keys_witness :
  _analyze_recursive 5 (PDict [("a", PInt 1); ("b", PNone)]) "root" 0
    fresh_accumulators =
  (Ok (mkSummary TObject
         (Some [("a", mkSummary TNumber None None None false);
                ("b", mkSummary TNull None None None false)])
         None None false),
   mkAcc (mkStats 0 1 0 1 1 0 3) [] 1) /\
  mkSummary TObject
    (Some [("a", mkSummary TNumber None None None false);
           ("b", mkSummary TNull None None None false)])
    None None false =
  mkSummary TObject
    (Some (map (fun kv : string * pyval => (kv.1, summary_of kv.2))
               [("a", PInt 1); ("b", PNone)]))
    None None (bool_decide ([("a", PInt 1); ("b", PNone)] = [])).
Proof.
  split; [by vm_compute|].
  apply (object_summary_lists_keys 5 [("a", PInt 1); ("b", PNone)] "root" 0
           fresh_accumulators _ (mkAcc (mkStats 0 1 0 1 1 0 3) [] 1)).
  - apply (bool_decide_unpack _). by vm_compute.
  - by vm_compute.
Defined.

Lemma element_types_depend_on_tag_set_witness :
  element_types (summary_of (PList [PInt 1; PStr "a"])) =
  element_types (summary_of (PList [PStr "b"; PInt 2; PInt 3])).
Proof.
  apply (element_types_depend_on_tag_set [PInt 1; PStr "a"]
           [PStr "b"; PInt 2; PInt 3]).
  intros t. simpl. rewrite !elem_of_cons, !elem_of_nil. tauto.
Defined.

Lemma structure_is_well_shaped_witness :
  structure (results (analyze no_traceback 5 JsonAnalyzer_init
                        (PList [PInt 1]))) =
    Some (mkSummary TArray None (Some (mkSummary TNumber None None None false))
                    (Some [TNumber]) false) /\
  summary_ok (mkSummary TArray None
                (Some (mkSummary TNumber None None None false))
                (Some [TNumber]) false).
Proof.
  split; [by vm_compute|].
  apply (structure_is_well_shaped no_traceback 5 JsonAnalyzer_init
           (PList [PInt 1])).
  by vm_compute.
Defined.

Lemma clean_twice_witness :
  _clean_none_values_report 5
    (PDict [("a", PNone); ("b", PList [PNone; PDict [("c", PNone)]])]) =
    Ok (PDict [("b", PList [PNone; PDict []])]) /\
  PDict [("b", PList [PNone; PDict []])] = PDict [("b", PList [PNone; PDict []])].
Proof.
  split; [by vm_compute|].
  apply (clean_twice 5 4
           (PDict [("a", PNone); ("b", PList [PNone; PDict [("c", PNone)]])])
           (PDict [("b", PList [PNone; PDict []])])
           (PDict [("b", PList [PNone; PDict []])])); by vm_compute.
Defined.

Lemma clean_returns_argument_iff_none_free_witness :
  _clean_none_values_report 3 (PDict [("a", PList [PNone; PInt 1])]) =
    Ok (PDict [("a", PList [PNone; PInt 1])]) /\
  no_none_entries (PDict [("a", PList [PNone; PInt 1])]) = true.
Proof.
  split; [by vm_compute|].
  apply (proj1 (clean_returns_argument_iff_none_free 3
                  (PDict [("a", PList [PNone; PInt 1])])
                  (PDict [("a", PList [PNone; PInt 1])])
                  ltac:(simpl; split; [|done];
                        apply (bool_decide_unpack _); by vm_compute)
                  ltac:(by vm_compute))).
  reflexivity.
Defined.

Lemma clean_keeps_duplicate_keys_witness :
  _clean_none_values_report 5 (PDict [("duplicate_keys", PNone); ("b", PInt 1)]) =
    Ok (PDict [("b", PInt 1); ("duplicate_keys", PList [])]) /\
  py_contains (PDict [("b", PInt 1); ("duplicate_keys", PList [])])
              "duplicate_keys" = true.
Proof.
  split; [by vm_compute|].
  apply (clean_keeps_duplicate_keys 5
           [("duplicate_keys", PNone); ("b", PInt 1)]
           (PDict [("b", PInt 1); ("duplicate_keys", PList [])]));
    by vm_compute.
Defined.

Lemma report_carries_path_and_error_witness :
  analysis_error (results failed_before) = Some "earlier failure" /\
  py_get (generate_json_report no_traceback 5 failed_before) "analysis_error" =
    Some (PStr "earlier failure").
Proof.
  split; [by vm_compute|].
  apply (proj2 (report_carries_path_and_error no_traceback 5 failed_before));
    [by vm_compute|discriminate].
Defined.


Lemma report_ignores_duplicate_order_witness :
  generate_json_report no_traceback 5
    (mkAnalyzer
       (mkResult (filepath (results with_duplicates))
                 (analysis_error (results with_duplicates))
                 (file_size_bytes (results with_duplicates))
                 (root_type (results with_duplicates))
                 (max_depth (results with_duplicates))
                 (statistics (results with_duplicates))
                 (structure (results with_duplicates))
                 [mkDup "root.a" "x"; mkDup "root.b" "x"])
       (parsed_data with_duplicates)) =
  generate_json_report no_traceback 5 with_duplicates.
Proof.
  apply (report_ignores_duplicate_order no_traceback 5 with_duplicates
           [mkDup "root.a" "x"; mkDup "root.b" "x"]).
  apply perm_swap.
Defined.

Lemma clean_summary_drops_absent_fields_witness :
  height (summary_to_py (summary_of (PList [PInt 1]))) < 5 /\
  _clean_none_values_report 5 (summary_to_py (summary_of (PList [PInt 1]))) =
    Ok (summary_to_report (summary_of (PList [PInt 1]))).
Proof.
  split; [vm_compute; lia|].
  apply (clean_summary_drops_absent_fields 5 (summary_of (PList [PInt 1]))).
  - apply summary_of_ok.
  - vm_compute. lia.
Defined.

Lemma report_is_pruned_result_witness :
  height (results_to_py (sort_duplicate_keys
            (results (analyze no_traceback 5 JsonAnalyzer_init
                        (PList [PInt 1]))))) < 6 /\
  generate_json_report no_traceback 6
    (analyze no_traceback 5 JsonAnalyzer_init (PList [PInt 1])) =
  report_of (results (analyze no_traceback 5 JsonAnalyzer_init (PList [PInt 1]))).
Proof.
  split; [vm_compute; lia|].
  apply (report_is_pruned_result no_traceback 6
           (analyze no_traceback 5 JsonAnalyzer_init (PList [PInt 1]))).
  - intros s E. vm_compute in E. injection E as <-.
    exact (summary_of_ok (PList [PInt 1])).
  - vm_compute. lia.
Defined.

Lemma report_of_unreadable_file_witness :
  (read_and_parse_json sample_fs no_read_traceback "locked.json").1.2 =
    Some "Error: Permission denied reading file 'locked.json'" /\
  generate_json_report no_traceback 2
    (analyze_json_file sample_fs no_read_traceback sample_abspath no_traceback
                       10 "locked.json") =
  PDict (entry "filepath" PStr (stamped_path sample_abspath "locked.json") ++
         [("analysis_error",
           PStr "Error: Permission denied reading file 'locked.json'")] ++
         entry "file_size_bytes" nat_to_py
           (read_and_parse_json sample_fs no_read_traceback "locked.json").2 ++
         [("duplicate_keys", PList [])]).
Proof.
  split; [by vm_compute|].
  apply (report_of_unreadable_file sample_fs no_read_traceback sample_abspath
           no_traceback 10 2 "locked.json"); [by vm_compute|lia].
Defined.

Lemma report_of_readable_file_witness :
  sample_fs "data.json" = RegularFile (inr 44) (inr scenario_document) /\
  S (height (summary_to_py (summary_of (json_load scenario_document)))) < 6 /\
  py_get (generate_json_report no_traceback 6
            (analyze_json_file sample_fs no_read_traceback sample_abspath
                               no_traceback 3 "data.json")) "max_depth" =
    Some (PInt 2).
Proof.
  split; [by vm_compute|]. split; [vm_compute; lia|].
  rewrite (report_of_readable_file sample_fs no_read_traceback sample_abspath
             no_traceback 3 6 "data.json" 44 scenario_document).
  - by vm_compute.
  - by vm_compute.
  - by vm_compute.
  - vm_compute. lia.
  - vm_compute. lia.
Defined.

End Runs.
